(** * Time normalisation and comparison in the Stoltzen result scrapers

    A shallow embedding of the pure string functions of
    [stoltzen_scraper.py] (class [StoltzenScraper]) and
    [src/stoltzen_stat_scraper.py] (class [StoltzenStatScraper]):
    [parse_time], [time_to_seconds], [is_new_best_time],
    [calculate_time_difference] and [determine_group_from_class]; and of
    the pure parts of [extract_participant_id], [parse_results_table],
    [fetch_participant_profile], [parse_participant_profile] and
    [load_urls_from_file], which take what the HTML library and the file
    hand them as plain lists of texts.

    Text is a [string] holding one character per [ascii], read as a code
    point below 256.  Python integers are unbounded, hence [Z].  [None]
    of Python and a caught exception are both [None] of [option] where
    the source turns the exception into [None]. *)

From Stdlib Require Import ZArith Bool List Lia Ascii String.
From Stdlib Require Import DecimalString DecimalFacts DecimalPos.
Import ListNotations.

Local Open Scope string_scope.
Local Open Scope Z_scope.

(** ** An option monad for the fallible steps *)

Definition bind {A B : Type} (m : option A) (k : A -> option B) : option B :=
  match m with
  | Some a => k a
  | None => None
  end.

Notation "x <- m ;; k" := (bind m (fun x => k))
  (at level 61, m at next level, right associativity).
Notation "' p <- m ;; k" := (bind m (fun x => match x with p => k end))
  (at level 61, p pattern, m at next level, right associativity).

Definition orelse {A : Type} (m1 m2 : option A) : option A :=
  match m1 with
  | Some a => Some a
  | None => m2
  end.

(** ** The Python string primitives the scrapers call *)

Module Py.

(** Truth value of a string: [not s] holds exactly for the empty string. *)
Definition is_empty (s : string) : bool :=
  match s with
  | EmptyString => true
  | String _ _ => false
  end.

(** Truth value of an [Optional[str]]: [None] and [""] are both falsy. *)
Definition falsy (o : option string) : bool :=
  match o with
  | None => true
  | Some s => is_empty s
  end.

(** [o is None] *)
Definition is_none {A : Type} (o : option A) : bool :=
  match o with
  | None => true
  | Some _ => false
  end.

Definition code (c : ascii) : nat := nat_of_ascii c.

(** [\d] and the digits of [int()], below code point 256: there the
    decimal digits are 0-9 only.  The decimal digits of other scripts,
    which [\d] and [int()] take as well, lie beyond the text of this
    development. *)
Definition is_digit (c : ascii) : bool :=
  (48 <=? code c)%nat && (code c <=? 57)%nat.

(** [str.isspace] below code point 256: TAB..CR, FS..US, SPACE, NEL, NBSP. *)
Definition is_space (c : ascii) : bool :=
  ((9 <=? code c)%nat && (code c <=? 13)%nat)
  || ((28 <=? code c)%nat && (code c <=? 32)%nat)
  || (code c =? 133)%nat || (code c =? 160)%nat.

Fixpoint lstrip (s : string) : string :=
  match s with
  | EmptyString => EmptyString
  | String c r => if is_space c then lstrip r else s
  end.

Fixpoint rstrip (s : string) : string :=
  match s with
  | EmptyString => EmptyString
  | String c r =>
      match rstrip r with
      | EmptyString => if is_space c then EmptyString else String c EmptyString
      | r' => String c r'
      end
  end.

(** [s.strip()] *)
Definition strip (s : string) : string := rstrip (lstrip s).

(** [str.lower] below code point 256: A-Z and the Latin-1 capitals
    (192-222 without the multiplication sign 215) move up by 32. *)
Definition lower_char (c : ascii) : ascii :=
  let n := code c in
  if ((65 <=? n)%nat && (n <=? 90)%nat)
     || ((192 <=? n)%nat && (n <=? 222)%nat && negb (n =? 215)%nat)
  then ascii_of_nat (n + 32)
  else c.

Fixpoint lower (s : string) : string :=
  match s with
  | EmptyString => EmptyString
  | String c r => String (lower_char c) (lower r)
  end.

(** [sub in s] *)
Fixpoint contains (sub s : string) : bool :=
  if String.prefix sub s then true
  else match s with
       | EmptyString => false
       | String _ r => contains sub r
       end.

Definition digit_val (c : ascii) : Z := Z.of_nat (code c) - 48.

(** The digit part of an [int()] literal in base 10: digits, with single
    underscores allowed between two digits.  [prev] tells whether the
    character just read was a digit. *)
Fixpoint int_digits (acc : Z) (prev : bool) (s : string) : option Z :=
  match s with
  | EmptyString => if prev then Some acc else None
  | String c r =>
      if is_digit c then int_digits (acc * 10 + digit_val c) true r
      else if (Ascii.eqb c "_" && prev)%bool then
        match r with
        | EmptyString => None
        | String _ _ => int_digits acc false r
        end
      else None
  end.

(** White space as [int()] drops it around a literal, below code point
    256: TAB..CR, SPACE, NEL and NBSP.  The separators FS..US, which
    [str.strip] drops, are no white space for [int()]: it raises on
    them. *)
Definition is_int_space (c : ascii) : bool :=
  ((9 <=? code c)%nat && (code c <=? 13)%nat)
  || (code c =? 32)%nat || (code c =? 133)%nat || (code c =? 160)%nat.

Fixpoint int_lstrip (s : string) : string :=
  match s with
  | EmptyString => EmptyString
  | String c r => if is_int_space c then int_lstrip r else s
  end.

Fixpoint int_rstrip (s : string) : string :=
  match s with
  | EmptyString => EmptyString
  | String c r =>
      match int_rstrip r with
      | EmptyString => if is_int_space c then EmptyString else String c EmptyString
      | r' => String c r'
      end
  end.

Definition int_strip (s : string) : string := int_rstrip (int_lstrip s).

(** [int(s)] on a string; [None] stands for [ValueError].  Surrounding
    white space, as [int()] sees it, is dropped and one sign is accepted.
    The interpreter's configurable cap on the length of a literal
    ([sys.set_int_max_str_digits]) is left out. *)
Definition int (s : string) : option Z :=
  match int_strip s with
  | String "+" r => int_digits 0 false r
  | String "-" r => option_map Z.opp (int_digits 0 false r)
  | r => int_digits 0 false r
  end.

(** Value of a group matched by [\d{n}]: [int()] cannot raise on it. *)
Fixpoint group_val (acc : Z) (s : string) : Z :=
  match s with
  | EmptyString => acc
  | String c r => group_val (acc * 10 + digit_val c) r
  end.

Definition int_group (s : string) : Z := group_val 0 s.

(** [str(n)] for an integer. *)
Definition str (n : Z) : string := NilZero.string_of_int (Z.to_int n).

(** [f"{n:02d}"]: sign first, then the digits padded with zeros so that
    the whole field has at least two characters. *)
Definition fmt_02d (n : Z) : string :=
  let body := str (Z.abs n) in
  if n <? 0 then "-" ++ body
  else if (String.length body <? 2)%nat then "0" ++ body
  else body.

End Py.

(** ** The two regular expressions of [parse_time] and [re.split] *)

Module Re.

Definition is_sep (c : ascii) : bool := Ascii.eqb c "." || Ascii.eqb c ":".

(** Exactly [k] digits at the head of [s]; the digits and the rest. *)
Fixpoint take_digits (k : nat) (s : string) : option (string * string) :=
  match k with
  | O => Some (EmptyString, s)
  | S k' =>
      match s with
      | EmptyString => None
      | String c r =>
          if Py.is_digit c then
            '(d, rest) <- take_digits k' r ;;
            Some (String c d, rest)
          else None
      end
  end.

(** One character of the class [[.:]]. *)
Definition take_sep (s : string) : option string :=
  match s with
  | EmptyString => None
  | String c r => if is_sep c then Some r else None
  end.

(** [(\d{k})[.:](\d{2})[.:](\d{2})] anchored at the head of [s]. *)
Definition groups3 (k : nat) (s : string) : option (string * string * string) :=
  '(a, r) <- take_digits k s ;;
  r <- take_sep r ;;
  '(b, r) <- take_digits 2 r ;;
  r <- take_sep r ;;
  '(c, _) <- take_digits 2 r ;;
  Some (a, b, c).

(** [(\d{k})[.:](\d{2})] anchored at the head of [s]. *)
Definition groups2 (k : nat) (s : string) : option (string * string) :=
  '(a, r) <- take_digits k s ;;
  r <- take_sep r ;;
  '(b, _) <- take_digits 2 r ;;
  Some (a, b).

(** [(\d{1,2})[.:](\d{2})[.:](\d{2})] at the head of [s]: the greedy
    quantifier tries two digits, then backtracks to one. *)
Definition match3 (s : string) : option (string * string * string) :=
  orelse (groups3 2 s) (groups3 1 s).

(** [(\d{1,3})[.:](\d{2})] at the head of [s]: three digits, two, one. *)
Definition match2 (s : string) : option (string * string) :=
  orelse (groups2 3 s) (orelse (groups2 2 s) (groups2 1 s)).

(** [re.search]: the match at the leftmost position that has one. *)
Fixpoint search {G : Type} (m : string -> option G) (s : string) : option G :=
  match m s with
  | Some g => Some g
  | None =>
      match s with
      | EmptyString => None
      | String _ r => search m r
      end
  end.

(** [re.split(r'[.:]', s)]: one more part than there are separators. *)
Fixpoint split (s : string) : list string :=
  match s with
  | EmptyString => [EmptyString]
  | String c r =>
      if is_sep c then EmptyString :: split r
      else match split r with
           | h :: t => String c h :: t
           | [] => [String c EmptyString]
           end
  end.

(** The longest run of digits at the head of [s], and what follows it. *)
Fixpoint span_digits (s : string) : string * string :=
  match s with
  | EmptyString => (EmptyString, EmptyString)
  | String c r =>
      if Py.is_digit c then
        let (d, rest) := span_digits r in (String c d, rest)
      else (EmptyString, s)
  end.

(** [\d+] at the head of [s]: greedy, at least one digit.  In the patterns
    below a shorter run never helps, a digit would follow it. *)
Definition digits1 (s : string) : option (string * string) :=
  let (d, rest) := span_digits s in
  if Py.is_empty d then None else Some (d, rest).

(** [id=(\d+)] at the head of [s]; the group. *)
Definition match_id (s : string) : option string :=
  match s with
  | String c0 (String c1 (String c2 r)) =>
      if Ascii.eqb c0 "i" && Ascii.eqb c1 "d" && Ascii.eqb c2 "=" then
        '(d, _) <- digits1 r ;;
        Some d
      else None
  | _ => None
  end.

(** [(20\d{2})] at the head of [s]; the group. *)
Definition match_year (s : string) : option string :=
  match s with
  | String c0 (String c1 r) =>
      if Ascii.eqb c0 "2" && Ascii.eqb c1 "0" then
        '(d, _) <- take_digits 2 r ;;
        Some (String c0 (String c1 d))
      else None
  | _ => None
  end.

(** One character of [[.:]], kept: the matched text needs it. *)
Definition take_sep_char (s : string) : option (ascii * string) :=
  match s with
  | EmptyString => None
  | String c r => if is_sep c then Some (c, r) else None
  end.

(** [\d+[.:]\d+[.:]\d+] at the head of [s]; the matched text. *)
Definition time3 (s : string) : option string :=
  '(a, r) <- digits1 s ;;
  '(s1, r) <- take_sep_char r ;;
  '(b, r) <- digits1 r ;;
  '(s2, r) <- take_sep_char r ;;
  '(c, _) <- digits1 r ;;
  Some (a ++ String s1 (b ++ String s2 c)).

(** [\d+[.:]\d+] at the head of [s]; the matched text. *)
Definition time2 (s : string) : option string :=
  '(a, r) <- digits1 s ;;
  '(s1, r) <- take_sep_char r ;;
  '(b, _) <- digits1 r ;;
  Some (a ++ String s1 b).

(** [\d+[.:]\d+[.:]\d+|\d+[.:]\d+] at the head of [s], the pattern of
    the profile loop: the first alternative, then the second.  (The stat
    scraper writes it [\d+[.:]\d+(?:[.:]\d+)?], which matches the same
    text.) *)
Definition match_time (s : string) : option string :=
  orelse (time3 s) (time2 s).

(** One given character. *)
Definition take_char (c : ascii) (s : string) : option string :=
  match s with
  | EmptyString => None
  | String x r => if Ascii.eqb x c then Some r else None
  end.

(** [(\d+)\.(\d+)\s*\((\d{4})\)] at the head of [s]; the three groups.
    [\s*] is greedy and an opening bracket must follow it, so it takes
    all the white space there is, as [lstrip] does. *)
Definition match_personal_best (s : string) : option (string * string * string) :=
  '(minutes, r) <- digits1 s ;;
  r <- take_char "." r ;;
  '(seconds, r) <- digits1 r ;;
  r <- take_char "(" (Py.lstrip r) ;;
  '(year, r) <- take_digits 4 r ;;
  _ <- take_char ")" r ;;
  Some (minutes, seconds, year).

End Re.

(** ** The comparison methods, textually the same in both classes

    [is_new_best_time] and [calculate_time_difference] call
    [self.time_to_seconds]; the section takes it as a variable and each
    class instantiates it with its own. *)

Section Comparison.

Variable time_to_seconds : string -> option Z.

Definition is_new_best_time_with
    (current_time best_previous : option string) (best_year : option Z) : bool :=
  if Py.falsy current_time then false
  else if Py.falsy best_previous || Py.is_none best_year then true
  else
    match current_time, best_previous, best_year with
    | Some cur, Some best, Some year =>
        if year >=? 2024 then false
        else
          match time_to_seconds cur, time_to_seconds best with
          | Some current_seconds, Some previous_seconds =>
              current_seconds <? previous_seconds
          | _, _ => false
          end
    | _, _, _ => false
    end.

Definition calculate_time_difference_with
    (current_time best_previous : option string) : option string :=
  if Py.falsy current_time || Py.falsy best_previous then None
  else
    match current_time, best_previous with
    | Some cur, Some best =>
        match time_to_seconds cur, time_to_seconds best with
        | Some current_seconds, Some previous_seconds =>
            let diff_seconds := current_seconds - previous_seconds in
            if diff_seconds =? 0 then Some "0:00"
            else
              let abs_diff := Z.abs diff_seconds in
              let minutes := abs_diff / 60 in
              let seconds := abs_diff mod 60 in
              let sign := if diff_seconds <? 0 then "-" else "+" in
              Some (sign ++ Py.str minutes ++ ":" ++ Py.fmt_02d seconds)
        | _, _ => None
        end
    | _, _ => None
    end.

End Comparison.

(** ** The search for the best previous time, shared by both profile
    functions

    [StoltzenScraper.fetch_participant_profile] and
    [StoltzenStatScraper.parse_participant_profile] walk the tables of
    a profile page with the same innermost code, each calling its own
    [parse_time] and [time_to_seconds].  The page enters as what
    BeautifulSoup hands to the loops: for each table of
    [soup.find_all('table')] its rows, for each row the [get_text()] of
    its cells. *)

Record best : Type := {
  best_time : option string;
  best_year : option Z;
  best_time_seconds : option Z
}.

Definition no_best : best :=
  {| best_time := None; best_year := None; best_time_seconds := None |}.

(** The four fields both functions derive from the best previous time
    and the current time. *)
Record comparison : Type := {
  BesteTidligere : option string;
  BesteAar : option Z;
  NyBestetid : bool;
  Differanse : option string
}.

(** [range(max(0, i-2), min(n, i+3))] without [i]. *)
Definition window (i n : nat) : list nat :=
  filter (fun j => negb (j =? i)%nat)
         (seq (i - 2) (Nat.min n (i + 3) - (i - 2))).

Section History.

Variable parse_time : option string -> option string.
Variable time_to_seconds : string -> option Z.

(** What a cell next to a year cell offers: the parsed time and its
    seconds, when the tests [if time_match], [if parsed_time] and
    [if time_seconds] all pass. *)
Definition offered_time_with (cell : string) : option (string * Z) :=
  let time_text := Py.strip cell in
  matched <- Re.search Re.match_time time_text ;;
  let parsed_time := parse_time (Some matched) in
  if Py.falsy parsed_time then None
  else
    parsed <- parsed_time ;;
    time_seconds <- time_to_seconds parsed ;;
    if time_seconds =? 0 then None else Some (parsed, time_seconds).

(** The innermost update: the offered time replaces the best one when
    there is none yet or when it is strictly smaller. *)
Definition consider_with (year : Z) (b : best) (cell : string) : best :=
  match offered_time_with cell with
  | Some (parsed_time, time_seconds) =>
      if match best_time_seconds b with
         | None => true
         | Some best_seconds => time_seconds <? best_seconds
         end
      then {| best_time := Some parsed_time;
              best_year := Some year;
              best_time_seconds := Some time_seconds |}
      else b
  | None => b
  end.

(** A cell showing a year other than 2024 sends the loop to the cells at
    most two places from it. *)
Definition scan_year_cell_with (cells : list string) (b : best)
    (ic : nat * string) : best :=
  let (i, cell) := ic in
  let cell_text := Py.strip cell in
  match Re.search Re.match_year cell_text with
  | Some group1 =>
      if String.eqb group1 "2024" then b
      else
        let year := Py.int_group group1 in
        fold_left
          (fun b j =>
             match nth_error cells j with
             | Some c => consider_with year b c
             | None => b
             end)
          (window i (List.length cells)) b
  | None => b
  end.

End History.

(** ** class StoltzenStatScraper (src/stoltzen_stat_scraper.py) *)

Module StoltzenStatScraper.

Definition parse_time (time_str : option string) : option string :=
  if Py.falsy time_str then None
  else
    match time_str with
    | None => None
    | Some raw =>
        let time_str := Py.strip raw in
        match Re.search Re.match3 time_str with
        | Some (first, second, third) =>
            let first_num := Py.int_group first in
            if (first_num <=? 60) && (Py.int_group third <? 100) then
              Some (first ++ ":" ++ second)
            else if first_num >? 23 then
              Some (first ++ ":" ++ second)
            else if first_num >? 0 then
              Some (first ++ ":" ++ second ++ ":" ++ third)
            else Some (second ++ ":" ++ third)
        | None =>
            match Re.search Re.match2 time_str with
            | Some (minutes, seconds) => Some (minutes ++ ":" ++ seconds)
            | None => Some time_str
            end
        end
    end.


Definition time_to_seconds (time_str : string) : option Z :=
  if Py.is_empty time_str then None
  else
    match Re.split (Py.strip time_str) with
    | [p0; p1] =>
        minutes <- Py.int p0 ;;
        seconds <- Py.int p1 ;;
        Some (minutes * 60 + seconds)
    | [p0; p1; p2] =>
        first <- Py.int p0 ;;
        second <- Py.int p1 ;;
        third <- Py.int p2 ;;
        if (first <=? 60) && (third <? 100) then Some (first * 60 + second)
        else Some (first * 3600 + second * 60 + third)
    | _ => None
    end.

Definition determine_group_from_class (class_text : option string) : string :=
  if Py.falsy class_text then "Mann"
  else
    match class_text with
    | None => "Mann"
    | Some class_text =>
        let class_lower := Py.lower class_text in
        if Py.contains "kvinner" class_lower || Py.contains "kvinne" class_lower
           || Py.contains "dame" class_lower
        then "Dame"
        else if Py.contains "pluss 90kg" class_lower
                || Py.contains "pluss90kg" class_lower
                || Py.contains "pluss" class_lower
        then "Pluss"
        else if Py.contains "menn" class_lower || Py.contains "mann" class_lower
                || Py.contains "herrer" class_lower
                || Py.contains "herre" class_lower
        then "Mann"
        else "Mann"
    end.

Definition is_new_best_time := is_new_best_time_with time_to_seconds.

Definition calculate_time_difference :=
  calculate_time_difference_with time_to_seconds.

(** *** The best previous time in [parse_participant_profile]

    The variables [best_time], [best_year] and [best_time_seconds] are
    set from the cell with id [personal_best] when its text matches, and
    the table loop touches them only while [best_time] is still falsy.
    The rest of that function (name, class, current time) never writes
    them. *)

(** [personal_best_td] is the [get_text()] of the cell, [None] when the
    page has no such cell. *)
Definition personal_best (personal_best_td : option string) : best :=
  match personal_best_td with
  | None => no_best
  | Some text =>
      match Re.search Re.match_personal_best (Py.strip text) with
      | Some (minutes, seconds, year) =>
          {| best_time := Some (minutes ++ ":" ++ seconds);
             best_year := Some (Py.int_group year);
             best_time_seconds :=
               Some (Py.int_group minutes * 60 + Py.int_group seconds) |}
      | None => no_best
      end
  end.

Definition scan_cell (cells : list string) (b : best) (ic : nat * string) : best :=
  if Py.falsy (best_time b) then
    scan_year_cell_with parse_time time_to_seconds cells b ic
  else b.

Definition scan_row (b : best) (cells : list string) : best :=
  if (2 <=? List.length cells)%nat then
    fold_left (scan_cell cells) (combine (seq 0 (List.length cells)) cells) b
  else b.

Definition history (personal_best_td : option string)
    (tables : list (list (list string))) : best :=
  fold_left (fun b rows => fold_left scan_row rows b) tables
            (personal_best personal_best_td).

(** The fields [parse_participant_profile] derives from the best
    previous time and from [current_year_time]. *)
Definition compare_with_history (current_year_time : option string)
    (personal_best_td : option string) (tables : list (list (list string)))
    : comparison :=
  let b := history personal_best_td tables in
  {| BesteTidligere := best_time b;
     BesteAar := best_year b;
     NyBestetid := is_new_best_time current_year_time (best_time b) (best_year b);
     Differanse := calculate_time_difference current_year_time (best_time b) |}.

(** [load_urls_from_file] on the lines the file yields, each still with
    its line end.  (Opening and reading the file is left to the caller;
    a file that cannot be read gives the empty list.) *)
Definition load_urls_from_file (lines : list string) : list string :=
  fold_left
    (fun urls line =>
       let line := Py.strip line in
       if negb (Py.is_empty line) && negb (String.prefix "#" line) then
         if Py.contains "stat.php?id=" line then (urls ++ [line])%list
         else urls
       else urls)
    lines [].

End StoltzenStatScraper.

(** ** class StoltzenScraper (stoltzen_scraper.py) *)

Module StoltzenScraper.

Definition parse_time (time_str : option string) : option string :=
  if Py.falsy time_str then None
  else
    match time_str with
    | None => None
    | Some raw =>
        let time_str := Py.strip raw in
        match Re.search Re.match3 time_str with
        | Some (hours, minutes, seconds) =>
            if Py.int_group hours >? 23 then Some (minutes ++ ":" ++ seconds)
            else if Py.int_group hours >? 0 then
              Some (hours ++ ":" ++ minutes ++ ":" ++ seconds)
            else Some (minutes ++ ":" ++ seconds)
        | None =>
            match Re.search Re.match2 time_str with
            | Some (minutes, seconds) => Some (minutes ++ ":" ++ seconds)
            | None => Some time_str
            end
        end
    end.

Definition time_to_seconds (time_str : string) : option Z :=
  if Py.is_empty time_str then None
  else
    match Re.split (Py.strip time_str) with
    | [p0; p1] =>
        minutes <- Py.int p0 ;;
        seconds <- Py.int p1 ;;
        Some (minutes * 60 + seconds)
    | [p0; p1; p2] =>
        first <- Py.int p0 ;;
        if first >? 59 then
          minutes <- Py.int p0 ;;
          seconds <- Py.int p1 ;;
          _ <- Py.int p2 ;;
          Some (minutes * 60 + seconds)
        else
          hours <- Py.int p0 ;;
          minutes <- Py.int p1 ;;
          seconds <- Py.int p2 ;;
          Some (hours * 3600 + minutes * 60 + seconds)
    | _ => None
    end.

Definition is_new_best_time := is_new_best_time_with time_to_seconds.

Definition calculate_time_difference :=
  calculate_time_difference_with time_to_seconds.

Definition extract_participant_id (link : option string) : option string :=
  if Py.falsy link then None
  else
    match link with
    | None => None
    | Some link => Re.search Re.match_id link
    end.

(** The category chosen in the loop of [parse_results_table] from the
    text of the class cell ([""] when the row has no fourth cell). *)
Definition current_category (full_class : string) : string :=
  let category_text := Py.lower full_class in
  if Py.contains "kvinner" category_text then "Dame"
  else if Py.contains "pluss 90kg" category_text
          || Py.contains "pluss90kg" category_text
  then "Pluss"
  else if Py.contains "menn" category_text || Py.contains "herrer" category_text
  then "Mann"
  else "Mann".

(** *** The history loop of [fetch_participant_profile] *)

Definition offered_time : string -> option (string * Z) :=
  offered_time_with parse_time time_to_seconds.

Definition consider : Z -> best -> string -> best :=
  consider_with parse_time time_to_seconds.

Definition scan_cell : list string -> best -> nat * string -> best :=
  scan_year_cell_with parse_time time_to_seconds.

Definition scan_row (b : best) (cells : list string) : best :=
  if (2 <=? List.length cells)%nat then
    fold_left (scan_cell cells) (combine (seq 0 (List.length cells)) cells) b
  else b.

Definition history (tables : list (list (list string))) : best :=
  fold_left (fun b rows => fold_left scan_row rows b) tables no_best.

(** The fields [fetch_participant_profile] derives from the history and
    from the time already stored under ["Tid"]. *)
Definition compare_with_history
    (tid : option string) (tables : list (list (list string))) : comparison :=
  let b := history tables in
  {| BesteTidligere := best_time b;
     BesteAar := best_year b;
     NyBestetid := is_new_best_time tid (best_time b) (best_year b);
     Differanse := calculate_time_difference tid (best_time b) |}.

End StoltzenScraper.

(** ** Vocabulary of the statements *)

(** A string made of digits only. *)
Fixpoint all_digits (s : string) : bool :=
  match s with
  | EmptyString => true
  | String c r => Py.is_digit c && all_digits r
  end.

(** A token [A sep B sep C] of the three-group shape: [A] has [lo] to [hi]
    digits, [B] and [C] two digits each, each separator is [.] or [:]. *)
Definition three_groups (lo hi : nat) (A B C : string) (s1 s2 : ascii) : Prop :=
  all_digits A = true /\ (lo <= String.length A <= hi)%nat
  /\ all_digits B = true /\ String.length B = 2%nat
  /\ all_digits C = true /\ String.length C = 2%nat
  /\ Re.is_sep s1 = true /\ Re.is_sep s2 = true.

Definition token3 (A B C : string) (s1 s2 : ascii) : string :=
  A ++ String s1 (B ++ String s2 C).

(** The canonical two-group form [M:SS]: one to three digits, a colon,
    two digits. *)
Definition canonical_m_ss (out : string) : Prop :=
  exists m ss,
    out = m ++ ":" ++ ss
    /\ all_digits m = true /\ (1 <= String.length m <= 3)%nat
    /\ all_digits ss = true /\ String.length ss = 2%nat.

(** [time_to_seconds] of an optional time: an absent time has no seconds
    value. *)
Definition seconds_of (time_to_seconds : string -> option Z)
    (o : option string) : option Z :=
  match o with
  | Some s => time_to_seconds s
  | None => None
  end.

(** The new-best condition as the specification words it: the current
    time is present, and either best time and best year are both absent,
    or the best year is before 2024 and the current time is the faster
    one. *)
Definition worded_is_new_best (time_to_seconds : string -> option Z)
    (current_time best_previous : option string) (best_year : option Z) : bool :=
  negb (Py.falsy current_time)
  && ((Py.falsy best_previous
       && match best_year with None => true | Some _ => false end)
      || (match best_year with Some y => y <? 2024 | None => false end
          && match seconds_of time_to_seconds current_time,
                   seconds_of time_to_seconds best_previous with
             | Some c, Some b => c <? b
             | _, _ => false
             end)).

(** The decimal digit [d] as a character, and a field of exactly two
    decimal digits. *)
Definition digit_char (d : Z) : ascii := ascii_of_nat (48 + Z.to_nat d).

Definition two_digits (n : Z) : string :=
  String (digit_char (n / 10)) (String (digit_char (n mod 10)) EmptyString).

(** The delta string as the specification words it, for a difference
    [d] of current minus best seconds. *)
Definition worded_delta (d : Z) : string :=
  if d =? 0 then "0:00"
  else (if d <? 0 then "-" else "+")
       ++ Py.str (Z.abs d / 60) ++ ":" ++ two_digits (Z.abs d mod 60).

(** The keywords [determine_group_from_class] looks for. *)
Definition group_keywords : list string :=
  ["kvinner"; "kvinne"; "dame"; "pluss 90kg"; "pluss90kg"; "pluss";
   "menn"; "mann"; "herrer"; "herre"].

(** The value of a decimal numeral read from its most significant digit. *)
Fixpoint uint_val (acc : Z) (d : Decimal.uint) : Z :=
  match d with
  | Decimal.Nil => acc
  | Decimal.D0 l => uint_val (acc * 10 + 0) l
  | Decimal.D1 l => uint_val (acc * 10 + 1) l
  | Decimal.D2 l => uint_val (acc * 10 + 2) l
  | Decimal.D3 l => uint_val (acc * 10 + 3) l
  | Decimal.D4 l => uint_val (acc * 10 + 4) l
  | Decimal.D5 l => uint_val (acc * 10 + 5) l
  | Decimal.D6 l => uint_val (acc * 10 + 6) l
  | Decimal.D7 l => uint_val (acc * 10 + 7) l
  | Decimal.D8 l => uint_val (acc * 10 + 8) l
  | Decimal.D9 l => uint_val (acc * 10 + 9) l
  end.

(** A matcher that needs a digit first and reads no white space. *)
Record trim_blind {G : Type} (m : string -> option G) : Prop := {
  blind_rstrip : forall s, m (Py.rstrip s) = m s;
  blind_empty : m EmptyString = None;
  blind_space : forall c r, Py.is_space c = true -> m (String c r) = None
}.

(** Every character of a string is in a class. *)
Fixpoint all_chars (p : ascii -> bool) (s : string) : bool :=
  match s with
  | EmptyString => true
  | String c r => p c && all_chars p r
  end.

(** A character of a time: a digit, [.] or [:]. *)
Definition is_time_char (c : ascii) : bool := Py.is_digit c || Re.is_sep c.

(** The part of a delta string after its sign: minutes in decimal, a
    colon, seconds as two digits. *)
Definition delta_magnitude (n : Z) : string :=
  Py.str (n / 60) ++ ":" ++ two_digits (n mod 60).

(** A string that is empty or starts with something else than a digit:
    what may follow a greedy run of digits. *)
Definition ends_digits (r : string) : bool :=
  match r with
  | EmptyString => true
  | String c _ => negb (Py.is_digit c)
  end.

(** What the table loop keeps true of its three variables: all absent,
    or a best time and its seconds that satisfy [P] and a best year that
    satisfies [Y]. *)
Definition kept (P : string -> Z -> Prop) (Y : Z -> Prop) (b : best) : Prop :=
  b = no_best
  \/ exists (t : string) (y n : Z),
       b = {| best_time := Some t; best_year := Some y;
              best_time_seconds := Some n |}
       /\ P t n /\ Y y.

(** A year the table loop accepts: the value of a match of [20\d{2}]. *)
Definition history_year (y : Z) : Prop := 2000 <= y <= 2099.

(** Best time and best year as the profile loops set them: both absent,
    or a non-empty best time together with a best year. *)
Definition paired (best_previous : option string) (best_year : option Z)
    : Prop :=
  (best_previous = None /\ best_year = None)
  \/ exists (t : string) (y : Z),
       best_previous = Some t /\ Py.is_empty t = false /\ best_year = Some y.

(** What holds of a time on offer and its seconds, for a given
    [time_to_seconds]. *)
Definition sound_offer (time_to_seconds : string -> option Z)
    (t : string) (n : Z) : Prop :=
  Py.is_empty t = false /\ all_chars is_time_char t = true
  /\ time_to_seconds t = Some n /\ 0 < n.

(** The cells the loop looks at for the year cell at index [i]: those at
    most two places away, [i] itself left out, in index order. *)
Definition neighbours (cells : list string) (i : nat) : list string :=
  flat_map (fun j => match nth_error cells j with
                     | Some c => [c]
                     | None => []
                     end)
           (window i (List.length cells)).

(** The (year, cell) pairs the history loop considers, in its order. *)
Definition cell_candidates (cells : list string) (ic : nat * string)
    : list (Z * string) :=
  match Re.search Re.match_year (Py.strip (snd ic)) with
  | Some g =>
      if String.eqb g "2024" then []
      else map (pair (Py.int_group g)) (neighbours cells (fst ic))
  | None => []
  end.

Definition row_candidates (cells : list string) : list (Z * string) :=
  if (2 <=? List.length cells)%nat then
    flat_map (cell_candidates cells) (combine (seq 0 (List.length cells)) cells)
  else [].

Definition candidates (tables : list (list (list string))) : list (Z * string) :=
  flat_map (flat_map row_candidates) tables.

(** The same pairs said without the loop: in some row of at least two
    cells, cell [i] shows a year other than 2024 (the first [20dd] of its
    trimmed text) and [c] is another cell of the row at most two places
    from it. *)
Definition year_neighbour (tables : list (list (list string)))
    (y : Z) (c : string) : Prop :=
  exists (rows : list (list string)) (cells : list string)
         (i j : nat) (ci g : string),
    In rows tables /\ In cells rows /\ (2 <= List.length cells)%nat
    /\ nth_error cells i = Some ci
    /\ Re.search Re.match_year (Py.strip ci) = Some g
    /\ g <> "2024" /\ y = Py.int_group g
    /\ j <> i /\ (i - 2 <= j <= i + 2)%nat
    /\ nth_error cells j = Some c.

(** One step of the loop on a candidate. *)
Definition consider_candidate_with
    (parse_time : option string -> option string)
    (time_to_seconds : string -> option Z)
    (b : best) (yc : Z * string) : best :=
  consider_with parse_time time_to_seconds (fst yc) b (snd yc).

(** The candidates again, one group for each cell of each row: what the
    stat scraper, which tests [if not best_time] once for a cell, passes
    over or walks through as a whole. *)
Definition row_groups (cells : list string) : list (list (Z * string)) :=
  if (2 <=? List.length cells)%nat then
    map (cell_candidates cells) (combine (seq 0 (List.length cells)) cells)
  else [].

Definition cell_groups (tables : list (list (list string)))
    : list (list (Z * string)) :=
  flat_map (flat_map row_groups) tables.

(** One cell of the stat scraper's loop on its group of candidates. *)
Definition guarded_step (b : best) (g : list (Z * string)) : best :=
  if Py.falsy (best_time b) then
    fold_left (consider_candidate_with StoltzenStatScraper.parse_time
                 StoltzenStatScraper.time_to_seconds) g b
  else b.

(** A line [load_urls_from_file] keeps, once trimmed. *)
Definition valid_url (line : string) : bool :=
  negb (Py.is_empty line) && negb (String.prefix "#" line)
  && Py.contains "stat.php?id=" line.

(** * Properties *)

(** ** Character classes *)

Lemma digit_not_space (c : ascii) : Py.is_digit c = true -> Py.is_space c = false.
Proof. destruct c as [[] [] [] [] [] [] [] []]; vm_compute; congruence. Qed.

Lemma digit_not_sep (c : ascii) : Py.is_digit c = true -> Re.is_sep c = false.
Proof. destruct c as [[] [] [] [] [] [] [] []]; vm_compute; congruence. Qed.

Lemma sep_not_digit (c : ascii) : Re.is_sep c = true -> Py.is_digit c = false.
Proof. destruct c as [[] [] [] [] [] [] [] []]; vm_compute; congruence. Qed.

Lemma digit_val_range (c : ascii) : Py.is_digit c = true -> 0 <= Py.digit_val c <= 9.
Proof.
  unfold Py.is_digit, Py.digit_val.
  rewrite andb_true_iff, !Nat.leb_le. lia.
Qed.

Lemma colon_is_sep : Re.is_sep ":" = true.
Proof. reflexivity. Qed.

Lemma colon_not_digit : Py.is_digit ":" = false.
Proof. reflexivity. Qed.

(** Evaluate the scanners on a string whose characters are variables:
    unfold the recursive definitions but keep the character classes
    folded, and rewrite with what is known of each character. *)
Ltac char_facts :=
  repeat match goal with
  | H : Py.is_digit ?c = true |- _ =>
      lazymatch goal with
      | _ : Re.is_sep c = false |- _ => fail
      | _ => pose proof (digit_not_space c H); pose proof (digit_not_sep c H)
      end
  | H : Re.is_sep ?c = true |- _ =>
      lazymatch goal with
      | _ : Py.is_digit c = false |- _ => fail
      | _ => pose proof (sep_not_digit c H)
      end
  end.

Ltac rewrite_chars :=
  repeat match goal with
  | H : Py.is_digit _ = _ |- _ => rewrite H
  | H : Py.is_space _ = _ |- _ => rewrite H
  | H : Re.is_sep _ = _ |- _ => rewrite H
  | |- _ => rewrite colon_is_sep
  | |- _ => rewrite colon_not_digit
  end.

Ltac scan :=
  char_facts;
  repeat (first
    [ progress rewrite_chars
    | progress unfold Re.match3, Re.match2, Re.groups3, Re.groups2
    | progress cbn [Py.strip Py.lstrip Py.rstrip Py.falsy Py.is_empty
                    Re.search Re.match3 Re.match2 Re.groups3 Re.groups2
                    Re.take_digits Re.take_sep bind orelse
                    String.append] ]).

(** Split a digit string of known length into its characters. *)
Ltac chars_of s :=
  repeat match goal with
  | H : (_ <= String.length s <= _)%nat |- _ => destruct s; cbn [String.length all_digits] in *
  | H : String.length s = _ |- _ => destruct s; cbn [String.length all_digits] in *
  end.

Lemma all_digits_cons (c : ascii) (r : string) :
  all_digits (String c r) = true -> Py.is_digit c = true /\ all_digits r = true.
Proof. cbn [all_digits]. apply andb_true_iff. Qed.

Lemma two_digits_inv (s : string) :
  all_digits s = true -> String.length s = 2%nat ->
  exists c1 c2, s = String c1 (String c2 EmptyString)
                /\ Py.is_digit c1 = true /\ Py.is_digit c2 = true.
Proof.
  intros Hd Hl.
  destruct s as [|c1 [|c2 [|c3 r]]]; try discriminate.
  apply all_digits_cons in Hd as [H1 Hd].
  apply all_digits_cons in Hd as [H2 _].
  exists c1, c2. auto.
Qed.

Lemma one_or_two_digits_inv (s : string) :
  all_digits s = true -> (1 <= String.length s <= 2)%nat ->
  (exists c1, s = String c1 EmptyString /\ Py.is_digit c1 = true)
  \/ (exists c1 c2, s = String c1 (String c2 EmptyString)
                    /\ Py.is_digit c1 = true /\ Py.is_digit c2 = true).
Proof.
  intros Hd Hl.
  destruct s as [|c1 [|c2 [|c3 r]]]; cbn [String.length] in Hl; try lia.
  - left. apply all_digits_cons in Hd as [H1 _]. eauto.
  - right. apply all_digits_cons in Hd as [H1 Hd].
    apply all_digits_cons in Hd as [H2 _]. eauto 6.
Qed.

(** ** What the patterns capture *)

Lemma take_digits_spec (k : nat) (s d r : string) :
  Re.take_digits k s = Some (d, r) ->
  all_digits d = true /\ String.length d = k /\ s = d ++ r.
Proof.
  revert s d r. induction k as [|k IH]; intros s d r H; cbn [Re.take_digits] in H.
  - injection H as <- <-. auto.
  - destruct s as [|c s']; [discriminate|].
    destruct (Py.is_digit c) eqn:Ec; [|discriminate].
    destruct (Re.take_digits k s') as [[d' r']|] eqn:Et; [|discriminate].
    cbn [bind] in H. injection H as <- <-.
    destruct (IH s' d' r' Et) as (Hd & Hl & ->).
    cbn [all_digits String.length String.append]. rewrite Ec, Hd, Hl. auto.
Qed.

Lemma groups3_spec (k : nat) (s a b c : string) :
  Re.groups3 k s = Some (a, b, c) ->
  all_digits a = true /\ String.length a = k
  /\ all_digits b = true /\ String.length b = 2%nat
  /\ all_digits c = true /\ String.length c = 2%nat.
Proof.
  unfold Re.groups3. intros H.
  destruct (Re.take_digits k s) as [[a' r1]|] eqn:E1; [|discriminate].
  cbn [bind] in H.
  destruct (Re.take_sep r1) as [r2|]; [|discriminate]. cbn [bind] in H.
  destruct (Re.take_digits 2 r2) as [[b' r3]|] eqn:E2; [|discriminate].
  cbn [bind] in H.
  destruct (Re.take_sep r3) as [r4|]; [|discriminate]. cbn [bind] in H.
  destruct (Re.take_digits 2 r4) as [[c' r5]|] eqn:E3; [|discriminate].
  cbn [bind] in H. injection H as <- <- <-.
  apply take_digits_spec in E1 as (? & ? & _).
  apply take_digits_spec in E2 as (? & ? & _).
  apply take_digits_spec in E3 as (? & ? & _). auto 10.
Qed.

Lemma groups2_spec (k : nat) (s a b : string) :
  Re.groups2 k s = Some (a, b) ->
  all_digits a = true /\ String.length a = k
  /\ all_digits b = true /\ String.length b = 2%nat.
Proof.
  unfold Re.groups2. intros H.
  destruct (Re.take_digits k s) as [[a' r1]|] eqn:E1; [|discriminate].
  cbn [bind] in H.
  destruct (Re.take_sep r1) as [r2|]; [|discriminate]. cbn [bind] in H.
  destruct (Re.take_digits 2 r2) as [[b' r3]|] eqn:E2; [|discriminate].
  cbn [bind] in H. injection H as <- <-.
  apply take_digits_spec in E1 as (? & ? & _).
  apply take_digits_spec in E2 as (? & ? & _). auto.
Qed.

Lemma search_found {G : Type} (m : string -> option G) (s : string) (g : G) :
  Re.search m s = Some g -> exists s' : string, m s' = Some g.
Proof.
  induction s as [|c r IH]; cbn [Re.search]; intros H.
  - destruct (m EmptyString) eqn:E; [|discriminate]. exists EmptyString. congruence.
  - destruct (m (String c r)) eqn:E; [exists (String c r); congruence|].
    apply IH, H.
Qed.

(** The groups of a three-group match: one or two digits, then two and
    two. *)
Lemma search_match3_groups (s a b c : string) :
  Re.search Re.match3 s = Some (a, b, c) ->
  all_digits a = true /\ (1 <= String.length a <= 2)%nat
  /\ all_digits b = true /\ String.length b = 2%nat
  /\ all_digits c = true /\ String.length c = 2%nat.
Proof.
  intros H. apply search_found in H as (s' & H). unfold Re.match3, orelse in H.
  destruct (Re.groups3 2 s') as [g|] eqn:E.
  - injection H as ->. apply groups3_spec in E. intuition lia.
  - apply groups3_spec in H. intuition lia.
Qed.

(** The groups of a two-group match put together are a canonical
    [M:SS]. *)
Lemma search_match2_canonical (s m ss : string) :
  Re.search Re.match2 s = Some (m, ss) -> canonical_m_ss (m ++ ":" ++ ss).
Proof.
  intros H. apply search_found in H as (s' & H). unfold Re.match2, orelse in H.
  exists m, ss. split; [reflexivity|].
  destruct (Re.groups2 3 s') as [g|] eqn:E3.
  { injection H as ->. apply groups2_spec in E3. intuition lia. }
  destruct (Re.groups2 2 s') as [g|] eqn:E2.
  { injection H as ->. apply groups2_spec in E2. intuition lia. }
  apply groups2_spec in H. intuition lia.
Qed.

(** ** [int()] on a matched group *)

Lemma rstrip_digits (s : string) : all_digits s = true -> Py.rstrip s = s.
Proof.
  induction s as [|c r IH]; [reflexivity|].
  intros H. apply all_digits_cons in H as [Hc Hr].
  cbn [Py.rstrip]. rewrite (IH Hr).
  destruct r; [rewrite (digit_not_space c Hc)|]; reflexivity.
Qed.

Lemma strip_digits (s : string) : all_digits s = true -> Py.strip s = s.
Proof.
  intros H. unfold Py.strip.
  destruct s as [|c r]; [reflexivity|].
  pose proof H as H'. apply all_digits_cons in H' as [Hc _].
  cbn [Py.lstrip]. rewrite (digit_not_space c Hc). apply rstrip_digits, H.
Qed.

(** What [int()] drops, [str.strip] drops too; not the other way round. *)
Lemma int_space_is_space (c : ascii) :
  Py.is_int_space c = true -> Py.is_space c = true.
Proof.
  destruct c as [[] [] [] [] [] [] [] []]; vm_compute; congruence.
Qed.

Lemma digit_not_int_space (c : ascii) :
  Py.is_digit c = true -> Py.is_int_space c = false.
Proof.
  intros H. destruct (Py.is_int_space c) eqn:E; [|reflexivity].
  apply int_space_is_space in E. rewrite (digit_not_space c H) in E.
  discriminate E.
Qed.

Lemma int_rstrip_digits (s : string) :
  all_digits s = true -> Py.int_rstrip s = s.
Proof.
  induction s as [|c r IH]; [reflexivity|].
  intros H. apply all_digits_cons in H as [Hc Hr].
  cbn [Py.int_rstrip]. rewrite (IH Hr).
  destruct r; [rewrite (digit_not_int_space c Hc)|]; reflexivity.
Qed.

Lemma int_strip_digits (s : string) :
  all_digits s = true -> Py.int_strip s = s.
Proof.
  intros H. unfold Py.int_strip.
  destruct s as [|c r]; [reflexivity|].
  pose proof H as H'. apply all_digits_cons in H' as [Hc _].
  cbn [Py.int_lstrip]. rewrite (digit_not_int_space c Hc).
  apply int_rstrip_digits, H.
Qed.

Lemma int_digits_group (s : string) (acc : Z) (prev : bool) :
  all_digits s = true -> s <> EmptyString \/ prev = true ->
  Py.int_digits acc prev s = Some (Py.group_val acc s).
Proof.
  revert acc prev. induction s as [|c r IH]; intros acc prev H Hne.
  - destruct Hne as [Hne | ->]; [congruence | reflexivity].
  - apply all_digits_cons in H as [Hc Hr].
    cbn [Py.int_digits Py.group_val]. rewrite Hc. apply IH; auto.
Qed.

(** [int(g)] succeeds on a non-empty group of digits, with the value
    [parse_time] compares. *)
Lemma int_of_group (g : string) :
  all_digits g = true -> g <> EmptyString -> Py.int g = Some (Py.int_group g).
Proof.
  intros H Hne. unfold Py.int, Py.int_group. rewrite (int_strip_digits g H).
  destruct g as [|c r]; [congruence|].
  pose proof H as H'. apply all_digits_cons in H' as [Hc _].
  rewrite <- (int_digits_group (String c r) 0 false H) by (left; discriminate).
  destruct c as [[] [] [] [] [] [] [] []];
    try (vm_compute in Hc; discriminate Hc); reflexivity.
Qed.

(** The three-group pattern finds a whole token [A sep B sep C] at its
    first position, with [A] of one or two digits. *)
Lemma search_match3_token (A B C : string) (s1 s2 : ascii) :
  three_groups 1 2 A B C s1 s2 ->
  Py.strip (token3 A B C s1 s2) = token3 A B C s1 s2
  /\ Py.is_empty (token3 A B C s1 s2) = false
  /\ Re.search Re.match3 (token3 A B C s1 s2) = Some (A, B, C).
Proof.
  intros (HA & LA & HB & LB & HC & LC & Hs1 & Hs2). unfold token3.
  destruct (two_digits_inv B HB LB) as (b1 & b2 & -> & Hb1 & Hb2).
  destruct (two_digits_inv C HC LC) as (c1 & c2 & -> & Hc1 & Hc2).
  destruct (one_or_two_digits_inv A HA LA)
    as [(a1 & -> & Ha1) | (a1 & a2 & -> & Ha1 & Ha2)];
    scan; auto.
Qed.

Lemma int_group_two_digits (C : string) :
  all_digits C = true -> String.length C = 2%nat -> 0 <= Py.int_group C < 100.
Proof.
  intros HC LC.
  destruct (two_digits_inv C HC LC) as (c1 & c2 & -> & Hc1 & Hc2).
  apply digit_val_range in Hc1, Hc2.
  unfold Py.int_group. cbn [Py.group_val]. lia.
Qed.

(** With a third group below 100 the first two branches of
    [StoltzenStatScraper.parse_time] cover every first group, and both
    return the same value. *)
Lemma stat_branches {T : Type} (a c : Z) (x y : T) :
  c < 100 ->
  (if (a <=? 60) && (c <? 100) then x else if a >? 23 then x else y) = x.
Proof.
  intros Hc.
  destruct (Z.ltb_spec c 100); [|lia].
  destruct (Z.leb_spec a 60); cbn [andb]; [reflexivity|].
  rewrite Z.gtb_ltb. destruct (Z.ltb_spec 23 a); [reflexivity|lia].
Qed.

(** In [StoltzenStatScraper.parse_time] every three-group token yields
    its first two groups. *)
Lemma stat_parse_time_token (A B C : string) (s1 s2 : ascii) :
  three_groups 1 2 A B C s1 s2 ->
  StoltzenStatScraper.parse_time (Some (token3 A B C s1 s2))
  = Some (A ++ ":" ++ B).
Proof.
  intros H.
  destruct (search_match3_token A B C s1 s2 H) as (Hstrip & Hne & Hsearch).
  destruct H as (_ & _ & _ & _ & HC & LC & _).
  pose proof (int_group_two_digits C HC LC) as HCv.
  unfold StoltzenStatScraper.parse_time.
  cbn [Py.falsy]. rewrite Hne, Hstrip, Hsearch.
  apply stat_branches. lia.
Qed.

(** A first group of three digits is not matched whole: the pattern takes
    at most two, and [re.search] finds the token from its second digit. *)
Lemma stat_parse_time_three_digit_first (a0 : ascii) (A B C : string) (s1 s2 : ascii) :
  Py.is_digit a0 = true ->
  three_groups 2 2 A B C s1 s2 ->
  StoltzenStatScraper.parse_time (Some (String a0 (token3 A B C s1 s2)))
  = Some (A ++ ":" ++ B).
Proof.
  intros Ha0 (HA & LA & HB & LB & HC & LC & Hs1 & Hs2).
  pose proof (int_group_two_digits C HC LC) as HCv.
  destruct (two_digits_inv A HA) as (x1 & x2 & -> & Hx1 & Hx2); [lia|].
  destruct (two_digits_inv B HB LB) as (b1 & b2 & -> & Hb1 & Hb2).
  destruct (two_digits_inv C HC LC) as (c1 & c2 & -> & Hc1 & Hc2).
  unfold StoltzenStatScraper.parse_time, token3. scan.
  apply stat_branches. lia.
Qed.

(** ** Trimming does not change what the patterns find *)

Lemma space_not_digit (c : ascii) : Py.is_space c = true -> Py.is_digit c = false.
Proof. destruct c as [[] [] [] [] [] [] [] []]; vm_compute; congruence. Qed.

Lemma space_not_sep (c : ascii) : Py.is_space c = true -> Re.is_sep c = false.
Proof. destruct c as [[] [] [] [] [] [] [] []]; vm_compute; congruence. Qed.

Lemma rstrip_cons (c : ascii) (r : string) :
  Py.rstrip (String c r)
  = if Py.is_space c && Py.is_empty (Py.rstrip r) then EmptyString
    else String c (Py.rstrip r).
Proof.
  cbn [Py.rstrip]. destruct (Py.rstrip r); cbn [Py.is_empty].
  - rewrite andb_true_r. reflexivity.
  - rewrite andb_false_r. reflexivity.
Qed.

Lemma take_digits_rstrip (k : nat) (s : string) :
  Re.take_digits k (Py.rstrip s)
  = match Re.take_digits k s with
    | Some (d, r) => Some (d, Py.rstrip r)
    | None => None
    end.
Proof.
  revert s. induction k as [|k IH]; intros s; [reflexivity|].
  destruct s as [|c r]; [reflexivity|].
  rewrite rstrip_cons.
  destruct (Py.is_space c) eqn:Es; cbn [andb].
  - cbn [Re.take_digits]. rewrite (space_not_digit c Es).
    destruct (Py.is_empty (Py.rstrip r)); cbn [Re.take_digits];
      [|rewrite (space_not_digit c Es)]; reflexivity.
  - cbn [Re.take_digits]. destruct (Py.is_digit c); [|reflexivity].
    rewrite IH. destruct (Re.take_digits k r) as [[d r']|]; reflexivity.
Qed.

Lemma take_sep_rstrip (s : string) :
  Re.take_sep (Py.rstrip s) = option_map Py.rstrip (Re.take_sep s).
Proof.
  destruct s as [|c r]; [reflexivity|].
  rewrite rstrip_cons.
  destruct (Py.is_space c) eqn:Es; cbn [andb].
  - cbn [Re.take_sep]. rewrite (space_not_sep c Es).
    destruct (Py.is_empty (Py.rstrip r)); cbn [Re.take_sep];
      [|rewrite (space_not_sep c Es)]; reflexivity.
  - cbn [Re.take_sep]. destruct (Re.is_sep c); reflexivity.
Qed.

Lemma groups3_rstrip (k : nat) (s : string) :
  Re.groups3 k (Py.rstrip s) = Re.groups3 k s.
Proof.
  unfold Re.groups3. rewrite take_digits_rstrip.
  destruct (Re.take_digits k s) as [[a r1]|]; cbn [bind]; [|reflexivity].
  rewrite take_sep_rstrip.
  destruct (Re.take_sep r1) as [r2|]; cbn [bind option_map]; [|reflexivity].
  rewrite take_digits_rstrip.
  destruct (Re.take_digits 2 r2) as [[b r3]|]; cbn [bind]; [|reflexivity].
  rewrite take_sep_rstrip.
  destruct (Re.take_sep r3) as [r4|]; cbn [bind option_map]; [|reflexivity].
  rewrite take_digits_rstrip.
  destruct (Re.take_digits 2 r4) as [[c r5]|]; reflexivity.
Qed.

Lemma groups2_rstrip (k : nat) (s : string) :
  Re.groups2 k (Py.rstrip s) = Re.groups2 k s.
Proof.
  unfold Re.groups2. rewrite take_digits_rstrip.
  destruct (Re.take_digits k s) as [[a r1]|]; cbn [bind]; [|reflexivity].
  rewrite take_sep_rstrip.
  destruct (Re.take_sep r1) as [r2|]; cbn [bind option_map]; [|reflexivity].
  rewrite take_digits_rstrip.
  destruct (Re.take_digits 2 r2) as [[b r3]|]; reflexivity.
Qed.

Lemma match3_trim_blind : trim_blind Re.match3.
Proof.
  split.
  - intros s. unfold Re.match3. rewrite !groups3_rstrip. reflexivity.
  - reflexivity.
  - intros c r Hc. unfold Re.match3, Re.groups3. cbn [Re.take_digits].
    rewrite (space_not_digit c Hc). reflexivity.
Qed.

Lemma match2_trim_blind : trim_blind Re.match2.
Proof.
  split.
  - intros s. unfold Re.match2. rewrite !groups2_rstrip. reflexivity.
  - reflexivity.
  - intros c r Hc. unfold Re.match2, Re.groups2. cbn [Re.take_digits].
    rewrite (space_not_digit c Hc). reflexivity.
Qed.

Lemma search_rstrip {G : Type} (m : string -> option G) (s : string) :
  trim_blind m -> Re.search m (Py.rstrip s) = Re.search m s.
Proof.
  intros [Hr He Hs]. induction s as [|c r IH]; [reflexivity|].
  cbn [Re.search]. rewrite <- (Hr (String c r)).
  rewrite rstrip_cons.
  destruct (Py.is_space c && Py.is_empty (Py.rstrip r)) eqn:E.
  - apply andb_true_iff in E as [_ E].
    cbn [Re.search]. rewrite He. rewrite <- IH.
    destruct (Py.rstrip r); [|discriminate]. cbn [Re.search]. rewrite He. reflexivity.
  - cbn [Re.search]. rewrite IH. reflexivity.
Qed.

Lemma search_lstrip {G : Type} (m : string -> option G) (s : string) :
  trim_blind m -> Re.search m (Py.lstrip s) = Re.search m s.
Proof.
  intros [Hr He Hs]. induction s as [|c r IH]; [reflexivity|].
  cbn [Py.lstrip]. destruct (Py.is_space c) eqn:E; [|reflexivity].
  rewrite IH. cbn [Re.search]. rewrite (Hs c r E). reflexivity.
Qed.

(** [re.search] finds the same groups in the trimmed string as in the
    string itself. *)
Lemma search_strip {G : Type} (m : string -> option G) (s : string) :
  trim_blind m -> Re.search m (Py.strip s) = Re.search m s.
Proof.
  intros H. unfold Py.strip. rewrite (search_rstrip m _ H). apply search_lstrip, H.
Qed.

(** ** Claims about [parse_time] *)

(** C1, as the claim words it, fails: the first group is returned as it
    was matched, so [parse_time("07.54.23")] is ["07:54"] in
    [StoltzenStatScraper] (and ["07:54:23"] in [StoltzenScraper]), not
    ["7:54"]. *)
Lemma parse_time_07_54_23_keeps_zero :
  StoltzenStatScraper.parse_time (Some "07.54.23") = Some "07:54"
  /\ StoltzenStatScraper.parse_time (Some "07.54.23") <> Some "7:54"
  /\ StoltzenScraper.parse_time (Some "07.54.23") <> Some "7:54".
Proof. repeat split; vm_compute; congruence. Qed.

(** C1 (amended): for a token [A sep B sep C] with [A] of one or two
    digits, [B] and [C] of two digits and separators [.] or [:], with
    [A <= 60], the third group is below 100 and
    [StoltzenStatScraper.parse_time] returns [A], a colon and [B], the
    digits of [A] exactly as matched. *)
Theorem parse_time_minutes_seconds (A B C : string) (s1 s2 : ascii) :
  three_groups 1 2 A B C s1 s2 ->
  Py.int_group A <= 60 ->
  (Py.int_group A <=? 60) && (Py.int_group C <? 100) = true
  /\ StoltzenStatScraper.parse_time (Some (token3 A B C s1 s2))
     = Some (A ++ ":" ++ B).
Proof.
  intros H HA. split.
  - destruct H as (_ & _ & _ & _ & HC & LC & _).
    pose proof (int_group_two_digits C HC LC).
    apply andb_true_iff. split; [apply Z.leb_le | apply Z.ltb_lt]; lia.
  - apply stat_parse_time_token, H.
Qed.

Lemma parse_time_minutes_seconds_witness :
  three_groups 1 2 "7" "54" "23" "." "."
  /\ Py.int_group "7" <= 60
  /\ StoltzenStatScraper.parse_time (Some "7.54.23") = Some "7:54".
Proof.
  assert (H : three_groups 1 2 "7" "54" "23" "." ".")
    by (unfold three_groups; cbn; repeat split; lia).
  assert (H60 : Py.int_group "7" <= 60) by (vm_compute; discriminate).
  split; [exact H|]. split; [exact H60|].
  apply (proj2 (parse_time_minutes_seconds "7" "54" "23" "." "." H H60)).
Defined.

(** In [StoltzenScraper.parse_time] the result of a three-group token
    depends on the first group alone. *)
Lemma scraper_parse_time_token (A B C : string) (s1 s2 : ascii) :
  three_groups 1 2 A B C s1 s2 ->
  StoltzenScraper.parse_time (Some (token3 A B C s1 s2))
  = if Py.int_group A >? 23 then Some (B ++ ":" ++ C)
    else if Py.int_group A >? 0 then Some (A ++ ":" ++ B ++ ":" ++ C)
    else Some (B ++ ":" ++ C).
Proof.
  intros H.
  destruct (search_match3_token A B C s1 s2 H) as (Hstrip & Hne & Hsearch).
  unfold StoltzenScraper.parse_time.
  cbn [Py.falsy]. rewrite Hne, Hstrip, Hsearch. reflexivity.
Qed.

(** C3, as the claim words it, fails on [StoltzenStatScraper.parse_time]:
    ["1.23.45"] takes the first minutes:seconds branch there and becomes
    ["1:23"], not ["1:23:45"]. *)
Lemma parse_time_1_23_45_stat :
  StoltzenStatScraper.parse_time (Some "1.23.45") = Some "1:23"
  /\ StoltzenStatScraper.parse_time (Some "1.23.45") <> Some "1:23:45".
Proof. split; vm_compute; congruence. Qed.

(** C3 (amended): for a token [A sep B sep C] with [A] of one or two
    digits, [StoltzenScraper.parse_time], whose only earlier branch is
    [A > 23], returns [A:B:C] when [A] is in 1..23 and [B:C] when [A] is
    0; [StoltzenStatScraper.parse_time] returns [A:B] for the same token,
    its hours branch is never taken. *)
Theorem parse_time_hours (A B C : string) (s1 s2 : ascii) :
  three_groups 1 2 A B C s1 s2 ->
  (1 <= Py.int_group A <= 23 ->
   StoltzenScraper.parse_time (Some (token3 A B C s1 s2))
   = Some (A ++ ":" ++ B ++ ":" ++ C))
  /\ (Py.int_group A = 0 ->
      StoltzenScraper.parse_time (Some (token3 A B C s1 s2))
      = Some (B ++ ":" ++ C))
  /\ StoltzenStatScraper.parse_time (Some (token3 A B C s1 s2))
     = Some (A ++ ":" ++ B).
Proof.
  intros H. rewrite (scraper_parse_time_token A B C s1 s2 H).
  rewrite !Z.gtb_ltb. repeat split.
  - intros HA.
    destruct (Z.ltb_spec 23 (Py.int_group A)); [lia|].
    destruct (Z.ltb_spec 0 (Py.int_group A)); [reflexivity|lia].
  - intros ->. reflexivity.
  - apply stat_parse_time_token, H.
Qed.

Lemma parse_time_hours_witness :
  three_groups 1 2 "1" "23" "45" "." "."
  /\ 1 <= Py.int_group "1" <= 23
  /\ StoltzenScraper.parse_time (Some "1.23.45") = Some "1:23:45".
Proof.
  assert (H : three_groups 1 2 "1" "23" "45" "." ".")
    by (unfold three_groups; cbn; repeat split; lia).
  assert (H1 : 1 <= Py.int_group "1" <= 23) by (vm_compute; split; discriminate).
  split; [exact H|]. split; [exact H1|].
  apply (proj1 (parse_time_hours "1" "23" "45" "." "." H) H1).
Defined.

(** [parse_time] trims before it looks for a time: on an input with
    surrounding white space the text handed back is the trimmed one. *)
Lemma parse_time_pass_through_trims :
  Py.is_empty " abc " = false
  /\ Re.search Re.match3 " abc " = None
  /\ Re.search Re.match2 " abc " = None
  /\ StoltzenStatScraper.parse_time (Some " abc ") = Some "abc"
  /\ StoltzenStatScraper.parse_time (Some " abc ") <> Some " abc "
  /\ StoltzenScraper.parse_time (Some " abc ") <> Some " abc ".
Proof. repeat split; vm_compute; congruence. Qed.

Lemma parse_time_no_match (s : string) :
  Py.is_empty s = false ->
  Re.search Re.match3 s = None ->
  Re.search Re.match2 s = None ->
  StoltzenStatScraper.parse_time (Some s) = Some (Py.strip s)
  /\ StoltzenScraper.parse_time (Some s) = Some (Py.strip s).
Proof.
  intros Hne H3 H2.
  rewrite <- (search_strip Re.match3 s match3_trim_blind) in H3.
  rewrite <- (search_strip Re.match2 s match2_trim_blind) in H2.
  unfold StoltzenStatScraper.parse_time, StoltzenScraper.parse_time.
  cbn [Py.falsy]. rewrite Hne, H3, H2. split; reflexivity.
Qed.

(** C7: on an absent or empty input both [parse_time] return [None]; on a
    non-empty input with no match of the three-group and of the two-group
    pattern they return the input, trimmed as every [parse_time] begins
    by doing: the input itself when it carries no surrounding white
    space, and in no case [None] or an exception. *)
Theorem parse_time_absent_or_pass_through (o : option string) :
  (Py.falsy o = true ->
   StoltzenStatScraper.parse_time o = None
   /\ StoltzenScraper.parse_time o = None)
  /\ (forall s : string,
        o = Some s -> Py.is_empty s = false ->
        Re.search Re.match3 s = None ->
        Re.search Re.match2 s = None ->
        StoltzenStatScraper.parse_time o = Some (Py.strip s)
        /\ StoltzenScraper.parse_time o = Some (Py.strip s))
  /\ (forall s : string,
        o = Some s -> Py.is_empty s = false -> Py.strip s = s ->
        Re.search Re.match3 s = None ->
        Re.search Re.match2 s = None ->
        StoltzenStatScraper.parse_time o = Some s
        /\ StoltzenScraper.parse_time o = Some s).
Proof.
  split; [|split].
  - intros Hf. unfold StoltzenStatScraper.parse_time, StoltzenScraper.parse_time.
    rewrite Hf. split; reflexivity.
  - intros s -> Hne H3 H2. apply parse_time_no_match; assumption.
  - intros s -> Hne Ht H3 H2.
    destruct (parse_time_no_match s Hne H3 H2) as [Ha Hb].
    rewrite Ht in Ha, Hb. split; assumption.
Qed.

Lemma parse_time_absent_or_pass_through_witness :
  Py.falsy (Some "") = true
  /\ StoltzenStatScraper.parse_time (Some "") = None
  /\ StoltzenScraper.parse_time None = None
  /\ StoltzenStatScraper.parse_time (Some "DNF") = Some "DNF"
  /\ StoltzenScraper.parse_time (Some "DNF") = Some "DNF"
  /\ StoltzenStatScraper.parse_time (Some " DNF ") = Some "DNF".
Proof.
  split; [reflexivity|]. split; [|split; [|split; [|split]]].
  - apply (proj1 (parse_time_absent_or_pass_through (Some ""))). reflexivity.
  - apply (proj1 (parse_time_absent_or_pass_through None)). reflexivity.
  - apply (proj2 (proj2 (parse_time_absent_or_pass_through (Some "DNF"))) "DNF");
      reflexivity.
  - apply (proj2 (proj2 (parse_time_absent_or_pass_through (Some "DNF"))) "DNF");
      reflexivity.
  - apply (proj1 (proj2 (parse_time_absent_or_pass_through (Some " DNF "))) " DNF ");
      reflexivity.
Defined.

(** A canonical [M:SS] string is already trimmed, has no three-group
    match, and its two-group match is the whole string. *)
Lemma canonical_m_ss_scan (m ss : string) :
  all_digits m = true -> (1 <= String.length m <= 3)%nat ->
  all_digits ss = true -> String.length ss = 2%nat ->
  Py.strip (m ++ ":" ++ ss) = m ++ ":" ++ ss
  /\ Py.is_empty (m ++ ":" ++ ss) = false
  /\ Re.search Re.match3 (m ++ ":" ++ ss) = None
  /\ Re.search Re.match2 (m ++ ":" ++ ss) = Some (m, ss).
Proof.
  intros Hm Lm Hs Ls.
  destruct (two_digits_inv ss Hs Ls) as (x1 & x2 & -> & Hx1 & Hx2).
  destruct m as [|m1 [|m2 [|m3 [|m4 r]]]]; cbn [String.length] in Lm; try lia;
    repeat match goal with
           | H : all_digits (String _ _) = true |- _ =>
               apply all_digits_cons in H as [? H]
           end;
    scan; auto.
Qed.

(** C8: a canonical [M:SS] string that [parse_time] produced is returned
    unchanged when [parse_time] is applied to it again, in both classes. *)
Theorem parse_time_idempotent_m_ss (raw : option string) (out : string) :
  canonical_m_ss out ->
  (StoltzenStatScraper.parse_time raw = Some out ->
   StoltzenStatScraper.parse_time (Some out) = Some out)
  /\ (StoltzenScraper.parse_time raw = Some out ->
      StoltzenScraper.parse_time (Some out) = Some out).
Proof.
  intros (m & ss & -> & Hm & Lm & Hs & Ls).
  destruct (canonical_m_ss_scan m ss Hm Lm Hs Ls) as (Hstrip & Hne & H3 & H2).
  unfold StoltzenStatScraper.parse_time, StoltzenScraper.parse_time.
  cbn [Py.falsy]. rewrite Hne, Hstrip, H3, H2. split; reflexivity.
Qed.

Lemma parse_time_idempotent_m_ss_witness :
  canonical_m_ss "07:54"
  /\ StoltzenStatScraper.parse_time (Some "07.54.23") = Some "07:54"
  /\ StoltzenStatScraper.parse_time (Some "07:54") = Some "07:54".
Proof.
  assert (Hc : canonical_m_ss "07:54").
  { exists "07", "54". cbn. repeat split; lia. }
  assert (Hp : StoltzenStatScraper.parse_time (Some "07.54.23") = Some "07:54")
    by reflexivity.
  split; [exact Hc|]. split; [exact Hp|].
  apply (proj1 (parse_time_idempotent_m_ss (Some "07.54.23") "07:54" Hc) Hp).
Defined.

(** ** Claims about [time_to_seconds] *)

Lemma split_nonempty_input (s : string) (l : list string) :
  Re.split (Py.strip s) = l -> (2 <= List.length l)%nat -> Py.is_empty s = false.
Proof.
  intros <- Hl. destruct s; [cbn in Hl; lia | reflexivity].
Qed.

(** C2, as the claim words it, fails in [StoltzenStatScraper]: there a
    first component up to 60 with a third below 100 is read as minutes,
    and a first component above 60 as hours. *)
Lemma time_to_seconds_1_23_45_stat_minutes :
  Re.split (Py.strip "1:23:45") = ["1"; "23"; "45"]
  /\ Py.int "1" = Some 1 /\ Py.int "23" = Some 23 /\ Py.int "45" = Some 45
  /\ StoltzenStatScraper.time_to_seconds "1:23:45" = Some 83
  /\ StoltzenStatScraper.time_to_seconds "1:23:45" <> Some 5025
  /\ StoltzenStatScraper.time_to_seconds "75:30:12" = Some 271812
  /\ StoltzenStatScraper.time_to_seconds "75:30:12" <> Some 4530.
Proof. repeat split; vm_compute; congruence. Qed.

(** C2 (amended): both [time_to_seconds] split the trimmed input on [.]
    and [:], and two numeric parts give minutes*60 + seconds.  On three
    numeric parts [StoltzenScraper.time_to_seconds] gives
    minutes*60 + seconds, the third part dropped, when the first exceeds
    59 and hours*3600 + minutes*60 + seconds otherwise;
    [StoltzenStatScraper.time_to_seconds] gives minutes*60 + seconds when
    the first is at most 60 and the third below 100, and
    hours*3600 + minutes*60 + seconds otherwise. *)
Theorem time_to_seconds_components (s : string) :
  (forall (p0 p1 : string) (m sec : Z),
      Re.split (Py.strip s) = [p0; p1] ->
      Py.int p0 = Some m -> Py.int p1 = Some sec ->
      StoltzenScraper.time_to_seconds s = Some (m * 60 + sec)
      /\ StoltzenStatScraper.time_to_seconds s = Some (m * 60 + sec))
  /\ (forall (p0 p1 p2 : string) (f m t : Z),
        Re.split (Py.strip s) = [p0; p1; p2] ->
        Py.int p0 = Some f -> Py.int p1 = Some m -> Py.int p2 = Some t ->
        StoltzenScraper.time_to_seconds s
        = Some (if f >? 59 then f * 60 + m else f * 3600 + m * 60 + t)
        /\ StoltzenStatScraper.time_to_seconds s
           = Some (if (f <=? 60) && (t <? 100) then f * 60 + m
                   else f * 3600 + m * 60 + t)).
Proof.
  split.
  - intros p0 p1 m sec Hs H0 H1.
    unfold StoltzenScraper.time_to_seconds, StoltzenStatScraper.time_to_seconds.
    rewrite (split_nonempty_input s _ Hs) by (cbn; lia).
    rewrite Hs, H0, H1. split; reflexivity.
  - intros p0 p1 p2 f m t Hs H0 H1 H2.
    unfold StoltzenScraper.time_to_seconds, StoltzenStatScraper.time_to_seconds.
    rewrite (split_nonempty_input s _ Hs) by (cbn; lia).
    rewrite Hs, H0, H1, H2. cbn [bind]. split.
    + destruct (f >? 59); reflexivity.
    + destruct ((f <=? 60) && (t <? 100)); reflexivity.
Qed.

Lemma time_to_seconds_components_witness :
  (StoltzenScraper.time_to_seconds "7:54" = Some 474
   /\ StoltzenStatScraper.time_to_seconds "7:54" = Some 474)
  /\ (StoltzenScraper.time_to_seconds "1:23:45" = Some 5025
      /\ StoltzenStatScraper.time_to_seconds "1:23:45" = Some 83)
  /\ (StoltzenScraper.time_to_seconds "75:30:12" = Some 4530
      /\ StoltzenStatScraper.time_to_seconds "75:30:12" = Some 271812).
Proof.
  split; [|split].
  - apply (proj1 (time_to_seconds_components "7:54") "7" "54" 7 54); reflexivity.
  - apply (proj2 (time_to_seconds_components "1:23:45") "1" "23" "45" 1 23 45);
      reflexivity.
  - apply (proj2 (time_to_seconds_components "75:30:12") "75" "30" "12" 75 30 12);
      reflexivity.
Defined.

(** Where the two variants part at a first component of 60: only for a
    third component of 100 or more. *)
Lemma time_to_seconds_agree_at_60 (s p0 p1 p2 : string) (m t : Z) :
  Re.split (Py.strip s) = [p0; p1; p2] ->
  Py.int p0 = Some 60 -> Py.int p1 = Some m -> Py.int p2 = Some t ->
  t < 100 ->
  StoltzenStatScraper.time_to_seconds s = StoltzenScraper.time_to_seconds s.
Proof.
  intros Hs H0 H1 H2 Ht.
  unfold StoltzenStatScraper.time_to_seconds, StoltzenScraper.time_to_seconds.
  rewrite (split_nonempty_input s _ Hs) by (cbn; lia).
  rewrite Hs, H0, H1, H2. cbn [bind].
  change (60 >? 59) with true. change (60 <=? 60) with true. cbn [bind andb].
  destruct (Z.ltb_spec t 100); [reflexivity | lia].
Qed.




(** ** Claims about [is_new_best_time] *)

Section ComparisonFacts.

Variable time_to_seconds : string -> option Z.

(** When [is_new_best_time] answers [true], whatever [time_to_seconds]
    the class supplies. *)
Lemma is_new_best_time_with_true
    (current_time best_previous : option string) (best_year : option Z) :
  is_new_best_time_with time_to_seconds current_time best_previous best_year = true
  <-> Py.falsy current_time = false
      /\ (Py.falsy best_previous = true
          \/ best_year = None
          \/ exists (cur best : string) (y c b : Z),
               current_time = Some cur /\ best_previous = Some best
               /\ best_year = Some y /\ y < 2024
               /\ time_to_seconds cur = Some c /\ time_to_seconds best = Some b
               /\ c < b).
Proof.
  unfold is_new_best_time_with.
  destruct (Py.falsy current_time) eqn:Ecur;
    [split; [discriminate | intros [? _]; discriminate]|].
  destruct (Py.falsy best_previous) eqn:Ebest; cbn [orb]; [intuition|].
  destruct best_year as [y|]; cbn [Py.is_none]; [|intuition].
  destruct current_time as [cur|]; [|discriminate].
  destruct best_previous as [best|]; [|discriminate].
  rewrite Z.geb_leb.
  destruct (Z.leb_spec 2024 y) as [Hy|Hy].
  - split; [discriminate|].
    intros (_ & [H | [H | (? & ? & y' & ? & ? & _ & _ & [= <-] & Hlt & _)]]);
      try discriminate; lia.
  - destruct (time_to_seconds cur) as [c|] eqn:Ec;
      destruct (time_to_seconds best) as [b|] eqn:Eb.
    + rewrite Z.ltb_lt. split.
      * intros Hlt. split; [reflexivity|]. right. right.
        exists cur, best, y, c, b. auto 10.
      * intros (_ & [H | [H | (cur' & best' & y' & c' & b' & [= <-] & [= <-]
                                & _ & _ & Hc & Hb & Hlt)]]);
          try discriminate. congruence.
    + split; [discriminate|].
      intros (_ & [H | [H | (cur' & best' & ? & ? & ? & [= <-] & [= <-]
                             & _ & _ & _ & Hb & _)]]);
        try discriminate; congruence.
    + split; [discriminate|].
      intros (_ & [H | [H | (cur' & best' & ? & ? & ? & [= <-] & [= <-]
                             & _ & _ & Hc & _ & _)]]);
        try discriminate; congruence.
    + split; [discriminate|].
      intros (_ & [H | [H | (cur' & best' & ? & ? & ? & [= <-] & [= <-]
                             & _ & _ & Hc & _ & _)]]);
        try discriminate; congruence.
Qed.

Lemma is_new_best_time_with_absent_current
    (current_time best_previous : option string) (best_year : option Z) :
  Py.falsy current_time = true ->
  is_new_best_time_with time_to_seconds current_time best_previous best_year = false.
Proof. unfold is_new_best_time_with. intros ->. reflexivity. Qed.

Lemma is_new_best_time_with_late_year
    (current_time best_previous : option string) (y : Z) :
  Py.falsy best_previous = false -> y >= 2024 ->
  is_new_best_time_with time_to_seconds current_time best_previous (Some y) = false.
Proof.
  unfold is_new_best_time_with. intros -> Hy. cbn [orb Py.is_none].
  destruct (Py.falsy current_time); [reflexivity|].
  destruct current_time as [cur|], best_previous as [best|]; try reflexivity.
  rewrite Z.geb_leb. destruct (Z.leb_spec 2024 y); [reflexivity | lia].
Qed.

Lemma is_new_best_time_with_incomparable
    (current_time best_previous : option string) (y : Z) :
  Py.falsy best_previous = false -> y < 2024 ->
  seconds_of time_to_seconds current_time = None
  \/ seconds_of time_to_seconds best_previous = None ->
  is_new_best_time_with time_to_seconds current_time best_previous (Some y) = false.
Proof.
  unfold is_new_best_time_with. intros -> Hy Hnone. cbn [orb Py.is_none].
  destruct (Py.falsy current_time); [reflexivity|].
  destruct current_time as [cur|], best_previous as [best|]; try reflexivity.
  cbn [seconds_of] in Hnone.
  destruct (y >=? 2024); [reflexivity|].
  destruct Hnone as [-> | ->]; [reflexivity|].
  destruct (time_to_seconds cur); reflexivity.
Qed.

End ComparisonFacts.

(** Off the values the profile loops hand over: with a best year and no
    best time (or a best time and no best year) the first test alone
    decides, and the answer is [true]. *)
Lemma is_new_best_time_one_side_absent :
  StoltzenScraper.is_new_best_time (Some "7:54") None (Some 2025) = true
  /\ worded_is_new_best StoltzenScraper.time_to_seconds
       (Some "7:54") None (Some 2025) = false
  /\ StoltzenStatScraper.is_new_best_time (Some "7:54") (Some "7:40") None = true
  /\ worded_is_new_best StoltzenStatScraper.time_to_seconds
       (Some "7:54") (Some "7:40") None = false.
Proof. repeat split. Qed.

(** On any three arguments: [is_new_best_time] is [true] exactly when the
    current time is present and either the best time is absent or the
    best year is absent, or the best year is before 2024 and the current
    time has fewer seconds than the best time.  Both classes. *)
Lemma is_new_best_time_exactly
    (current_time best_previous : option string) (best_year : option Z) :
  let holds (tts : string -> option Z) :=
    Py.falsy current_time = false
    /\ (Py.falsy best_previous = true
        \/ best_year = None
        \/ exists (cur best : string) (y c b : Z),
             current_time = Some cur /\ best_previous = Some best
             /\ best_year = Some y /\ y < 2024
             /\ tts cur = Some c /\ tts best = Some b /\ c < b) in
  (StoltzenScraper.is_new_best_time current_time best_previous best_year = true
   <-> holds StoltzenScraper.time_to_seconds)
  /\ (StoltzenStatScraper.is_new_best_time current_time best_previous best_year = true
      <-> holds StoltzenStatScraper.time_to_seconds)
  /\ (Py.falsy current_time = true ->
      StoltzenScraper.is_new_best_time current_time best_previous best_year = false
      /\ StoltzenStatScraper.is_new_best_time current_time best_previous best_year
         = false)
  /\ (forall y : Z,
        best_year = Some y -> y >= 2024 -> Py.falsy best_previous = false ->
        StoltzenScraper.is_new_best_time current_time best_previous best_year = false
        /\ StoltzenStatScraper.is_new_best_time current_time best_previous best_year
           = false).
Proof.
  cbv zeta. unfold StoltzenScraper.is_new_best_time, StoltzenStatScraper.is_new_best_time.
  split; [apply is_new_best_time_with_true|].
  split; [apply is_new_best_time_with_true|].
  split.
  - intros H. split; apply is_new_best_time_with_absent_current, H.
  - intros y -> Hy Hb. split; apply is_new_best_time_with_late_year; assumption.
Qed.

Lemma is_new_best_time_exactly_witness :
  StoltzenScraper.is_new_best_time (Some "7:30") (Some "8:11") (Some 2016) = true
  /\ StoltzenScraper.is_new_best_time (Some "7:30") None None = true
  /\ StoltzenStatScraper.is_new_best_time None (Some "8:11") (Some 2016) = false
  /\ StoltzenStatScraper.is_new_best_time (Some "7:30") (Some "8:11") (Some 2024)
     = false.
Proof.
  split; [|split; [|split]].
  - apply (proj1 (is_new_best_time_exactly (Some "7:30") (Some "8:11") (Some 2016))).
    split; [reflexivity|]. right. right.
    exists "7:30", "8:11", 2016, 450, 491. repeat split; reflexivity.
  - apply (proj1 (is_new_best_time_exactly (Some "7:30") None None)).
    split; [reflexivity|]. left. reflexivity.
  - apply (proj1 (proj2 (proj2 (is_new_best_time_exactly
                                  None (Some "8:11") (Some 2016))))).
    reflexivity.
  - apply (proj2 (proj2 (proj2 (is_new_best_time_exactly
                                  (Some "7:30") (Some "8:11") (Some 2024)))) 2024);
      [reflexivity | lia | reflexivity].
Defined.

(** C10: with a best time present and a best year before 2024,
    [is_new_best_time] is [false] as soon as [time_to_seconds] fails on
    the current time or on the best time.  Both classes. *)
Theorem is_new_best_time_incomparable
    (current_time best_previous : option string) (y : Z) :
  Py.falsy best_previous = false -> y < 2024 ->
  (seconds_of StoltzenScraper.time_to_seconds current_time = None
   \/ seconds_of StoltzenScraper.time_to_seconds best_previous = None ->
   StoltzenScraper.is_new_best_time current_time best_previous (Some y) = false)
  /\ (seconds_of StoltzenStatScraper.time_to_seconds current_time = None
      \/ seconds_of StoltzenStatScraper.time_to_seconds best_previous = None ->
      StoltzenStatScraper.is_new_best_time current_time best_previous (Some y)
      = false).
Proof.
  intros Hb Hy.
  split; intros H; apply is_new_best_time_with_incomparable; assumption.
Qed.

Lemma is_new_best_time_incomparable_witness :
  Py.falsy (Some "7:40") = false /\ 2020 < 2024
  /\ seconds_of StoltzenScraper.time_to_seconds (Some "DNF") = None
  /\ StoltzenScraper.is_new_best_time (Some "DNF") (Some "7:40") (Some 2020) = false.
Proof.
  assert (Hb : Py.falsy (Some "7:40") = false) by reflexivity.
  assert (Hy : 2020 < 2024) by lia.
  assert (Hn : seconds_of StoltzenScraper.time_to_seconds (Some "DNF") = None)
    by reflexivity.
  split; [exact Hb|]. split; [exact Hy|]. split; [exact Hn|].
  apply (proj1 (is_new_best_time_incomparable (Some "DNF") (Some "7:40") 2020 Hb Hy)).
  left. exact Hn.
Defined.

(** ** [str] and [int] agree *)

Lemma string_of_uint_digits (d : Decimal.uint) :
  all_digits (NilEmpty.string_of_uint d) = true.
Proof. induction d; cbn [NilEmpty.string_of_uint all_digits]; auto. Qed.

Lemma group_val_string_of_uint (d : Decimal.uint) (acc : Z) :
  Py.group_val acc (NilEmpty.string_of_uint d) = uint_val acc d.
Proof.
  revert acc. induction d; intros acc;
    cbn [NilEmpty.string_of_uint Py.group_val uint_val]; auto.
Qed.

Lemma of_uint_acc_val (d : Decimal.uint) (p : positive) :
  Z.pos (Pos.of_uint_acc d p) = uint_val (Z.pos p) d.
Proof.
  revert p. induction d; intros p; cbn [Pos.of_uint_acc uint_val];
    try reflexivity; rewrite IHd; f_equal; lia.
Qed.

Lemma of_uint_val (d : Decimal.uint) : Z.of_N (Pos.of_uint d) = uint_val 0 d.
Proof.
  induction d; cbn [Pos.of_uint uint_val Z.of_N]; try reflexivity;
    try exact IHd; apply of_uint_acc_val.
Qed.

Lemma to_uint_val (p : positive) : uint_val 0 (Pos.to_uint p) = Z.pos p.
Proof. rewrite <- of_uint_val, DecimalPos.Unsigned.of_to. reflexivity. Qed.

Lemma str_pos (p : positive) :
  Py.str (Z.pos p) = NilEmpty.string_of_uint (Pos.to_uint p).
Proof.
  unfold Py.str. cbn [Z.to_int NilZero.string_of_int NilZero.string_of_uint].
  pose proof (DecimalPos.Unsigned.to_uint_nonnil p).
  destruct (Pos.to_uint p); [congruence | reflexivity ..].
Qed.

Lemma string_of_uint_nonempty (d : Decimal.uint) :
  d <> Decimal.Nil -> NilEmpty.string_of_uint d <> EmptyString.
Proof. destruct d; cbn; congruence. Qed.

(** [int(str(n)) == n] *)
Lemma int_str (n : Z) : Py.int (Py.str n) = Some n.
Proof.
  destruct n as [|p|p].
  - reflexivity.
  - rewrite str_pos, int_of_group.
    + unfold Py.int_group. rewrite group_val_string_of_uint, to_uint_val. reflexivity.
    + apply string_of_uint_digits.
    + apply string_of_uint_nonempty, DecimalPos.Unsigned.to_uint_nonnil.
  - unfold Py.str, Py.int.
    cbn [Z.to_int NilZero.string_of_int NilZero.string_of_uint].
    pose proof (DecimalPos.Unsigned.to_uint_nonnil p) as Hnn.
    pose proof (to_uint_val p) as Hv.
    pose proof (string_of_uint_digits (Pos.to_uint p)) as Hd.
    pose proof (string_of_uint_nonempty _ Hnn) as Hne.
    assert (Hs : NilZero.string_of_uint (Pos.to_uint p)
                 = NilEmpty.string_of_uint (Pos.to_uint p))
      by (unfold NilZero.string_of_uint; destruct (Pos.to_uint p); congruence).
    rewrite Hs.
    assert (Hstrip : Py.int_strip (String "-" (NilEmpty.string_of_uint (Pos.to_uint p)))
                     = String "-" (NilEmpty.string_of_uint (Pos.to_uint p))).
    { unfold Py.int_strip. cbn [Py.int_lstrip].
      change (Py.is_int_space "-") with false. cbn [Py.int_rstrip].
      rewrite (int_rstrip_digits _ Hd).
      destruct (NilEmpty.string_of_uint (Pos.to_uint p)); congruence. }
    rewrite Hstrip.
    rewrite int_digits_group by auto.
    rewrite group_val_string_of_uint, Hv. reflexivity.
Qed.

(** [str(n)] of a positive [n] does not start with a zero. *)
Lemma str_no_leading_zero (n : Z) :
  0 < n -> exists (c : ascii) (r : string), Py.str n = String c r /\ c <> "0"%char.
Proof.
  destruct n as [|p|p]; try lia. intros _. rewrite str_pos.
  assert (Hn : Decimal.unorm (Pos.to_uint p) = Pos.to_uint p).
  { rewrite <- DecimalPos.Unsigned.to_of, DecimalPos.Unsigned.of_to. reflexivity. }
  pose proof (DecimalPos.Unsigned.to_uint_nonnil p) as Hnn.
  pose proof (DecimalPos.Unsigned.to_uint_nonzero p) as Hnz.
  destruct (Pos.to_uint p) as [|l|l|l|l|l|l|l|l|l|l] eqn:E; try congruence;
    cbn [NilEmpty.string_of_uint];
    try (eexists _, _; split; [reflexivity | discriminate]).
  exfalso. unfold Decimal.unorm in Hn. cbn [Decimal.nzhead] in Hn.
  destruct (Decimal.nzhead l) eqn:El;
    try (apply (DecimalFacts.nzhead_nonzero l l); congruence).
Qed.

(** ** Claims about [calculate_time_difference] *)

(** On a remainder modulo 60 the format [02d] writes exactly two digits. *)
Lemma fmt_02d_two_digits (n : Z) : 0 <= n < 60 -> Py.fmt_02d n = two_digits n.
Proof.
  intros Hn.
  assert (Hk : exists k : nat, (k < 60)%nat /\ n = Z.of_nat k)
    by (exists (Z.to_nat n); lia).
  destruct Hk as (k & Hk & ->). clear Hn.
  do 60 (destruct k as [|k]; [reflexivity|]). lia.
Qed.

Section DifferenceFacts.

Variable time_to_seconds : string -> option Z.

Lemma calculate_time_difference_with_absent
    (current_time best_previous : option string) :
  Py.falsy current_time = true \/ Py.falsy best_previous = true
  \/ seconds_of time_to_seconds current_time = None
  \/ seconds_of time_to_seconds best_previous = None ->
  calculate_time_difference_with time_to_seconds current_time best_previous = None.
Proof.
  unfold calculate_time_difference_with.
  destruct (Py.falsy current_time), (Py.falsy best_previous);
    cbn [orb]; try reflexivity.
  destruct current_time as [cur|], best_previous as [best|];
    cbn [seconds_of]; try reflexivity.
  intros [H | [H | [-> | ->]]]; try discriminate; try reflexivity.
  destruct (time_to_seconds cur); reflexivity.
Qed.

Lemma calculate_time_difference_with_delta
    (current_time best_previous : option string) (c b : Z) :
  Py.falsy current_time = false -> Py.falsy best_previous = false ->
  seconds_of time_to_seconds current_time = Some c ->
  seconds_of time_to_seconds best_previous = Some b ->
  calculate_time_difference_with time_to_seconds current_time best_previous
  = Some (worded_delta (c - b)).
Proof.
  unfold calculate_time_difference_with, worded_delta.
  intros -> ->. cbn [orb].
  destruct current_time as [cur|], best_previous as [best|];
    cbn [seconds_of]; try discriminate.
  intros -> ->.
  destruct (c - b =? 0); [reflexivity|].
  rewrite fmt_02d_two_digits by (apply Z.mod_pos_bound; lia).
  reflexivity.
Qed.

End DifferenceFacts.

(** C5: [calculate_time_difference] returns [None] when the current time
    or the best time is absent or has no seconds value; otherwise, for
    the difference [d] of current minus best seconds, it returns ["0:00"]
    when [d] is 0 and else the sign ([-] for [d < 0], [+] for [d > 0]),
    the minutes of [|d|] in decimal, a colon and the seconds of [|d|] as
    two digits.  Both classes; 474 s against 460 s gives ["+0:14"]. *)
Theorem calculate_time_difference_delta
    (current_time best_previous : option string) :
  (Py.falsy current_time = true \/ Py.falsy best_previous = true ->
   StoltzenScraper.calculate_time_difference current_time best_previous = None
   /\ StoltzenStatScraper.calculate_time_difference current_time best_previous
      = None)
  /\ (seconds_of StoltzenScraper.time_to_seconds current_time = None
      \/ seconds_of StoltzenScraper.time_to_seconds best_previous = None ->
      StoltzenScraper.calculate_time_difference current_time best_previous = None)
  /\ (seconds_of StoltzenStatScraper.time_to_seconds current_time = None
      \/ seconds_of StoltzenStatScraper.time_to_seconds best_previous = None ->
      StoltzenStatScraper.calculate_time_difference current_time best_previous
      = None)
  /\ (forall c b : Z,
        Py.falsy current_time = false -> Py.falsy best_previous = false ->
        (seconds_of StoltzenScraper.time_to_seconds current_time = Some c ->
         seconds_of StoltzenScraper.time_to_seconds best_previous = Some b ->
         StoltzenScraper.calculate_time_difference current_time best_previous
         = Some (worded_delta (c - b)))
        /\ (seconds_of StoltzenStatScraper.time_to_seconds current_time = Some c ->
            seconds_of StoltzenStatScraper.time_to_seconds best_previous = Some b ->
            StoltzenStatScraper.calculate_time_difference current_time best_previous
            = Some (worded_delta (c - b))))
  /\ worded_delta (474 - 460) = "+0:14".
Proof.
  unfold StoltzenScraper.calculate_time_difference,
    StoltzenStatScraper.calculate_time_difference.
  repeat split.
  - apply calculate_time_difference_with_absent. tauto.
  - apply calculate_time_difference_with_absent. tauto.
  - intros H. apply calculate_time_difference_with_absent. tauto.
  - intros H. apply calculate_time_difference_with_absent. tauto.
  - intros Hc Hb. apply calculate_time_difference_with_delta; assumption.
  - intros Hc Hb. apply calculate_time_difference_with_delta; assumption.
Qed.

Lemma calculate_time_difference_delta_witness :
  StoltzenScraper.calculate_time_difference (Some "7:54") (Some "7:40")
  = Some "+0:14"
  /\ StoltzenStatScraper.calculate_time_difference (Some "7:30") (Some "8:11")
     = Some "-0:41"
  /\ StoltzenScraper.calculate_time_difference (Some "7:30") None = None.
Proof.
  split; [|split].
  - apply (proj1 (proj1 (proj2 (proj2 (proj2 (calculate_time_difference_delta
             (Some "7:54") (Some "7:40"))))) 474 460 eq_refl eq_refl));
      reflexivity.
  - apply (proj2 (proj1 (proj2 (proj2 (proj2 (calculate_time_difference_delta
             (Some "7:30") (Some "8:11"))))) 450 491 eq_refl eq_refl));
      reflexivity.
  - apply (proj1 (calculate_time_difference_delta (Some "7:30") None)).
    right. reflexivity.
Defined.

(** ** The claim about [determine_group_from_class] *)

(** C9: [determine_group_from_class] returns one of ["Dame"], ["Mann"]
    and ["Pluss"] on every input, absent and empty ones included, and
    ["Mann"] when no keyword occurs in the lower-cased class text. *)
Theorem determine_group_from_class_closed (class_text : option string) :
  let group := StoltzenStatScraper.determine_group_from_class class_text in
  (group = "Dame" \/ group = "Mann" \/ group = "Pluss")
  /\ (Py.falsy class_text = true -> group = "Mann")
  /\ (forall text : string,
        class_text = Some text ->
        (forall k : string,
            In k group_keywords -> Py.contains k (Py.lower text) = false) ->
        group = "Mann").
Proof.
  cbv zeta. unfold StoltzenStatScraper.determine_group_from_class.
  split; [|split].
  - destruct (Py.falsy class_text); [auto|].
    destruct class_text as [text|]; [|auto].
    repeat match goal with
           | |- context [Py.contains ?k ?t] => destruct (Py.contains k t)
           end; cbn [orb]; auto.
  - intros ->. reflexivity.
  - intros text -> Hk.
    destruct (Py.falsy (Some text)); [reflexivity|].
    rewrite !Hk by (unfold group_keywords; cbn [In]; tauto).
    reflexivity.
Qed.

Lemma determine_group_from_class_closed_witness :
  StoltzenStatScraper.determine_group_from_class None = "Mann"
  /\ StoltzenStatScraper.determine_group_from_class (Some "Junior 15-16") = "Mann".
Proof.
  split.
  - apply (proj1 (proj2 (determine_group_from_class_closed None))). reflexivity.
  - apply (proj2 (proj2 (determine_group_from_class_closed (Some "Junior 15-16")))
             "Junior 15-16" eq_refl).
    intros k Hk. unfold group_keywords in Hk. cbn [In] in Hk.
    repeat (destruct Hk as [<- | Hk]; [reflexivity|]). contradiction.
Defined.

(** ** The examples of the specification, evaluated *)

Example parse_time_45_12 :
  StoltzenStatScraper.parse_time (Some "45.12") = Some "45:12"
  /\ StoltzenScraper.parse_time (Some "45.12") = Some "45:12".
Proof. split; reflexivity. Qed.

Example parse_time_empty :
  StoltzenStatScraper.parse_time (Some "") = None
  /\ StoltzenStatScraper.parse_time None = None.
Proof. split; reflexivity. Qed.

Example time_to_seconds_orders_by_duration :
  StoltzenScraper.time_to_seconds "9:59" = Some 599
  /\ StoltzenScraper.time_to_seconds "10:00" = Some 600.
Proof. split; reflexivity. Qed.

Example time_to_seconds_1_23_45_stat :
  StoltzenStatScraper.time_to_seconds "1:23:45" = Some 83.
Proof. reflexivity. Qed.

Example new_best_7_54_against_7_40 :
  StoltzenStatScraper.is_new_best_time (Some "7:54") (Some "7:40") (Some 2020)
  = false.
Proof. reflexivity. Qed.

(** [str.strip] drops a unit separator, [int()] raises on it. *)
Example int_rejects_unit_separator :
  Py.strip (String "7" (String (ascii_of_nat 31) "")) = "7"
  /\ Py.int (String "7" (String (ascii_of_nat 31) "")) = None
  /\ StoltzenScraper.time_to_seconds
       (String "7" (String (ascii_of_nat 31) ":54")) = None
  /\ StoltzenStatScraper.time_to_seconds
       (String "7" (String (ascii_of_nat 31) ":54")) = None.
Proof. repeat split. Qed.

Example int_accepts_sign_space_underscore :
  Py.int " -12 " = Some (-12) /\ Py.int "1_000" = Some 1000
  /\ Py.int "1__0" = None /\ Py.int "" = None /\ Py.int "7a" = None.
Proof. repeat split. Qed.

(** * Further properties of the code *)

(** ** Strings made of one class of characters *)

Lemma all_digits_all_chars (s : string) : all_digits s = all_chars Py.is_digit s.
Proof. induction s as [|c r IH]; cbn [all_digits all_chars]; congruence. Qed.

Lemma all_chars_weaken (p q : ascii -> bool) (s : string) :
  (forall c, p c = true -> q c = true) ->
  all_chars p s = true -> all_chars q s = true.
Proof.
  intros Hpq. induction s as [|c r IH]; [reflexivity|].
  cbn [all_chars]. rewrite !andb_true_iff. intros [Hc Hr]. auto.
Qed.

Lemma all_chars_app (p : ascii -> bool) (a b : string) :
  all_chars p (a ++ b) = all_chars p a && all_chars p b.
Proof.
  induction a as [|c r IH]; [reflexivity|].
  cbn [String.append all_chars]. rewrite IH, andb_assoc. reflexivity.
Qed.

Lemma rstrip_no_space (s : string) :
  all_chars (fun c => negb (Py.is_space c)) s = true -> Py.rstrip s = s.
Proof.
  induction s as [|c r IH]; [reflexivity|].
  cbn [all_chars]. rewrite andb_true_iff, negb_true_iff. intros [Hc Hr].
  rewrite rstrip_cons, Hc, (IH Hr). reflexivity.
Qed.

(** A string without white space is its own [strip()]. *)
Lemma strip_no_space (s : string) :
  all_chars (fun c => negb (Py.is_space c)) s = true -> Py.strip s = s.
Proof.
  intros H. unfold Py.strip.
  destruct s as [|c r]; [reflexivity|].
  pose proof H as H'. cbn [all_chars] in H'.
  apply andb_true_iff in H' as [Hc _]. apply negb_true_iff in Hc.
  cbn [Py.lstrip]. rewrite Hc. apply rstrip_no_space, H.
Qed.

Lemma sep_not_space (c : ascii) : Re.is_sep c = true -> Py.is_space c = false.
Proof. destruct c as [[] [] [] [] [] [] [] []]; vm_compute; congruence. Qed.

Lemma time_char_not_space (c : ascii) :
  is_time_char c = true -> negb (Py.is_space c) = true.
Proof.
  unfold is_time_char. rewrite orb_true_iff, negb_true_iff.
  intros [H | H]; [apply digit_not_space | apply sep_not_space]; exact H.
Qed.

Lemma strip_time_chars (s : string) :
  all_chars is_time_char s = true -> Py.strip s = s.
Proof.
  intros H. apply strip_no_space.
  apply (all_chars_weaken is_time_char); [apply time_char_not_space | exact H].
Qed.

(** ** [re.split] on the separators *)

Lemma split_no_sep (s : string) :
  all_chars (fun c => negb (Re.is_sep c)) s = true -> Re.split s = [s].
Proof.
  induction s as [|c r IH]; [reflexivity|].
  cbn [all_chars]. rewrite andb_true_iff, negb_true_iff. intros [Hc Hr].
  cbn [Re.split]. rewrite Hc, (IH Hr). reflexivity.
Qed.

Lemma split_app_sep (a r : string) (c : ascii) :
  all_chars (fun c => negb (Re.is_sep c)) a = true -> Re.is_sep c = true ->
  Re.split (a ++ String c r) = a :: Re.split r.
Proof.
  intros Ha Hc. induction a as [|x a IH].
  - cbn [String.append Re.split]. rewrite Hc. reflexivity.
  - cbn [all_chars] in Ha. apply andb_true_iff in Ha as [Hx Ha].
    apply negb_true_iff in Hx.
    cbn [String.append Re.split]. rewrite Hx, (IH Ha). reflexivity.
Qed.

Lemma digits_no_sep (s : string) :
  all_digits s = true -> all_chars (fun c => negb (Re.is_sep c)) s = true.
Proof.
  rewrite all_digits_all_chars. apply all_chars_weaken.
  intros c Hc. rewrite (digit_not_sep c Hc). reflexivity.
Qed.

Lemma split_length (s : string) : (1 <= List.length (Re.split s))%nat.
Proof.
  induction s as [|c r IH]; [cbn; lia|].
  cbn [Re.split]. destruct (Re.is_sep c); [cbn; lia|].
  destruct (Re.split r); cbn in *; lia.
Qed.

(** The parts of a split hold no separator. *)
Lemma split_parts_no_sep (s p : string) :
  In p (Re.split s) -> all_chars (fun c => negb (Re.is_sep c)) p = true.
Proof.
  revert p. induction s as [|c r IH]; intros p.
  - cbn. intros [<- | []]. reflexivity.
  - cbn [Re.split]. destruct (Re.is_sep c) eqn:Ec.
    + intros [<- | H]; [reflexivity | auto].
    + pose proof (split_length r) as Hl.
      destruct (Re.split r) as [|h t]; [cbn in Hl; lia|].
      intros [<- | H].
      * cbn [all_chars]. rewrite Ec. cbn. apply IH. left. reflexivity.
      * apply IH. right. exact H.
Qed.

(** ** [time_to_seconds]: where the two classes agree *)

(** X2: The two [time_to_seconds] agree on every input that does not split
    into three parts; on three numeric parts [f], [m], [t] they agree
    exactly when [f <= 59] and [t >= 100], or [f = 60] and [t < 100], or
    both readings happen to give the same number. *)
Theorem time_to_seconds_variants_agree (s : string) :
  (List.length (Re.split (Py.strip s)) <> 3%nat ->
   StoltzenStatScraper.time_to_seconds s = StoltzenScraper.time_to_seconds s)
  /\ (forall (p0 p1 p2 : string) (f m t : Z),
        Re.split (Py.strip s) = [p0; p1; p2] ->
        Py.int p0 = Some f -> Py.int p1 = Some m -> Py.int p2 = Some t ->
        (StoltzenStatScraper.time_to_seconds s = StoltzenScraper.time_to_seconds s
         <-> (f <= 59 /\ 100 <= t) \/ (f = 60 /\ t < 100)
             \/ 3540 * f + 59 * m + t = 0)).
Proof.
  unfold StoltzenScraper.time_to_seconds, StoltzenStatScraper.time_to_seconds.
  split.
  - intros Hl. destruct (Py.is_empty s); [reflexivity|].
    destruct (Re.split (Py.strip s)) as [|p0 [|p1 [|p2 [|p3 l]]]];
      try reflexivity. cbn in Hl. lia.
  - intros p0 p1 p2 f m t Hs H0 H1 H2.
    rewrite (split_nonempty_input s _ Hs) by (cbn; lia).
    rewrite Hs, H0, H1, H2. cbn [bind]. rewrite Z.gtb_ltb.
    destruct (Z.leb_spec f 60), (Z.ltb_spec t 100), (Z.ltb_spec 59 f);
      cbn [andb bind]; split; intros Heq; try (injection Heq as Heq);
      try f_equal; lia.
Qed.

Lemma time_to_seconds_variants_agree_witness :
  StoltzenStatScraper.time_to_seconds "7:54" = StoltzenScraper.time_to_seconds "7:54"
  /\ StoltzenStatScraper.time_to_seconds "60:15:30"
     = StoltzenScraper.time_to_seconds "60:15:30".
Proof.
  split.
  - apply (proj1 (time_to_seconds_variants_agree "7:54")). vm_compute. discriminate.
  - apply (proj2 (time_to_seconds_variants_agree "60:15:30")
             "60" "15" "30" 60 15 30); try reflexivity.
    right. left. lia.
Defined.

(** ** From a token to its seconds *)

Lemma group_val_nonneg (s : string) (acc : Z) :
  all_digits s = true -> 0 <= acc -> 0 <= Py.group_val acc s.
Proof.
  revert acc. induction s as [|c r IH]; intros acc H Hacc; [exact Hacc|].
  apply all_digits_cons in H as [Hc Hr]. cbn [Py.group_val].
  apply IH; [exact Hr|]. apply digit_val_range in Hc. lia.
Qed.

Lemma int_group_nonneg (s : string) : all_digits s = true -> 0 <= Py.int_group s.
Proof. intros H. apply group_val_nonneg; [exact H | lia]. Qed.

Lemma digits_time_chars (s : string) :
  all_digits s = true -> all_chars is_time_char s = true.
Proof.
  rewrite all_digits_all_chars. apply all_chars_weaken.
  intros c Hc. unfold is_time_char. rewrite Hc. reflexivity.
Qed.

Lemma nonempty_length (s : string) : (1 <= String.length s)%nat -> s <> EmptyString.
Proof. destruct s; cbn; [lia | discriminate]. Qed.

(** Two groups of digits around one separator: what both
    [time_to_seconds] make of them. *)
Lemma time_to_seconds_two_groups (m ss : string) (c : ascii) :
  all_digits m = true -> m <> EmptyString ->
  all_digits ss = true -> ss <> EmptyString ->
  Re.is_sep c = true ->
  StoltzenScraper.time_to_seconds (m ++ String c ss)
  = Some (Py.int_group m * 60 + Py.int_group ss)
  /\ StoltzenStatScraper.time_to_seconds (m ++ String c ss)
     = Some (Py.int_group m * 60 + Py.int_group ss).
Proof.
  intros Hm Nm Hs Ns Hc.
  assert (Hstrip : Py.strip (m ++ String c ss) = m ++ String c ss).
  { apply strip_time_chars. rewrite all_chars_app. cbn [all_chars].
    rewrite (digits_time_chars m Hm), (digits_time_chars ss Hs).
    unfold is_time_char at 1. rewrite Hc, orb_true_r. reflexivity. }
  assert (Hsplit : Re.split (m ++ String c ss) = [m; ss]).
  { rewrite split_app_sep by (auto using digits_no_sep).
    rewrite split_no_sep by (auto using digits_no_sep). reflexivity. }
  assert (Hne : Py.is_empty (m ++ String c ss) = false)
    by (destruct m; [congruence | reflexivity]).
  unfold StoltzenScraper.time_to_seconds, StoltzenStatScraper.time_to_seconds.
  rewrite Hne, Hstrip, Hsplit, (int_of_group m Hm Nm), (int_of_group ss Hs Ns).
  split; reflexivity.
Qed.

Lemma time_to_seconds_colon (m ss : string) :
  all_digits m = true -> m <> EmptyString ->
  all_digits ss = true -> ss <> EmptyString ->
  StoltzenScraper.time_to_seconds (m ++ ":" ++ ss)
  = Some (Py.int_group m * 60 + Py.int_group ss)
  /\ StoltzenStatScraper.time_to_seconds (m ++ ":" ++ ss)
     = Some (Py.int_group m * 60 + Py.int_group ss).
Proof.
  intros Hm Nm Hs Ns.
  exact (time_to_seconds_two_groups m ss ":" Hm Nm Hs Ns eq_refl).
Qed.

(** The two-group pattern finds a whole token [A sep B] at its first
    position. *)
Lemma search_match2_token (A B : string) (c : ascii) :
  all_digits A = true -> (1 <= String.length A <= 3)%nat ->
  all_digits B = true -> String.length B = 2%nat ->
  Re.is_sep c = true ->
  Py.strip (A ++ String c B) = A ++ String c B
  /\ Py.is_empty (A ++ String c B) = false
  /\ Re.search Re.match3 (A ++ String c B) = None
  /\ Re.search Re.match2 (A ++ String c B) = Some (A, B).
Proof.
  intros HA LA HB LB Hc.
  destruct (two_digits_inv B HB LB) as (x1 & x2 & -> & Hx1 & Hx2).
  destruct A as [|m1 [|m2 [|m3 [|m4 r]]]]; cbn [String.length] in LA; try lia;
    repeat match goal with
           | H : all_digits (String _ _) = true |- _ =>
               apply all_digits_cons in H as [? H]
           end;
    scan; auto.
Qed.

(** X3: A two-group token [A sep B] ([A] of one to three digits, [B] of two)
    becomes [A:B] in both [parse_time], and both [time_to_seconds] read
    that as [A] minutes and [B] seconds. *)
Theorem two_group_token_seconds (A B : string) (c : ascii) :
  all_digits A = true -> (1 <= String.length A <= 3)%nat ->
  all_digits B = true -> String.length B = 2%nat ->
  Re.is_sep c = true ->
  StoltzenScraper.parse_time (Some (A ++ String c B)) = Some (A ++ ":" ++ B)
  /\ StoltzenStatScraper.parse_time (Some (A ++ String c B)) = Some (A ++ ":" ++ B)
  /\ StoltzenScraper.time_to_seconds (A ++ ":" ++ B)
     = Some (Py.int_group A * 60 + Py.int_group B)
  /\ StoltzenStatScraper.time_to_seconds (A ++ ":" ++ B)
     = Some (Py.int_group A * 60 + Py.int_group B)
  /\ 0 <= Py.int_group A * 60 + Py.int_group B.
Proof.
  intros HA LA HB LB Hc.
  destruct (search_match2_token A B c HA LA HB LB Hc) as (Hstrip & Hne & H3 & H2).
  assert (NA : A <> EmptyString) by (apply nonempty_length; lia).
  assert (NB : B <> EmptyString) by (apply nonempty_length; lia).
  destruct (time_to_seconds_colon A B HA NA HB NB) as [T1 T2].
  pose proof (int_group_nonneg A HA). pose proof (int_group_nonneg B HB).
  unfold StoltzenScraper.parse_time, StoltzenStatScraper.parse_time.
  cbn [Py.falsy]. rewrite Hne, Hstrip, H3, H2.
  repeat split; try assumption; try reflexivity. lia.
Qed.

Lemma two_group_token_seconds_witness :
  StoltzenStatScraper.parse_time (Some "07.54") = Some "07:54"
  /\ StoltzenStatScraper.time_to_seconds "07:54" = Some 474.
Proof.
  pose proof (two_group_token_seconds "07" "54" "." eq_refl
                ltac:(cbn; lia) eq_refl eq_refl eq_refl) as (_ & H1 & _ & H2 & _).
  split; [exact H1 | exact H2].
Defined.

Lemma time_to_seconds_three_groups_scraper (h m ss : string) :
  all_digits h = true -> h <> EmptyString ->
  all_digits m = true -> m <> EmptyString ->
  all_digits ss = true -> ss <> EmptyString ->
  StoltzenScraper.time_to_seconds (h ++ ":" ++ m ++ ":" ++ ss)
  = Some (if Py.int_group h >? 59 then Py.int_group h * 60 + Py.int_group m
          else Py.int_group h * 3600 + Py.int_group m * 60 + Py.int_group ss).
Proof.
  intros Hh Nh Hm Nm Hs Ns.
  change (h ++ ":" ++ m ++ ":" ++ ss) with (h ++ String ":" (m ++ String ":" ss)).
  assert (Hstrip : Py.strip (h ++ String ":" (m ++ String ":" ss))
                   = h ++ String ":" (m ++ String ":" ss)).
  { apply strip_time_chars.
    rewrite all_chars_app. cbn [all_chars]. rewrite all_chars_app. cbn [all_chars].
    rewrite (digits_time_chars h Hh), (digits_time_chars m Hm),
      (digits_time_chars ss Hs). reflexivity. }
  assert (Hsplit : Re.split (h ++ String ":" (m ++ String ":" ss)) = [h; m; ss]).
  { rewrite split_app_sep by (auto using digits_no_sep).
    rewrite split_app_sep by (auto using digits_no_sep).
    rewrite split_no_sep by (auto using digits_no_sep). reflexivity. }
  assert (Hne : Py.is_empty (h ++ String ":" (m ++ String ":" ss)) = false)
    by (destruct h; [congruence | reflexivity]).
  unfold StoltzenScraper.time_to_seconds.
  rewrite Hne, Hstrip, Hsplit, (int_of_group h Hh Nh), (int_of_group m Hm Nm),
    (int_of_group ss Hs Ns).
  cbn [bind]. destruct (Py.int_group h >? 59); reflexivity.
Qed.

(** X4: A three-group token, parsed and then converted: the stat scraper
    reads [A] minutes and [B] seconds; the other class reads hours,
    minutes and seconds for [A] in 1..23 and otherwise [B] minutes and
    [C] seconds, the first group being dropped. *)
Theorem three_group_token_seconds (A B C : string) (s1 s2 : ascii) :
  three_groups 1 2 A B C s1 s2 ->
  seconds_of StoltzenStatScraper.time_to_seconds
    (StoltzenStatScraper.parse_time (Some (token3 A B C s1 s2)))
  = Some (Py.int_group A * 60 + Py.int_group B)
  /\ seconds_of StoltzenScraper.time_to_seconds
       (StoltzenScraper.parse_time (Some (token3 A B C s1 s2)))
     = Some (if (1 <=? Py.int_group A) && (Py.int_group A <=? 23)
             then Py.int_group A * 3600 + Py.int_group B * 60 + Py.int_group C
             else Py.int_group B * 60 + Py.int_group C).
Proof.
  intros H.
  rewrite (stat_parse_time_token A B C s1 s2 H),
    (scraper_parse_time_token A B C s1 s2 H).
  destruct H as (HA & LA & HB & LB & HC & LC & _).
  assert (NA : A <> EmptyString) by (apply nonempty_length; lia).
  assert (NB : B <> EmptyString) by (apply nonempty_length; lia).
  assert (NC : C <> EmptyString) by (apply nonempty_length; lia).
  split.
  - cbn [seconds_of].
    apply (time_to_seconds_colon A B HA NA HB NB).
  - rewrite Z.gtb_ltb.
    destruct (Z.ltb_spec 23 (Py.int_group A)) as [H23|H23].
    + cbn [seconds_of].
      rewrite (proj1 (time_to_seconds_colon B C HB NB HC NC)).
      destruct (Z.leb_spec (Py.int_group A) 23); [lia|].
      rewrite andb_false_r. reflexivity.
    + rewrite Z.gtb_ltb. destruct (Z.ltb_spec 0 (Py.int_group A)) as [H0|H0].
      * cbn [seconds_of].
        rewrite (time_to_seconds_three_groups_scraper A B C HA NA HB NB HC NC).
        rewrite Z.gtb_ltb.
        destruct (Z.ltb_spec 59 (Py.int_group A)); [lia|].
        destruct (Z.leb_spec 1 (Py.int_group A)); [|lia].
        destruct (Z.leb_spec (Py.int_group A) 23); [|lia]. reflexivity.
      * cbn [seconds_of].
        rewrite (proj1 (time_to_seconds_colon B C HB NB HC NC)).
        destruct (Z.leb_spec 1 (Py.int_group A)); [lia|]. reflexivity.
Qed.

Lemma three_group_token_seconds_witness :
  seconds_of StoltzenStatScraper.time_to_seconds
    (StoltzenStatScraper.parse_time (Some "07.54.23")) = Some 474
  /\ seconds_of StoltzenScraper.time_to_seconds
       (StoltzenScraper.parse_time (Some "45.12.34")) = Some 754.
Proof.
  assert (H1 : three_groups 1 2 "07" "54" "23" "." ".")
    by (unfold three_groups; cbn; repeat split; lia).
  assert (H2 : three_groups 1 2 "45" "12" "34" "." ".")
    by (unfold three_groups; cbn; repeat split; lia).
  split.
  - apply (proj1 (three_group_token_seconds "07" "54" "23" "." "." H1)).
  - apply (proj2 (three_group_token_seconds "45" "12" "34" "." "." H2)).
Defined.

(** ** [calculate_time_difference]: sign, symmetry and the way back *)

Lemma worded_delta_cases (d : Z) :
  (d = 0 /\ worded_delta d = "0:00")
  \/ (d < 0 /\ worded_delta d = String "-" (delta_magnitude (Z.abs d)))
  \/ (0 < d /\ worded_delta d = String "+" (delta_magnitude (Z.abs d))).
Proof.
  unfold worded_delta, delta_magnitude.
  destruct (Z.eqb_spec d 0) as [->|Hd]; [left; auto|].
  destruct (Z.ltb_spec d 0); [right; left | right; right]; split; try lia;
    reflexivity.
Qed.

Section DeltaFacts.

Variable time_to_seconds : string -> option Z.

(** What a result of [calculate_time_difference] tells about its
    arguments. *)
Lemma calculate_time_difference_with_some
    (current_time best_previous : option string) (r : string) :
  calculate_time_difference_with time_to_seconds current_time best_previous = Some r ->
  exists c b : Z,
    Py.falsy current_time = false /\ Py.falsy best_previous = false
    /\ seconds_of time_to_seconds current_time = Some c
    /\ seconds_of time_to_seconds best_previous = Some b
    /\ r = worded_delta (c - b).
Proof.
  intros H.
  destruct (Py.falsy current_time) eqn:Ec;
    [rewrite calculate_time_difference_with_absent in H by auto; discriminate|].
  destruct (Py.falsy best_previous) eqn:Eb;
    [rewrite calculate_time_difference_with_absent in H by auto; discriminate|].
  destruct (seconds_of time_to_seconds current_time) as [c|] eqn:Sc;
    [|rewrite calculate_time_difference_with_absent in H by auto; discriminate].
  destruct (seconds_of time_to_seconds best_previous) as [b|] eqn:Sb;
    [|rewrite calculate_time_difference_with_absent in H by auto; discriminate].
  rewrite (calculate_time_difference_with_delta _ _ _ c b Ec Eb Sc Sb) in H.
  exists c, b. repeat split; congruence.
Qed.

Lemma calculate_time_difference_with_faster
    (current_time best_previous : option string) (y : Z) :
  Py.falsy best_previous = false -> y < 2024 ->
  (is_new_best_time_with time_to_seconds current_time best_previous (Some y) = true
   <-> exists x : string,
         calculate_time_difference_with time_to_seconds current_time best_previous
         = Some (String "-" x)).
Proof.
  intros Eb Hy. rewrite is_new_best_time_with_true. split.
  - intros (Ec & [H | [H | (cur & best & y' & c & b & -> & -> & _ & _
                            & Sc & Sb & Hlt)]]);
      try congruence.
    rewrite (calculate_time_difference_with_delta _ _ _ c b Ec Eb Sc Sb).
    destruct (worded_delta_cases (c - b)) as [[Hd E] | [[Hd E] | [Hd E]]];
      try lia. rewrite E. eauto.
  - intros (x & H).
    apply calculate_time_difference_with_some in H
      as (c & b & Ec & _ & Sc & Sb & Hr).
    split; [exact Ec|]. right. right.
    destruct current_time as [cur|]; [|discriminate].
    destruct best_previous as [best|]; [|discriminate].
    exists cur, best, y, c, b. repeat split; try assumption.
    destruct (worded_delta_cases (c - b)) as [[Hd E] | [[Hd E] | [Hd E]]];
      rewrite E in Hr; try discriminate. lia.
Qed.

End DeltaFacts.

(** X5: Swapping the two times turns a [+] delta into the [-] delta of the
    same magnitude, and back.  Both classes. *)
Theorem calculate_time_difference_swap
    (current_time best_previous : option string) (x : string) :
  (StoltzenScraper.calculate_time_difference current_time best_previous
   = Some (String "+" x)
   <-> StoltzenScraper.calculate_time_difference best_previous current_time
       = Some (String "-" x))
  /\ (StoltzenStatScraper.calculate_time_difference current_time best_previous
      = Some (String "+" x)
      <-> StoltzenStatScraper.calculate_time_difference best_previous current_time
          = Some (String "-" x)).
Proof.
  unfold StoltzenScraper.calculate_time_difference,
    StoltzenStatScraper.calculate_time_difference.
  split; split; intros H;
    apply calculate_time_difference_with_some in H
      as (c & b & Ec & Eb & Sc & Sb & Hr);
    rewrite (calculate_time_difference_with_delta _ _ _ b c Eb Ec Sb Sc);
    destruct (worded_delta_cases (c - b)) as [[Hd E] | [[Hd E] | [Hd E]]];
    rewrite E in Hr; try discriminate; injection Hr as ->;
    destruct (worded_delta_cases (b - c)) as [[Hd' E'] | [[Hd' E'] | [Hd' E']]];
    try lia; rewrite E'; do 3 f_equal; lia.
Qed.

Lemma calculate_time_difference_swap_witness :
  StoltzenScraper.calculate_time_difference (Some "7:40") (Some "7:54")
  = Some "-0:14".
Proof.
  apply (proj1 (proj1 (calculate_time_difference_swap
                         (Some "7:54") (Some "7:40") "0:14"))).
  reflexivity.
Defined.

(** X6: With a best time present and a best year before 2024, the new-best
    flag is set exactly when the delta is negative.  Both classes. *)
Theorem new_best_iff_negative_delta
    (current_time best_previous : option string) (y : Z) :
  Py.falsy best_previous = false -> y < 2024 ->
  (StoltzenScraper.is_new_best_time current_time best_previous (Some y) = true
   <-> exists x : string,
         StoltzenScraper.calculate_time_difference current_time best_previous
         = Some (String "-" x))
  /\ (StoltzenStatScraper.is_new_best_time current_time best_previous (Some y) = true
      <-> exists x : string,
            StoltzenStatScraper.calculate_time_difference current_time best_previous
            = Some (String "-" x)).
Proof.
  intros Eb Hy.
  unfold StoltzenScraper.is_new_best_time, StoltzenStatScraper.is_new_best_time,
    StoltzenScraper.calculate_time_difference,
    StoltzenStatScraper.calculate_time_difference.
  split; apply calculate_time_difference_with_faster; assumption.
Qed.

Lemma new_best_iff_negative_delta_witness :
  Py.falsy (Some "8:11") = false /\ 2016 < 2024
  /\ StoltzenScraper.is_new_best_time (Some "7:30") (Some "8:11") (Some 2016) = true.
Proof.
  assert (Eb : Py.falsy (Some "8:11") = false) by reflexivity.
  assert (Hy : 2016 < 2024) by lia.
  split; [exact Eb|]. split; [exact Hy|].
  apply (proj2 (proj1 (new_best_iff_negative_delta
                         (Some "7:30") (Some "8:11") 2016 Eb Hy))).
  exists "0:41". reflexivity.
Defined.

Lemma str_digits (n : Z) :
  0 <= n -> all_digits (Py.str n) = true /\ Py.str n <> EmptyString.
Proof.
  destruct n as [|p|p]; try lia; intros _.
  - split; [reflexivity | discriminate].
  - rewrite str_pos. split; [apply string_of_uint_digits|].
    apply string_of_uint_nonempty, DecimalPos.Unsigned.to_uint_nonnil.
Qed.

Lemma int_group_str (n : Z) : 0 <= n -> Py.int_group (Py.str n) = n.
Proof.
  intros Hn. destruct (str_digits n Hn) as [Hd Hne].
  pose proof (int_str n) as H. rewrite (int_of_group _ Hd Hne) in H.
  congruence.
Qed.

Lemma two_digits_value (r : Z) :
  0 <= r < 60 ->
  all_digits (two_digits r) = true /\ Py.int_group (two_digits r) = r.
Proof.
  intros Hr.
  assert (Hk : exists k : nat, (k < 60)%nat /\ r = Z.of_nat k)
    by (exists (Z.to_nat r); lia).
  destruct Hk as (k & Hk & ->). clear Hr.
  do 60 (destruct k as [|k]; [split; reflexivity|]). lia.
Qed.

(** The magnitude of a delta reads back as that many seconds in both
    [time_to_seconds]. *)
Lemma time_to_seconds_delta_magnitude (n : Z) :
  0 <= n ->
  StoltzenScraper.time_to_seconds (delta_magnitude n) = Some n
  /\ StoltzenStatScraper.time_to_seconds (delta_magnitude n) = Some n.
Proof.
  intros Hn. unfold delta_magnitude.
  assert (Hq : 0 <= n / 60) by (apply Z.div_pos; lia).
  assert (Hr : 0 <= n mod 60 < 60) by (apply Z.mod_pos_bound; lia).
  destruct (str_digits (n / 60) Hq) as [Hd Hne].
  destruct (two_digits_value (n mod 60) Hr) as [Hd2 Hv2].
  assert (Hne2 : two_digits (n mod 60) <> EmptyString) by discriminate.
  destruct (time_to_seconds_colon _ _ Hd Hne Hd2 Hne2) as [T1 T2].
  rewrite T1, T2, (int_group_str _ Hq), Hv2.
  assert (n / 60 * 60 + n mod 60 = n) by (pose proof (Z.div_mod n 60); lia).
  split; f_equal; assumption.
Qed.

(** X7: A delta between two different times is a sign, [-] when the current
    time is the faster one and [+] when it is the slower one, followed by
    a magnitude that [time_to_seconds] reads back as the absolute
    difference of the two times.  Both classes. *)
Theorem calculate_time_difference_round_trip
    (current_time best_previous : option string) (c b : Z) :
  Py.falsy current_time = false -> Py.falsy best_previous = false ->
  c <> b ->
  (seconds_of StoltzenScraper.time_to_seconds current_time = Some c ->
   seconds_of StoltzenScraper.time_to_seconds best_previous = Some b ->
   exists (sign : ascii) (x : string),
     StoltzenScraper.calculate_time_difference current_time best_previous
     = Some (String sign x)
     /\ (sign = "-"%char /\ c < b \/ sign = "+"%char /\ b < c)
     /\ StoltzenScraper.time_to_seconds x = Some (Z.abs (c - b)))
  /\ (seconds_of StoltzenStatScraper.time_to_seconds current_time = Some c ->
      seconds_of StoltzenStatScraper.time_to_seconds best_previous = Some b ->
      exists (sign : ascii) (x : string),
        StoltzenStatScraper.calculate_time_difference current_time best_previous
        = Some (String sign x)
        /\ (sign = "-"%char /\ c < b \/ sign = "+"%char /\ b < c)
        /\ StoltzenStatScraper.time_to_seconds x = Some (Z.abs (c - b))).
Proof.
  intros Ec Eb Hcb.
  destruct (time_to_seconds_delta_magnitude (Z.abs (c - b)) (Z.abs_nonneg _))
    as [T1 T2].
  unfold StoltzenScraper.calculate_time_difference,
    StoltzenStatScraper.calculate_time_difference.
  split; intros Sc Sb;
    rewrite (calculate_time_difference_with_delta _ _ _ c b Ec Eb Sc Sb);
    destruct (worded_delta_cases (c - b)) as [[Hd E] | [[Hd E] | [Hd E]]];
    try lia; rewrite E; eexists _, _; (split; [reflexivity|]);
    (split; [|assumption]); [left | right | left | right]; split;
    try reflexivity; lia.
Qed.

Lemma calculate_time_difference_round_trip_witness :
  exists (sign : ascii) (x : string),
    StoltzenScraper.calculate_time_difference (Some "7:54") (Some "5:40")
    = Some (String sign x)
    /\ (sign = "-"%char /\ 474 < 340 \/ sign = "+"%char /\ 340 < 474)
    /\ StoltzenScraper.time_to_seconds x = Some (Z.abs (474 - 340)).
Proof.
  apply (proj1 (calculate_time_difference_round_trip
                  (Some "7:54") (Some "5:40") 474 340 eq_refl eq_refl
                  ltac:(lia))); reflexivity.
Defined.

(** ** Groups and categories *)

Lemma prefix_app (a b s : string) :
  String.prefix (a ++ b) s = true -> String.prefix a s = true.
Proof.
  revert s. induction a as [|c a IH]; intros s; [destruct s; reflexivity|].
  destruct s as [|x s]; cbn [String.append String.prefix]; [discriminate|].
  destruct (ascii_dec c x); [apply IH | discriminate].
Qed.

(** A text that holds [a ++ b] holds [a]. *)
Lemma contains_app (a b s : string) :
  Py.contains (a ++ b) s = true -> Py.contains a s = true.
Proof.
  induction s as [|x s IH]; cbn [Py.contains].
  - destruct (String.prefix (a ++ b) EmptyString) eqn:E; [|discriminate].
    rewrite (prefix_app a b _ E). reflexivity.
  - destruct (String.prefix (a ++ b) (String x s)) eqn:E.
    + rewrite (prefix_app a b _ E). reflexivity.
    + intros H. rewrite (IH H). destruct (String.prefix a (String x s)); reflexivity.
Qed.

Lemma contains_app_false (a b s : string) :
  Py.contains a s = false -> Py.contains (a ++ b) s = false.
Proof.
  intros H. destruct (Py.contains (a ++ b) s) eqn:E; [|reflexivity].
  rewrite (contains_app a b s E) in H. discriminate.
Qed.

(** X8: Of the ten keywords of [determine_group_from_class] three decide:
    a non-empty class text is ["Dame"] when its lower-cased form holds
    [kvinne] or [dame], else ["Pluss"] when it holds [pluss], else
    ["Mann"]. *)
Theorem determine_group_from_class_three_keywords (text : string) :
  StoltzenStatScraper.determine_group_from_class (Some text)
  = if Py.is_empty text then "Mann"
    else if Py.contains "kvinne" (Py.lower text) || Py.contains "dame" (Py.lower text)
    then "Dame"
    else if Py.contains "pluss" (Py.lower text) then "Pluss"
    else "Mann".
Proof.
  unfold StoltzenStatScraper.determine_group_from_class. cbn [Py.falsy].
  destruct (Py.is_empty text); [reflexivity|].
  destruct (Py.contains "kvinne" (Py.lower text)) eqn:Ek.
  - rewrite orb_true_r. reflexivity.
  - rewrite (contains_app_false "kvinne" "r" _ Ek
               : Py.contains "kvinner" _ = false). cbn [orb].
    destruct (Py.contains "dame" (Py.lower text)); [reflexivity|].
    destruct (Py.contains "pluss" (Py.lower text)) eqn:Ep.
    + rewrite !orb_true_r. reflexivity.
    + rewrite (contains_app_false "pluss" " 90kg" _ Ep
               : Py.contains "pluss 90kg" _ = false),
        (contains_app_false "pluss" "90kg" _ Ep
         : Py.contains "pluss90kg" _ = false). cbn [orb].
      destruct (Py.contains "menn" (Py.lower text) || Py.contains "mann" (Py.lower text)
                || Py.contains "herrer" (Py.lower text)
                || Py.contains "herre" (Py.lower text)); reflexivity.
Qed.

(** X9: The category of [parse_results_table] and the group of
    [determine_group_from_class] for one class text: where the first
    says ["Dame"] so does the second, where the first says ["Pluss"]
    the second says ["Dame"] or ["Pluss"], and where the second says
    ["Mann"] so does the first. *)
Theorem current_category_against_group (text : string) :
  let category := StoltzenScraper.current_category text in
  let group := StoltzenStatScraper.determine_group_from_class (Some text) in
  (category = "Dame" -> group = "Dame")
  /\ (category = "Pluss" -> group = "Dame" \/ group = "Pluss")
  /\ (group = "Mann" -> category = "Mann").
Proof.
  cbv zeta.
  unfold StoltzenScraper.current_category,
    StoltzenStatScraper.determine_group_from_class.
  destruct text as [|c r]; [cbn; repeat split; intros; try discriminate; auto|].
  cbn [Py.falsy Py.is_empty]. set (low := Py.lower (String c r)).
  pose proof (contains_app "kvinne" "r" low : Py.contains "kvinner" low = true -> _)
    as S1.
  pose proof (contains_app "pluss" " 90kg" low
              : Py.contains "pluss 90kg" low = true -> _) as S2.
  pose proof (contains_app "pluss" "90kg" low
              : Py.contains "pluss90kg" low = true -> _) as S3.
  destruct (Py.contains "kvinner" low), (Py.contains "kvinne" low);
    try (specialize (S1 eq_refl); discriminate);
    destruct (Py.contains "pluss 90kg" low), (Py.contains "pluss" low);
    try (specialize (S2 eq_refl); discriminate);
    destruct (Py.contains "pluss90kg" low);
    try (specialize (S3 eq_refl); discriminate);
    destruct (Py.contains "dame" low), (Py.contains "menn" low),
      (Py.contains "herrer" low), (Py.contains "mann" low),
      (Py.contains "herre" low);
    cbn [orb]; repeat split; intros; try discriminate; auto.
Qed.

Lemma current_category_against_group_witness :
  StoltzenStatScraper.determine_group_from_class (Some "Kvinner 20-29") = "Dame"
  /\ StoltzenScraper.current_category "Junior" = "Mann".
Proof.
  split.
  - apply (proj1 (current_category_against_group "Kvinner 20-29")). reflexivity.
  - apply (proj2 (proj2 (current_category_against_group "Junior"))). reflexivity.
Defined.

(** ** [extract_participant_id] *)

Lemma span_digits_spec (s : string) :
  all_digits (fst (Re.span_digits s)) = true
  /\ s = fst (Re.span_digits s) ++ snd (Re.span_digits s)
  /\ ends_digits (snd (Re.span_digits s)) = true.
Proof.
  induction s as [|c r IH]; [repeat split|].
  cbn [Re.span_digits]. destruct (Py.is_digit c) eqn:Ec.
  - destruct (Re.span_digits r) as [d rest]. cbn [fst snd] in *.
    destruct IH as (Hd & Hr & He).
    cbn [all_digits String.append]. rewrite Ec, Hd, <- Hr. auto.
  - cbn [fst snd all_digits String.append ends_digits]. rewrite Ec. auto.
Qed.

Lemma span_digits_app (d r : string) :
  all_digits d = true -> ends_digits r = true -> Re.span_digits (d ++ r) = (d, r).
Proof.
  intros Hd Hr. induction d as [|c d IH].
  - destruct r as [|x r]; [reflexivity|].
    cbn [String.append Re.span_digits]. cbn [ends_digits] in Hr.
    apply negb_true_iff in Hr. rewrite Hr. reflexivity.
  - apply all_digits_cons in Hd as [Hc Hd].
    cbn [String.append Re.span_digits]. rewrite Hc, (IH Hd). reflexivity.
Qed.

Lemma digits1_spec (s d r : string) :
  Re.digits1 s = Some (d, r) ->
  all_digits d = true /\ d <> EmptyString /\ s = d ++ r /\ ends_digits r = true.
Proof.
  unfold Re.digits1. pose proof (span_digits_spec s) as (Hd & Hs & He).
  destruct (Re.span_digits s) as [d' r']. cbn [fst snd] in *.
  destruct d' as [|c d']; cbn [Py.is_empty]; [discriminate|].
  intros [= <- <-]. repeat split; auto. discriminate.
Qed.

Lemma digits1_app (d r : string) :
  all_digits d = true -> d <> EmptyString -> ends_digits r = true ->
  Re.digits1 (d ++ r) = Some (d, r).
Proof.
  intros Hd Hne Hr. unfold Re.digits1. rewrite (span_digits_app d r Hd Hr).
  destruct d; [congruence | reflexivity].
Qed.

(** Where [re.search] found its match: at a suffix of the string. *)
Lemma search_found_at {G : Type} (m : string -> option G) (s : string) (g : G) :
  Re.search m s = Some g ->
  exists pre found : string, s = pre ++ found /\ m found = Some g.
Proof.
  induction s as [|c r IH]; cbn [Re.search]; intros H.
  - destruct (m EmptyString) eqn:E; [|discriminate].
    exists EmptyString, EmptyString. split; [reflexivity | congruence].
  - destruct (m (String c r)) eqn:E.
    + exists EmptyString, (String c r). split; [reflexivity | congruence].
    + destruct (IH H) as (pre & found & -> & Hm).
      exists (String c pre), found. split; [reflexivity | exact Hm].
Qed.

Lemma prefix_self_app (t post : string) : String.prefix t (t ++ post) = true.
Proof.
  induction t as [|c t IH]; [destruct post; reflexivity|].
  cbn [String.append String.prefix]. destruct (ascii_dec c c); [exact IH | congruence].
Qed.

Lemma contains_middle (pre t post : string) :
  Py.contains t (pre ++ t ++ post) = true.
Proof.
  induction pre as [|c pre IH].
  - cbn [String.append]. destruct (t ++ post) eqn:E; cbn [Py.contains];
      rewrite <- E, prefix_self_app; reflexivity.
  - cbn [String.append Py.contains]. rewrite IH.
    destruct (String.prefix t (String c (pre ++ t ++ post))); reflexivity.
Qed.

Lemma match_id_spec (s g : string) :
  Re.match_id s = Some g ->
  all_digits g = true /\ g <> EmptyString
  /\ exists post : string, s = "id=" ++ g ++ post.
Proof.
  unfold Re.match_id.
  destruct s as [|c0 [|c1 [|c2 r]]]; try discriminate.
  destruct (Ascii.eqb c0 "i") eqn:E0; cbn [andb]; [|discriminate].
  destruct (Ascii.eqb c1 "d") eqn:E1; cbn [andb]; [|discriminate].
  destruct (Ascii.eqb c2 "=") eqn:E2; [|discriminate].
  apply Ascii.eqb_eq in E0, E1, E2. subst.
  destruct (Re.digits1 r) as [[d rest]|] eqn:Ed; [|discriminate].
  cbn [bind]. intros [= <-].
  apply digits1_spec in Ed as (Hd & Hne & -> & _).
  repeat split; auto. exists rest. reflexivity.
Qed.

(** No match of [id=(\d+)] starts inside a prefix without [=] that is
    followed by [id=]. *)
Lemma search_match_id_skip (p t : string) :
  all_chars (fun c => negb (Ascii.eqb c "=")) p = true ->
  Re.search Re.match_id (p ++ "id=" ++ t) = Re.search Re.match_id ("id=" ++ t).
Proof.
  induction p as [|c p IH]; [reflexivity|].
  intros Hp. cbn [all_chars] in Hp. apply andb_true_iff in Hp as [Hc Hp].
  change (String c p ++ "id=" ++ t) with (String c (p ++ "id=" ++ t)).
  cbn [Re.search]. rewrite (IH Hp).
  assert (Hm : Re.match_id (String c (p ++ "id=" ++ t)) = None).
  { unfold Re.match_id.
    destruct p as [|x [|y p]]; cbn [String.append].
    - rewrite andb_false_r. reflexivity.
    - rewrite andb_false_r. reflexivity.
    - cbn [all_chars] in Hp. apply andb_true_iff in Hp as [_ Hp].
      apply andb_true_iff in Hp as [Hy _]. apply negb_true_iff in Hy.
      rewrite Hy, andb_false_r. reflexivity. }
  rewrite Hm. reflexivity.
Qed.

(** X10: [extract_participant_id] returns [None] for an absent or empty link;
    an id it returns is a non-empty run of digits that follows [id=] in
    the link; and from a link [p ++ "id=" ++ d ++ r], with no [=] in
    [p], [d] a non-empty run of digits and [r] not starting with a
    digit, it returns [d]. *)
Theorem extract_participant_id_spec (link : option string) :
  (Py.falsy link = true -> StoltzenScraper.extract_participant_id link = None)
  /\ (forall id : string,
        StoltzenScraper.extract_participant_id link = Some id ->
        all_digits id = true /\ id <> EmptyString
        /\ exists text : string,
             link = Some text /\ Py.contains ("id=" ++ id) text = true)
  /\ (forall p d r : string,
        link = Some (p ++ "id=" ++ d ++ r) ->
        all_chars (fun c => negb (Ascii.eqb c "=")) p = true ->
        all_digits d = true -> d <> EmptyString -> ends_digits r = true ->
        StoltzenScraper.extract_participant_id link = Some d).
Proof.
  unfold StoltzenScraper.extract_participant_id. split; [|split].
  - intros ->. reflexivity.
  - intros id H. destruct (Py.falsy link); [discriminate|].
    destruct link as [text|]; [|discriminate].
    apply search_found_at in H as (pre & found & -> & Hm).
    apply match_id_spec in Hm as (Hd & Hne & post & ->).
    repeat split; auto. exists (pre ++ "id=" ++ id ++ post).
    split; [reflexivity|].
    apply (contains_middle pre ("id=" ++ id) post).
  - intros p d r -> Hp Hd Hne Hr.
    assert (Hf : Py.falsy (Some (p ++ "id=" ++ d ++ r)) = false)
      by (destruct p; reflexivity).
    rewrite Hf, (search_match_id_skip p (d ++ r) Hp).
    cbn [String.append Re.search]. unfold Re.match_id.
    cbn [Ascii.eqb Bool.eqb andb]. rewrite (digits1_app d r Hd Hne Hr). reflexivity.
Qed.

Lemma extract_participant_id_spec_witness :
  StoltzenScraper.extract_participant_id (Some "stat.php?id=1234&aar=2024")
  = Some "1234"
  /\ StoltzenScraper.extract_participant_id (Some "") = None.
Proof.
  split.
  - apply (proj2 (proj2 (extract_participant_id_spec
                           (Some "stat.php?id=1234&aar=2024")))
             "stat.php?" "1234" "&aar=2024"); try reflexivity. discriminate.
  - apply (proj1 (extract_participant_id_spec (Some ""))). reflexivity.
Defined.

(** ** The history loop of [fetch_participant_profile] *)

Lemma fold_left_invariant {A B : Type} (P : A -> Prop) (f : A -> B -> A)
    (l : list B) (a : A) :
  (forall a x, P a -> P (f a x)) -> P a -> P (fold_left f l a).
Proof.
  intros Hf. revert a. induction l as [|x l IH]; intros a Ha; [exact Ha|].
  cbn [fold_left]. apply IH, Hf, Ha.
Qed.

(** The year pattern captures [20] and two digits: a year from 2000 to
    2099. *)
Lemma match_year_spec (s g : string) :
  Re.search Re.match_year s = Some g -> 2000 <= Py.int_group g <= 2099.
Proof.
  intros H. apply search_found in H as (s' & H). unfold Re.match_year in H.
  destruct s' as [|c0 [|c1 r]]; try discriminate.
  destruct (Ascii.eqb c0 "2") eqn:E0; cbn [andb] in H; [|discriminate].
  destruct (Ascii.eqb c1 "0") eqn:E1; [|discriminate].
  apply Ascii.eqb_eq in E0, E1. subst.
  destruct (Re.take_digits 2 r) as [[d rest]|] eqn:Ed; [|discriminate].
  cbn [bind] in H. injection H as <-.
  apply take_digits_spec in Ed as (Hd & Hl & _).
  destruct (two_digits_inv d Hd Hl) as (d1 & d2 & -> & H1 & H2).
  pose proof (digit_val_range d1 H1) as R1.
  pose proof (digit_val_range d2 H2) as R2.
  assert (Hv : Py.int_group (String "2" (String "0" (String d1 (String d2 ""))))
               = 2000 + 10 * Py.digit_val d1 + Py.digit_val d2).
  { unfold Py.int_group. cbn [Py.group_val].
    change (Py.digit_val "2") with 2. change (Py.digit_val "0") with 0. lia. }
  rewrite Hv. lia.
Qed.

Lemma take_sep_char_spec (s r : string) (c : ascii) :
  Re.take_sep_char s = Some (c, r) -> Re.is_sep c = true /\ s = String c r.
Proof.
  destruct s as [|x s]; [discriminate|]. cbn [Re.take_sep_char].
  destruct (Re.is_sep x) eqn:E; [|discriminate]. intros [= <- <-]. auto.
Qed.

Lemma sep_time_char (c : ascii) : Re.is_sep c = true -> is_time_char c = true.
Proof. intros H. unfold is_time_char. rewrite H. apply orb_true_r. Qed.

(** The time pattern matches digits and separators only. *)
Lemma match_time_chars (s m : string) :
  Re.search Re.match_time s = Some m -> all_chars is_time_char m = true.
Proof.
  intros H. apply search_found in H as (s' & H).
  unfold Re.match_time, orelse in H.
  destruct (Re.time3 s') as [m3|] eqn:E3.
  - injection H as <-. unfold Re.time3 in E3.
    destruct (Re.digits1 s') as [[a r1]|] eqn:Da; [|discriminate]. cbn [bind] in E3.
    destruct (Re.take_sep_char r1) as [[s1 r2]|] eqn:S1; [|discriminate].
    cbn [bind] in E3.
    destruct (Re.digits1 r2) as [[b r3]|] eqn:Db; [|discriminate]. cbn [bind] in E3.
    destruct (Re.take_sep_char r3) as [[s2 r4]|] eqn:S2; [|discriminate].
    cbn [bind] in E3.
    destruct (Re.digits1 r4) as [[c r5]|] eqn:Dc; [|discriminate]. cbn [bind] in E3.
    injection E3 as <-.
    apply digits1_spec in Da as (Ha & _). apply digits1_spec in Db as (Hb & _).
    apply digits1_spec in Dc as (Hc & _).
    apply take_sep_char_spec in S1 as (Hs1 & _).
    apply take_sep_char_spec in S2 as (Hs2 & _).
    rewrite all_chars_app. cbn [all_chars]. rewrite all_chars_app. cbn [all_chars].
    rewrite (digits_time_chars a Ha), (digits_time_chars b Hb),
      (digits_time_chars c Hc), (sep_time_char s1 Hs1), (sep_time_char s2 Hs2).
    reflexivity.
  - unfold Re.time2 in H.
    destruct (Re.digits1 s') as [[a r1]|] eqn:Da; [|discriminate]. cbn [bind] in H.
    destruct (Re.take_sep_char r1) as [[s1 r2]|] eqn:S1; [|discriminate].
    cbn [bind] in H.
    destruct (Re.digits1 r2) as [[b r3]|] eqn:Db; [|discriminate]. cbn [bind] in H.
    injection H as <-.
    apply digits1_spec in Da as (Ha & _). apply digits1_spec in Db as (Hb & _).
    apply take_sep_char_spec in S1 as (Hs1 & _).
    rewrite all_chars_app. cbn [all_chars].
    rewrite (digits_time_chars a Ha), (digits_time_chars b Hb),
      (sep_time_char s1 Hs1). reflexivity.
Qed.

Lemma colon_join_time_chars (a b : string) :
  all_digits a = true -> all_digits b = true ->
  all_chars is_time_char (a ++ ":" ++ b) = true.
Proof.
  intros Ha Hb. rewrite all_chars_app. cbn [String.append all_chars].
  rewrite (digits_time_chars a Ha), (digits_time_chars b Hb). reflexivity.
Qed.

(** [StoltzenScraper.parse_time] turns digits and separators into
    digits and separators. *)
Lemma scraper_parse_time_chars (m p : string) :
  all_chars is_time_char m = true ->
  StoltzenScraper.parse_time (Some m) = Some p ->
  all_chars is_time_char p = true.
Proof.
  intros Hm. unfold StoltzenScraper.parse_time. cbn [Py.falsy].
  destruct (Py.is_empty m); [discriminate|].
  rewrite (strip_time_chars m Hm).
  destruct (Re.search Re.match3 m) as [[[a b] c]|] eqn:E3.
  - apply search_match3_groups in E3 as (Ha & _ & Hb & _ & Hc & _).
    destruct (Py.int_group a >? 23); [intros [= <-]; apply colon_join_time_chars; auto|].
    destruct (Py.int_group a >? 0); intros [= <-].
    + rewrite all_chars_app. cbn [String.append all_chars].
      rewrite (digits_time_chars a Ha). apply (colon_join_time_chars b c Hb Hc).
    + apply colon_join_time_chars; auto.
  - destruct (Re.search Re.match2 m) as [[a b]|] eqn:E2.
    + intros [= <-]. apply search_match2_canonical in E2
        as (a' & b' & Heq & Ha & _ & Hb & _).
      pose proof (colon_join_time_chars a' b' Ha Hb) as X.
      rewrite <- Heq in X. exact X.
    + intros [= <-]. exact Hm.
Qed.

Lemma split_parts_chars (q : ascii -> bool) (s part : string) :
  all_chars q s = true -> In part (Re.split s) -> all_chars q part = true.
Proof.
  revert part. induction s as [|c r IH]; intros part Hs.
  - cbn. intros [<- | []]. reflexivity.
  - cbn [all_chars] in Hs. apply andb_true_iff in Hs as [Hc Hr].
    cbn [Re.split]. destruct (Re.is_sep c).
    + intros [<- | H]; [reflexivity | auto].
    + pose proof (split_length r) as Hl.
      destruct (Re.split r) as [|h t]; [cbn in Hl; lia|].
      intros [<- | H].
      * cbn [all_chars]. rewrite Hc. apply IH; [exact Hr | left; reflexivity].
      * apply IH; [exact Hr | right; exact H].
Qed.

(** A part of a split time is a run of digits, and [int()] of it is not
    negative. *)
Lemma time_part_int (s part : string) (v : Z) :
  all_chars is_time_char s = true -> In part (Re.split s) ->
  Py.int part = Some v -> 0 <= v.
Proof.
  intros Hs Hin Hv.
  assert (Hd : all_digits part = true).
  { pose proof (split_parts_chars _ s part Hs Hin) as Ht.
    pose proof (split_parts_no_sep s part Hin) as Hn.
    clear - Ht Hn. induction part as [|c r IH]; [reflexivity|].
    cbn [all_chars all_digits] in *.
    apply andb_true_iff in Ht as [Hc Ht]. apply andb_true_iff in Hn as [Hn1 Hn].
    rewrite (IH Ht Hn), andb_true_r. unfold is_time_char in Hc.
    apply negb_true_iff in Hn1. rewrite Hn1, orb_false_r in Hc. exact Hc. }
  destruct part as [|c r]; [discriminate Hv|].
  rewrite (int_of_group _ Hd) in Hv by discriminate.
  injection Hv as <-. apply int_group_nonneg, Hd.
Qed.

(** On digits and separators [StoltzenScraper.time_to_seconds] gives no
    negative number. *)
Lemma scraper_time_to_seconds_nonneg (t : string) (n : Z) :
  all_chars is_time_char t = true ->
  StoltzenScraper.time_to_seconds t = Some n -> 0 <= n.
Proof.
  intros Ht. unfold StoltzenScraper.time_to_seconds.
  destruct (Py.is_empty t); [discriminate|].
  rewrite (strip_time_chars t Ht).
  pose proof (time_part_int t) as Hp.
  destruct (Re.split t) as [|p0 [|p1 [|p2 [|p3 l]]]]; try discriminate.
  - destruct (Py.int p0) as [m|] eqn:E0; [|discriminate].
    destruct (Py.int p1) as [s|] eqn:E1; [|discriminate].
    cbn [bind]. intros [= <-].
    pose proof (Hp p0 m Ht (in_eq _ _) E0).
    pose proof (Hp p1 s Ht (in_cons _ _ _ (in_eq _ _)) E1). lia.
  - destruct (Py.int p0) as [f|] eqn:E0; [|discriminate].
    destruct (Py.int p1) as [m|] eqn:E1;
      [|cbn [bind]; destruct (f >? 59); discriminate].
    destruct (Py.int p2) as [s|] eqn:E2;
      [|cbn [bind]; destruct (f >? 59); discriminate].
    pose proof (Hp p0 f Ht (in_eq _ _) E0).
    pose proof (Hp p1 m Ht (in_cons _ _ _ (in_eq _ _)) E1).
    pose proof (Hp p2 s Ht (in_cons _ _ _ (in_cons _ _ _ (in_eq _ _))) E2).
    cbn [bind]. destruct (f >? 59); intros [= <-]; lia.
Qed.

(** What a cell offers is a non-empty time of digits and separators with
    its positive number of seconds. *)
Lemma offered_time_spec (cell t : string) (n : Z) :
  StoltzenScraper.offered_time cell = Some (t, n) ->
  sound_offer StoltzenScraper.time_to_seconds t n.
Proof.
  unfold StoltzenScraper.offered_time, offered_time_with, sound_offer.
  destruct (Re.search Re.match_time (Py.strip cell)) as [m|] eqn:Em; [|discriminate].
  cbn [bind]. apply match_time_chars in Em.
  destruct (StoltzenScraper.parse_time (Some m)) as [p|] eqn:Ep; [|discriminate].
  cbn [Py.falsy bind]. destruct (Py.is_empty p) eqn:Ee; [discriminate|].
  pose proof (scraper_parse_time_chars m p Em Ep) as Hp.
  destruct (StoltzenScraper.time_to_seconds p) as [s|] eqn:Es; [|discriminate].
  cbn [bind]. destruct (Z.eqb_spec s 0); [discriminate|].
  intros [= <- <-]. pose proof (scraper_time_to_seconds_nonneg p s Hp Es).
  repeat split; auto. lia.
Qed.


Section KeptFacts.

Variable parse_time : option string -> option string.
Variable time_to_seconds : string -> option Z.
Variable P : string -> Z -> Prop.
Variable Y : Z -> Prop.

Hypothesis offers_P :
  forall (cell t : string) (n : Z),
    offered_time_with parse_time time_to_seconds cell = Some (t, n) -> P t n.

Hypothesis years_Y :
  forall s g : string,
    Re.search Re.match_year s = Some g -> String.eqb g "2024" = false ->
    Y (Py.int_group g).

Lemma consider_kept (y : Z) (b : best) (cell : string) :
  Y y -> kept P Y b -> kept P Y (consider_with parse_time time_to_seconds y b cell).
Proof.
  intros Hy Hb. unfold consider_with.
  destruct (offered_time_with parse_time time_to_seconds cell) as [[t n]|] eqn:Eo;
    [|exact Hb].
  apply offers_P in Eo.
  destruct (match best_time_seconds b with
            | Some best_seconds => n <? best_seconds
            | None => true
            end); [|exact Hb].
  right. exists t, y, n. auto.
Qed.

Lemma scan_year_cell_kept (cells : list string) (b : best) (ic : nat * string) :
  kept P Y b -> kept P Y (scan_year_cell_with parse_time time_to_seconds cells b ic).
Proof.
  intros Hb. unfold scan_year_cell_with. destruct ic as [i cell].
  destruct (Re.search Re.match_year (Py.strip cell)) as [g|] eqn:Eg; [|exact Hb].
  destruct (String.eqb g "2024") eqn:E24; [exact Hb|].
  apply fold_left_invariant; [|exact Hb].
  intros a j Ha. destruct (nth_error cells j); [|exact Ha].
  apply consider_kept; [|exact Ha]. apply (years_Y _ _ Eg E24).
Qed.

End KeptFacts.

Lemma history_years (s g : string) :
  Re.search Re.match_year s = Some g -> String.eqb g "2024" = false ->
  history_year (Py.int_group g).
Proof.
  intros Hg _. exact (match_year_spec s g Hg).
Qed.

Lemma history_keeps_coherent (tables : list (list (list string))) :
  kept (sound_offer StoltzenScraper.time_to_seconds) history_year
       (StoltzenScraper.history tables).
Proof.
  unfold StoltzenScraper.history.
  apply fold_left_invariant; [|left; reflexivity].
  intros b rows Hb. apply fold_left_invariant; [|exact Hb].
  intros a cells Ha. unfold StoltzenScraper.scan_row.
  destruct (2 <=? List.length cells)%nat; [|exact Ha].
  apply fold_left_invariant; [|exact Ha].
  intros a' ic. apply scan_year_cell_kept; [apply offered_time_spec | apply history_years].
Qed.

(** X11: The history loop ends with its three variables all absent, or
    with a non-empty best time, the positive number of seconds
    [time_to_seconds] gives for it, and a best year from 2000 to 2099. *)
Theorem history_invariant (tables : list (list (list string))) :
  let b := StoltzenScraper.history tables in
  (best_time b = None /\ best_year b = None
   /\ best_time_seconds b = None)
  \/ exists (t : string) (y n : Z),
       best_time b = Some t
       /\ best_year b = Some y
       /\ best_time_seconds b = Some n
       /\ Py.is_empty t = false
       /\ StoltzenScraper.time_to_seconds t = Some n /\ 0 < n
       /\ 2000 <= y <= 2099.
Proof.
  cbv zeta.
  destruct (history_keeps_coherent tables)
    as [-> | (t & y & n & -> & (He & _ & Hs & Hn) & Hy)].
  - left. repeat split.
  - right. exists t, y, n. cbn. auto 10.
Qed.

(** X12: The fields [fetch_participant_profile] derives: best time and best
    year are absent together; the new-best flag is the condition as the
    specification words it; without a history the flag says whether a
    current time is present and there is no delta; with a history a set
    flag means a best year before 2024 and a negative delta. *)
Theorem compare_with_history_fields
    (tid : option string) (tables : list (list (list string))) :
  let r := StoltzenScraper.compare_with_history tid tables in
  (BesteTidligere r = None <-> BesteAar r = None)
  /\ NyBestetid r
     = worded_is_new_best StoltzenScraper.time_to_seconds tid
         (BesteTidligere r) (BesteAar r)
  /\ (BesteTidligere r = None ->
      NyBestetid r = negb (Py.falsy tid)
      /\ Differanse r = None)
  /\ (BesteTidligere r <> None ->
      NyBestetid r = true ->
      (exists y : Z, BesteAar r = Some y /\ y < 2024)
      /\ exists x : string, Differanse r = Some (String "-" x)).
Proof.
  cbv zeta. unfold StoltzenScraper.compare_with_history.
  cbn [BesteTidligere BesteAar
       NyBestetid Differanse].
  unfold StoltzenScraper.is_new_best_time, StoltzenScraper.calculate_time_difference.
  destruct (history_keeps_coherent tables)
    as [-> | (t & y & n & -> & (He & _ & Hs & Hn) & Hy)];
    cbn [best_time best_year no_best].
  - split; [tauto|]. split; [|split].
    + unfold is_new_best_time_with, worded_is_new_best. cbn [Py.falsy orb andb].
      destruct (Py.falsy tid); reflexivity.
    + intros _. split.
      * unfold is_new_best_time_with. cbn [Py.falsy orb].
        destruct (Py.falsy tid); reflexivity.
      * apply calculate_time_difference_with_absent. auto.
    + congruence.
  - split; [split; discriminate|]. split; [|split; [discriminate|]].
    + unfold is_new_best_time_with, worded_is_new_best.
      cbn [Py.falsy Py.is_none orb andb seconds_of]. rewrite He, Hs. cbn [orb].
      destruct tid as [cur|]; cbn [Py.falsy seconds_of]; [|reflexivity].
      destruct (Py.is_empty cur); cbn [negb andb]; [reflexivity|].
      rewrite Z.geb_leb.
      destruct (Z.leb_spec 2024 y), (Z.ltb_spec y 2024); try lia; cbn [andb];
        reflexivity.
    + intros _ Hnb.
      assert (Hy24 : y < 2024).
      { destruct (Z.lt_ge_cases y 2024) as [|Hge]; [assumption|].
        rewrite is_new_best_time_with_late_year in Hnb by (cbn [Py.falsy]; auto; lia).
        discriminate. }
      split; [exists y; auto|].
      apply (calculate_time_difference_with_faster _ tid (Some t) y); auto.
Qed.

Lemma compare_with_history_fields_witness :
  NyBestetid
    (StoltzenScraper.compare_with_history (Some "7:30") []) = true
  /\ Differanse
       (StoltzenScraper.compare_with_history (Some "7:30") []) = None.
Proof.
  apply (proj1 (proj2 (proj2 (compare_with_history_fields (Some "7:30") [])))).
  reflexivity.
Defined.

(** *** The loop as one pass over its candidates *)

Lemma fold_left_flat_map {A B C : Type} (f : A -> B -> A) (g : C -> list B)
    (l : list C) (a : A) :
  fold_left f (flat_map g l) a = fold_left (fun a x => fold_left f (g x) a) l a.
Proof.
  revert a. induction l as [|x l IH]; intros a; [reflexivity|].
  cbn [flat_map fold_left]. rewrite fold_left_app. apply IH.
Qed.

Lemma fold_left_pointwise {A B : Type} (f g : A -> B -> A) (l : list B) (a : A) :
  (forall a x, f a x = g a x) -> fold_left f l a = fold_left g l a.
Proof.
  intros H. revert a. induction l as [|x l IH]; intros a; [reflexivity|].
  cbn [fold_left]. rewrite H. apply IH.
Qed.

Lemma fold_left_mapped {A B C : Type} (f : A -> B -> A) (h : C -> B)
    (l : list C) (a : A) :
  fold_left f (map h l) a = fold_left (fun a x => f a (h x)) l a.
Proof.
  revert a. induction l as [|x l IH]; intros a; [reflexivity|].
  cbn [map fold_left]. apply IH.
Qed.

Section PassFacts.

Variable parse_time : option string -> option string.
Variable time_to_seconds : string -> option Z.

Let offered := offered_time_with parse_time time_to_seconds.
Let step := consider_candidate_with parse_time time_to_seconds.

Lemma scan_year_cell_candidates (cells : list string) (b : best)
    (ic : nat * string) :
  scan_year_cell_with parse_time time_to_seconds cells b ic
  = fold_left step (cell_candidates cells ic) b.
Proof.
  unfold scan_year_cell_with, cell_candidates. destruct ic as [i cell].
  cbn [fst snd].
  destruct (Re.search Re.match_year (Py.strip cell)) as [g|]; [|reflexivity].
  destruct (String.eqb g "2024"); [reflexivity|].
  unfold neighbours. rewrite fold_left_mapped, fold_left_flat_map.
  apply fold_left_pointwise. intros a j.
  destruct (nth_error cells j); reflexivity.
Qed.

(** What one pass leaves: nothing when no candidate offers a time, else
    the first candidate, in loop order, whose seconds no other candidate
    undercuts. *)
Lemma pass_characterised (cands : list (Z * string)) :
  let b := fold_left step cands no_best in
  (b = no_best
   /\ forall yc, In yc cands -> offered (snd yc) = None)
  \/ exists (l1 : list (Z * string)) (y : Z) (c : string)
            (l2 : list (Z * string)) (t : string) (n : Z),
       cands = (l1 ++ (y, c) :: l2)%list
       /\ offered c = Some (t, n)
       /\ b = {| best_time := Some t;
                 best_year := Some y;
                 best_time_seconds := Some n |}
       /\ (forall yc t' n', In yc l1 ->
             offered (snd yc) = Some (t', n') -> n < n')
       /\ (forall yc t' n', In yc l2 ->
             offered (snd yc) = Some (t', n') -> n <= n').
Proof.
  cbv zeta. induction cands as [|[y' c'] l IH] using rev_ind.
  - left. split; [reflexivity|]. intros yc [].
  - rewrite fold_left_app. cbn [fold_left].
    change (step
              (fold_left step l no_best) (y', c'))
      with (consider_with parse_time time_to_seconds y'
              (fold_left step l no_best) c').
    unfold consider_with. fold offered.
    destruct IH as [[Hb Hnone] | (l1 & y & c & l2 & t & n & -> & Ho & Hb & H1 & H2)];
      rewrite Hb; cbn [best_time_seconds no_best].
    + destruct (offered c') as [[t n]|] eqn:Eo.
      * right. exists l, y', c', [], t, n. repeat split; auto.
        -- intros yc t' n' Hin Hyc. rewrite (Hnone yc Hin) in Hyc. discriminate.
        -- intros yc t' n' [].
      * left. split; [reflexivity|]. intros yc Hin.
        apply in_app_or in Hin as [Hin | [<- | []]]; auto.
    + destruct (offered c') as [[t0 n0]|] eqn:Eo.
      * destruct (Z.ltb_spec n0 n) as [Hlt|Hge].
        -- right. exists (l1 ++ (y, c) :: l2)%list, y', c', [], t0, n0.
           repeat split; auto.
           ++ intros yc t' n' Hin Hyc.
              apply in_app_or in Hin as [Hin | [<- | Hin]].
              ** specialize (H1 yc t' n' Hin Hyc). lia.
              ** cbn [snd] in Hyc. rewrite Ho in Hyc. injection Hyc as _ <-. lia.
              ** specialize (H2 yc t' n' Hin Hyc). lia.
           ++ intros yc t' n' [].
        -- right. exists l1, y, c, (l2 ++ [(y', c')])%list, t, n.
           repeat split; auto.
           ++ rewrite <- app_assoc. reflexivity.
           ++ intros yc t' n' Hin Hyc.
              apply in_app_or in Hin as [Hin | [<- | []]]; [eauto|].
              cbn [snd] in Hyc. rewrite Eo in Hyc. injection Hyc as _ <-. lia.
      * right. exists l1, y, c, (l2 ++ [(y', c')])%list, t, n.
        repeat split; auto.
        -- rewrite <- app_assoc. reflexivity.
        -- intros yc t' n' Hin Hyc.
           apply in_app_or in Hin as [Hin | [<- | []]]; [eauto|].
           cbn [snd] in Hyc. rewrite Eo in Hyc. discriminate.
Qed.

End PassFacts.

Lemma scan_row_candidates (b : best) (cells : list string) :
  StoltzenScraper.scan_row b cells
  = fold_left (consider_candidate_with StoltzenScraper.parse_time
                 StoltzenScraper.time_to_seconds)
      (row_candidates cells) b.
Proof.
  unfold StoltzenScraper.scan_row, row_candidates.
  destruct (2 <=? List.length cells)%nat; [|reflexivity].
  rewrite fold_left_flat_map. apply fold_left_pointwise.
  intros a ic. apply scan_year_cell_candidates.
Qed.

(** The nested loops are one left-to-right pass over the candidates. *)
Lemma history_candidates (tables : list (list (list string))) :
  StoltzenScraper.history tables
  = fold_left (consider_candidate_with StoltzenScraper.parse_time
                 StoltzenScraper.time_to_seconds)
      (candidates tables) no_best.
Proof.
  unfold StoltzenScraper.history, candidates.
  rewrite fold_left_flat_map. apply fold_left_pointwise. intros a rows.
  rewrite fold_left_flat_map. apply fold_left_pointwise. intros a' cells.
  apply scan_row_candidates.
Qed.

Lemma in_enumerate {A : Type} (l : list A) (k i : nat) (x : A) :
  In (i, x) (combine (seq k (List.length l)) l)
  <-> (k <= i)%nat /\ nth_error l (i - k) = Some x.
Proof.
  revert k. induction l as [|a l IH]; intros k.
  - cbn. split; [tauto|]. intros [_ H]. destruct (i - k)%nat; discriminate.
  - cbn [List.length seq combine In]. rewrite IH. split.
    + intros [[= <- <-] | [Hk Hn]].
      * split; [lia|]. rewrite Nat.sub_diag. reflexivity.
      * split; [lia|]. replace (i - k)%nat with (S (i - S k)) by lia. exact Hn.
    + intros [Hk Hn]. destruct (Nat.eq_dec i k) as [->|Hik].
      * left. rewrite Nat.sub_diag in Hn. cbn in Hn. congruence.
      * right. split; [lia|].
        replace (i - k)%nat with (S (i - S k)) in Hn by lia. exact Hn.
Qed.

Lemma in_window (i n j : nat) :
  In j (window i n)
  <-> j <> i /\ (i - 2 <= j)%nat /\ (j < n)%nat /\ (j <= i + 2)%nat.
Proof.
  unfold window. rewrite filter_In, in_seq, negb_true_iff, Nat.eqb_neq.
  lia.
Qed.

Lemma in_neighbours (cells : list string) (i : nat) (c : string) :
  In c (neighbours cells i)
  <-> exists j : nat,
        j <> i /\ (i - 2 <= j <= i + 2)%nat /\ nth_error cells j = Some c.
Proof.
  unfold neighbours. rewrite in_flat_map. split.
  - intros (j & Hj & Hc). apply in_window in Hj as (Hne & Hlo & _ & Hhi).
    exists j. destruct (nth_error cells j) as [x|]; [|destruct Hc].
    destruct Hc as [<- | []]. auto.
  - intros (j & Hne & Hr & Hn). exists j. split.
    + apply in_window. repeat split; try lia.
      apply nth_error_Some. congruence.
    + rewrite Hn. left. reflexivity.
Qed.

(** The candidates of the loop are the year neighbours. *)
Lemma in_candidates (tables : list (list (list string))) (y : Z) (c : string) :
  In (y, c) (candidates tables) <-> year_neighbour tables y c.
Proof.
  unfold candidates, year_neighbour. rewrite in_flat_map. split.
  - intros (rows & Hrows & H). apply in_flat_map in H as (cells & Hcells & H).
    unfold row_candidates in H.
    destruct (Nat.leb_spec 2 (List.length cells)) as [Hl|]; [|destruct H].
    apply in_flat_map in H as ([i ci] & Hic & H).
    apply in_enumerate in Hic as [_ Hic]. rewrite Nat.sub_0_r in Hic.
    unfold cell_candidates in H. cbn [fst snd] in H.
    destruct (Re.search Re.match_year (Py.strip ci)) as [g|] eqn:Eg; [|destruct H].
    destruct (String.eqb g "2024") eqn:E24; [destruct H|].
    apply in_map_iff in H as (c' & [= <- <-] & Hc).
    apply in_neighbours in Hc as (j & Hne & Hr & Hj).
    exists rows, cells, i, j, ci, g. apply String.eqb_neq in E24. auto 12.
  - intros (rows & cells & i & j & ci & g & Hrows & Hcells & Hl & Hi & Eg
            & E24 & -> & Hne & Hr & Hj).
    exists rows. split; [exact Hrows|]. apply in_flat_map.
    exists cells. split; [exact Hcells|]. unfold row_candidates.
    destruct (Nat.leb_spec 2 (List.length cells)); [|lia].
    apply in_flat_map. exists (i, ci). split.
    + apply in_enumerate. rewrite Nat.sub_0_r. split; [lia | exact Hi].
    + unfold cell_candidates. cbn [fst snd]. rewrite Eg.
      apply String.eqb_neq in E24. rewrite E24.
      apply in_map. apply in_neighbours. exists j. auto.
Qed.

(** X13: The history loop picks the fastest time on offer: no year neighbour
    offers fewer seconds than the best the loop ends with, the best
    comes from a year neighbour, with that neighbour's year, and the
    loop ends empty-handed exactly when no year neighbour offers a
    time. *)
Theorem history_fastest (tables : list (list (list string))) :
  let b := StoltzenScraper.history tables in
  (forall (y : Z) (c t : string) (n : Z),
      year_neighbour tables y c ->
      StoltzenScraper.offered_time c = Some (t, n) ->
      exists bn : Z, best_time_seconds b = Some bn /\ bn <= n)
  /\ (forall t : string,
        best_time b = Some t ->
        exists (y : Z) (c : string) (n : Z),
          best_year b = Some y
          /\ best_time_seconds b = Some n
          /\ year_neighbour tables y c
          /\ StoltzenScraper.offered_time c = Some (t, n))
  /\ (b = no_best
      <-> forall (y : Z) (c : string),
            year_neighbour tables y c -> StoltzenScraper.offered_time c = None).
Proof.
  cbv zeta. unfold StoltzenScraper.offered_time. rewrite history_candidates.
  destruct (pass_characterised StoltzenScraper.parse_time
              StoltzenScraper.time_to_seconds (candidates tables))
    as [[Hb Hnone] | (l1 & y & c & l2 & t & n & Hc & Ho & Hb & H1 & H2)];
    rewrite Hb.
  - split; [|split].
    + intros y c t n Hyn Hoff. apply in_candidates in Hyn.
      pose proof (Hnone _ Hyn) as X. cbn [snd] in X. congruence.
    + intros t. discriminate.
    + split; [|reflexivity]. intros _ y c Hyn. apply in_candidates in Hyn.
      apply (Hnone _ Hyn).
  - assert (Hin : In (y, c) (candidates tables))
      by (rewrite Hc; apply in_or_app; right; left; reflexivity).
    cbn [best_time best_year
         best_time_seconds].
    split; [|split].
    + intros y' c' t' n' Hyn Hoff. apply in_candidates in Hyn.
      exists n. split; [reflexivity|]. rewrite Hc in Hyn.
      apply in_app_or in Hyn as [Hyn | [Heq | Hyn]].
      * specialize (H1 _ t' n' Hyn Hoff). lia.
      * injection Heq as <- <-. rewrite Ho in Hoff. injection Hoff as _ <-. lia.
      * apply (H2 _ t' n' Hyn Hoff).
    + intros t' [= <-]. exists y, c, n. repeat split; auto.
      apply in_candidates, Hin.
    + split; [discriminate|]. intros Hall.
      apply in_candidates in Hin. rewrite (Hall y c Hin) in Ho. discriminate.
Qed.

Lemma history_fastest_witness :
  exists bn : Z,
    best_time_seconds
      (StoltzenScraper.history [[["2016"; "08.11"]; ["7:40"; "2020"]]]) = Some bn
    /\ bn <= 491.
Proof.
  apply (proj1 (history_fastest [[["2016"; "08.11"]; ["7:40"; "2020"]]])
           2016 "08.11" "08:11" 491); [|reflexivity].
  exists [["2016"; "08.11"]; ["7:40"; "2020"]], ["2016"; "08.11"],
    0%nat, 1%nat, "2016", "2016".
  repeat split; cbn; auto; try lia; discriminate.
Defined.

(** X14: Ties go to the first: the best time the loop ends with belongs to a
    candidate before which, in loop order, every offer is strictly
    slower, and after which no offer is faster. *)
Theorem history_first_wins (tables : list (list (list string)))
    (t : string) (y n : Z) :
  StoltzenScraper.history tables
  = {| best_time := Some t;
       best_year := Some y;
       best_time_seconds := Some n |} ->
  exists (l1 l2 : list (Z * string)) (c : string),
    candidates tables = (l1 ++ (y, c) :: l2)%list
    /\ StoltzenScraper.offered_time c = Some (t, n)
    /\ (forall y' c' t' n', In (y', c') l1 ->
          StoltzenScraper.offered_time c' = Some (t', n') -> n < n')
    /\ (forall y' c' t' n', In (y', c') l2 ->
          StoltzenScraper.offered_time c' = Some (t', n') -> n <= n').
Proof.
  unfold StoltzenScraper.offered_time. rewrite history_candidates.
  destruct (pass_characterised StoltzenScraper.parse_time
              StoltzenScraper.time_to_seconds (candidates tables))
    as [[Hb Hnone] | (l1 & y0 & c & l2 & t0 & n0 & Hc & Ho & Hb & H1 & H2)];
    rewrite Hb; [discriminate|].
  intros [= <- <- <-]. exists l1, l2, c. repeat split; auto.
  - intros y' c' t' n' Hin. apply (H1 (y', c') t' n' Hin).
  - intros y' c' t' n' Hin. apply (H2 (y', c') t' n' Hin).
Qed.

Lemma history_first_wins_witness :
  exists (l1 l2 : list (Z * string)) (c : string),
    candidates [[["2016"; "7:40"]; ["7.40"; "2020"]]] = (l1 ++ (2016, c) :: l2)%list
    /\ StoltzenScraper.offered_time c = Some ("7:40", 460)
    /\ (forall y' c' t' n', In (y', c') l1 ->
          StoltzenScraper.offered_time c' = Some (t', n') -> 460 < n')
    /\ (forall y' c' t' n', In (y', c') l2 ->
          StoltzenScraper.offered_time c' = Some (t', n') -> 460 <= n').
Proof.
  apply (history_first_wins [[["2016"; "7:40"]; ["7.40"; "2020"]]] "7:40" 2016 460).
  reflexivity.
Defined.

(** ** The best previous time in [parse_participant_profile] *)

Lemma stat_parse_time_chars (m p : string) :
  all_chars is_time_char m = true ->
  StoltzenStatScraper.parse_time (Some m) = Some p ->
  all_chars is_time_char p = true.
Proof.
  intros Hm. unfold StoltzenStatScraper.parse_time. cbn [Py.falsy].
  destruct (Py.is_empty m); [discriminate|].
  rewrite (strip_time_chars m Hm).
  destruct (Re.search Re.match3 m) as [[[a b] c]|] eqn:E3.
  - apply search_match3_groups in E3 as (Ha & _ & Hb & _ & Hc & _).
    destruct ((Py.int_group a <=? 60) && (Py.int_group c <? 100));
      [intros [= <-]; apply colon_join_time_chars; auto|].
    destruct (Py.int_group a >? 23);
      [intros [= <-]; apply colon_join_time_chars; auto|].
    destruct (Py.int_group a >? 0); intros [= <-].
    + rewrite all_chars_app. cbn [String.append all_chars].
      rewrite (digits_time_chars a Ha). apply (colon_join_time_chars b c Hb Hc).
    + apply colon_join_time_chars; auto.
  - destruct (Re.search Re.match2 m) as [[a b]|] eqn:E2.
    + intros [= <-]. apply search_match2_canonical in E2
        as (a' & b' & Heq & Ha & _ & Hb & _).
      pose proof (colon_join_time_chars a' b' Ha Hb) as X.
      rewrite <- Heq in X. exact X.
    + intros [= <-]. exact Hm.
Qed.

Lemma stat_time_to_seconds_nonneg (t : string) (n : Z) :
  all_chars is_time_char t = true ->
  StoltzenStatScraper.time_to_seconds t = Some n -> 0 <= n.
Proof.
  intros Ht. unfold StoltzenStatScraper.time_to_seconds.
  destruct (Py.is_empty t); [discriminate|].
  rewrite (strip_time_chars t Ht).
  pose proof (time_part_int t) as Hp.
  destruct (Re.split t) as [|p0 [|p1 [|p2 [|p3 l]]]]; try discriminate.
  - destruct (Py.int p0) as [m|] eqn:E0; [|discriminate].
    destruct (Py.int p1) as [s|] eqn:E1; [|discriminate].
    cbn [bind]. intros [= <-].
    pose proof (Hp p0 m Ht (in_eq _ _) E0).
    pose proof (Hp p1 s Ht (in_cons _ _ _ (in_eq _ _)) E1). lia.
  - destruct (Py.int p0) as [f|] eqn:E0; [|discriminate].
    destruct (Py.int p1) as [m|] eqn:E1; [|discriminate].
    destruct (Py.int p2) as [s|] eqn:E2; [|discriminate].
    pose proof (Hp p0 f Ht (in_eq _ _) E0).
    pose proof (Hp p1 m Ht (in_cons _ _ _ (in_eq _ _)) E1).
    pose proof (Hp p2 s Ht (in_cons _ _ _ (in_cons _ _ _ (in_eq _ _))) E2).
    cbn [bind]. destruct ((f <=? 60) && (s <? 100)); intros [= <-]; lia.
Qed.

Lemma stat_offered_time_spec (cell t : string) (n : Z) :
  offered_time_with StoltzenStatScraper.parse_time
    StoltzenStatScraper.time_to_seconds cell = Some (t, n) ->
  sound_offer StoltzenStatScraper.time_to_seconds t n.
Proof.
  unfold offered_time_with, sound_offer.
  destruct (Re.search Re.match_time (Py.strip cell)) as [m|] eqn:Em; [|discriminate].
  cbn [bind]. apply match_time_chars in Em.
  destruct (StoltzenStatScraper.parse_time (Some m)) as [p|] eqn:Ep; [|discriminate].
  cbn [Py.falsy bind]. destruct (Py.is_empty p) eqn:Ee; [discriminate|].
  pose proof (stat_parse_time_chars m p Em Ep) as Hp.
  destruct (StoltzenStatScraper.time_to_seconds p) as [s|] eqn:Es; [|discriminate].
  cbn [bind]. destruct (Z.eqb_spec s 0); [discriminate|].
  intros [= <- <-]. pose proof (stat_time_to_seconds_nonneg p s Hp Es).
  repeat split; auto. lia.
Qed.

Lemma take_char_spec (c : ascii) (s r : string) :
  Re.take_char c s = Some r -> s = String c r.
Proof.
  destruct s as [|x s]; [discriminate|]. cbn [Re.take_char].
  destruct (Ascii.eqb x c) eqn:E; [|discriminate].
  apply Ascii.eqb_eq in E. intros [= <-]. congruence.
Qed.

(** The groups of the personal-best pattern: two non-empty runs of
    digits and four digits. *)
Lemma match_personal_best_groups (s m sec y : string) :
  Re.search Re.match_personal_best s = Some (m, sec, y) ->
  all_digits m = true /\ m <> EmptyString
  /\ all_digits sec = true /\ sec <> EmptyString
  /\ all_digits y = true /\ String.length y = 4%nat.
Proof.
  intros H. apply search_found in H as (s' & H). unfold Re.match_personal_best in H.
  destruct (Re.digits1 s') as [[a r1]|] eqn:Da; [|discriminate]. cbn [bind] in H.
  destruct (Re.take_char "." r1) as [r2|]; [|discriminate]. cbn [bind] in H.
  destruct (Re.digits1 r2) as [[b r3]|] eqn:Db; [|discriminate]. cbn [bind] in H.
  destruct (Re.take_char "(" (Py.lstrip r3)) as [r4|]; [|discriminate].
  cbn [bind] in H.
  destruct (Re.take_digits 4 r4) as [[c r5]|] eqn:Dc; [|discriminate].
  cbn [bind] in H.
  destruct (Re.take_char ")" r5) as [r6|]; [|discriminate]. cbn [bind] in H.
  injection H as <- <- <-.
  apply digits1_spec in Da as (Ha & Na & _). apply digits1_spec in Db as (Hb & Nb & _).
  apply take_digits_spec in Dc as (Hc & Lc & _). auto 10.
Qed.

(** The state left by the personal-best cell: nothing, or a best time
    that [time_to_seconds] converts to the seconds stored beside it. *)
Lemma personal_best_kept (td : option string) :
  kept (fun t n => Py.is_empty t = false
                   /\ StoltzenStatScraper.time_to_seconds t = Some n /\ 0 <= n)
       (fun _ => True)
       (StoltzenStatScraper.personal_best td).
Proof.
  unfold StoltzenStatScraper.personal_best.
  destruct td as [text|]; [|left; reflexivity].
  destruct (Re.search Re.match_personal_best (Py.strip text)) as [[[m sec] y]|] eqn:E;
    [|left; reflexivity].
  apply match_personal_best_groups in E as (Hm & Nm & Hs & Ns & _).
  right. exists (m ++ ":" ++ sec), (Py.int_group y),
           (Py.int_group m * 60 + Py.int_group sec).
  split; [reflexivity|]. split; [|exact I].
  split; [destruct m; [congruence | reflexivity]|].
  split; [apply (time_to_seconds_colon m sec Hm Nm Hs Ns)|].
  pose proof (int_group_nonneg m Hm). pose proof (int_group_nonneg sec Hs). lia.
Qed.

Lemma stat_history_kept (td : option string) (tables : list (list (list string))) :
  kept (fun t n => Py.is_empty t = false
                   /\ StoltzenStatScraper.time_to_seconds t = Some n /\ 0 <= n)
       (fun _ => True)
       (StoltzenStatScraper.history td tables).
Proof.
  unfold StoltzenStatScraper.history.
  apply fold_left_invariant; [|apply personal_best_kept].
  intros b rows Hb. apply fold_left_invariant; [|exact Hb].
  intros a cells Ha. unfold StoltzenStatScraper.scan_row.
  destruct (2 <=? List.length cells)%nat; [|exact Ha].
  apply fold_left_invariant; [|exact Ha].
  intros a' ic Ha'. unfold StoltzenStatScraper.scan_cell.
  destruct (Py.falsy (best_time a')); [|exact Ha'].
  apply scan_year_cell_kept; auto.
  intros cell t n Ho. apply stat_offered_time_spec in Ho as (He & _ & Hs & Hn).
  repeat split; auto. lia.
Qed.

Lemma rstrip_app_fixed (a b : string) :
  Py.rstrip b = b -> b <> EmptyString -> Py.rstrip (a ++ b) = a ++ b.
Proof.
  intros Hb Nb. induction a as [|x a IH]; [exact Hb|].
  cbn [String.append]. rewrite rstrip_cons, IH.
  destruct (a ++ b) eqn:E; [|rewrite andb_false_r; reflexivity].
  destruct a; [cbn in E; congruence | discriminate].
Qed.

Lemma take_digits_app (y r : string) :
  all_digits y = true ->
  Re.take_digits (String.length y) (y ++ r) = Some (y, r).
Proof.
  induction y as [|c y IH]; [reflexivity|].
  intros H. apply all_digits_cons in H as [Hc Hy].
  cbn [String.length String.append Re.take_digits]. rewrite Hc, (IH Hy). reflexivity.
Qed.

Lemma lstrip_spaces (ws r : string) (c : ascii) :
  all_chars Py.is_space ws = true -> Py.is_space c = false ->
  Py.lstrip (ws ++ String c r) = String c r.
Proof.
  intros Hws Hc. induction ws as [|x ws IH].
  - cbn [String.append Py.lstrip]. rewrite Hc. reflexivity.
  - cbn [all_chars] in Hws. apply andb_true_iff in Hws as [Hx Hws].
    cbn [String.append Py.lstrip]. rewrite Hx. apply IH, Hws.
Qed.

Lemma spaces_end_digits (ws r : string) :
  all_chars Py.is_space ws = true -> ends_digits (ws ++ String "(" r) = true.
Proof.
  destruct ws as [|x ws]; [reflexivity|].
  cbn [all_chars String.append ends_digits]. intros H.
  apply andb_true_iff in H as [Hx _]. rewrite (space_not_digit x Hx). reflexivity.
Qed.

(** Once a best time is set, the table loop of the stat scraper leaves
    its three variables alone. *)
Lemma stat_tables_frozen (b : best) (tables : list (list (list string))) :
  Py.falsy (best_time b) = false ->
  fold_left (fun b rows => fold_left StoltzenStatScraper.scan_row rows b) tables b
  = b.
Proof.
  intros Hb.
  apply (fold_left_invariant (fun x => x = b)); [|reflexivity].
  intros a rows ->.
  apply (fold_left_invariant (fun x => x = b)); [|reflexivity].
  intros a cells ->. unfold StoltzenStatScraper.scan_row.
  destruct (2 <=? List.length cells)%nat; [|reflexivity].
  apply (fold_left_invariant (fun x => x = b)); [|reflexivity].
  intros a ic ->. unfold StoltzenStatScraper.scan_cell. rewrite Hb. reflexivity.
Qed.

(** X15: A personal-best cell [m.ss (yyyy)] decides alone: whatever the
    tables hold, the best time is [m:ss], the best year [yyyy], also
    2024, and the best seconds are what [time_to_seconds] gives for
    [m:ss]. *)
Theorem personal_best_wins (m sec ws y : string)
    (tables : list (list (list string))) :
  all_digits m = true -> m <> EmptyString ->
  all_digits sec = true -> sec <> EmptyString ->
  all_chars Py.is_space ws = true ->
  all_digits y = true -> String.length y = 4%nat ->
  StoltzenStatScraper.history
    (Some (m ++ "." ++ sec ++ ws ++ "(" ++ y ++ ")")) tables
  = {| best_time := Some (m ++ ":" ++ sec);
       best_year := Some (Py.int_group y);
       best_time_seconds := Some (Py.int_group m * 60 + Py.int_group sec) |}
  /\ StoltzenStatScraper.time_to_seconds (m ++ ":" ++ sec)
     = Some (Py.int_group m * 60 + Py.int_group sec).
Proof.
  intros Hm Nm Hs Ns Hws Hy Ly.
  split; [|apply (time_to_seconds_colon m sec Hm Nm Hs Ns)].
  set (text := m ++ "." ++ sec ++ ws ++ "(" ++ y ++ ")").
  assert (Hstrip : Py.strip text = text).
  { unfold Py.strip, text. destruct m as [|c m']; [congruence|].
    pose proof Hm as Hm'. apply all_digits_cons in Hm' as [Hc _].
    cbn [String.append Py.lstrip]. rewrite (digit_not_space c Hc).
    apply (rstrip_app_fixed (String c m')). 2: discriminate.
    apply (rstrip_app_fixed "."). 2: destruct sec; [congruence | discriminate].
    apply rstrip_app_fixed. 2: destruct ws; discriminate.
    apply rstrip_app_fixed. 2: discriminate.
    apply (rstrip_app_fixed "("). 2: destruct y; discriminate.
    apply rstrip_app_fixed; [reflexivity | discriminate]. }
  assert (Hsearch : Re.search Re.match_personal_best text = Some (m, sec, y)).
  { assert (Hhead : Re.match_personal_best text = Some (m, sec, y)).
    { unfold Re.match_personal_best, text.
      rewrite (digits1_app m _ Hm Nm) by reflexivity.
      cbn [bind String.append Re.take_char Ascii.eqb Bool.eqb].
      rewrite (digits1_app sec _ Hs Ns) by (apply spaces_end_digits, Hws).
      cbn [bind]. rewrite (lstrip_spaces ws _ "(" Hws) by reflexivity.
      cbn [bind Re.take_char Ascii.eqb Bool.eqb].
      rewrite <- Ly, (take_digits_app y _ Hy). reflexivity. }
    destruct text; cbn [Re.search]; rewrite Hhead; reflexivity. }
  unfold StoltzenStatScraper.history.
  assert (Hpb : StoltzenStatScraper.personal_best (Some text)
                = {| best_time := Some (m ++ ":" ++ sec);
                     best_year := Some (Py.int_group y);
                     best_time_seconds :=
                       Some (Py.int_group m * 60 + Py.int_group sec) |}).
  { unfold StoltzenStatScraper.personal_best. rewrite Hstrip, Hsearch. reflexivity. }
  rewrite Hpb. apply stat_tables_frozen.
  cbn [best_time Py.falsy]. destruct m; [congruence | reflexivity].
Qed.

Lemma personal_best_wins_witness :
  StoltzenStatScraper.history (Some "07.54 (2016)")
    [[["2019"; "07.40"]]]
  = {| best_time := Some "07:54"; best_year := Some 2016;
       best_time_seconds := Some 474 |}.
Proof.
  apply (proj1 (personal_best_wins "07" "54" " " "2016" [[["2019"; "07.40"]]]
                  eq_refl ltac:(discriminate) eq_refl ltac:(discriminate)
                  eq_refl eq_refl eq_refl)).
Defined.

(** X16: The fields [parse_participant_profile] derives: best time and best
    year are absent together; a best time is never empty and
    [time_to_seconds] converts it; the new-best flag is the condition as
    the specification words it; a set flag beside a best time means a
    best year before 2024 and a negative delta. *)
Theorem stat_compare_with_history_fields
    (current_year_time personal_best_td : option string)
    (tables : list (list (list string))) :
  let r := StoltzenStatScraper.compare_with_history
             current_year_time personal_best_td tables in
  (BesteTidligere r = None <-> BesteAar r = None)
  /\ (forall t : string,
        BesteTidligere r = Some t ->
        Py.is_empty t = false
        /\ exists n : Z, StoltzenStatScraper.time_to_seconds t = Some n /\ 0 <= n)
  /\ NyBestetid r
     = worded_is_new_best StoltzenStatScraper.time_to_seconds current_year_time
         (BesteTidligere r) (BesteAar r)
  /\ (BesteTidligere r <> None ->
      NyBestetid r = true ->
      (exists y : Z, BesteAar r = Some y /\ y < 2024)
      /\ exists x : string, Differanse r = Some (String "-" x)).
Proof.
  cbv zeta. unfold StoltzenStatScraper.compare_with_history.
  cbn [BesteTidligere BesteAar NyBestetid Differanse].
  unfold StoltzenStatScraper.is_new_best_time,
    StoltzenStatScraper.calculate_time_difference.
  destruct (stat_history_kept personal_best_td tables)
    as [-> | (t & y & n & -> & (He & Hs & Hn) & _)];
    cbn [best_time best_year no_best].
  - split; [tauto|]. split; [discriminate|]. split; [|congruence].
    unfold is_new_best_time_with, worded_is_new_best. cbn [Py.falsy orb andb].
    destruct (Py.falsy current_year_time); reflexivity.
  - split; [split; discriminate|]. split; [|split].
    + intros t' [= <-]. eauto.
    + unfold is_new_best_time_with, worded_is_new_best.
      cbn [Py.falsy Py.is_none orb andb seconds_of]. rewrite He, Hs. cbn [orb].
      destruct current_year_time as [cur|]; cbn [Py.falsy seconds_of]; [|reflexivity].
      destruct (Py.is_empty cur); cbn [negb andb]; [reflexivity|].
      rewrite Z.geb_leb.
      destruct (Z.leb_spec 2024 y), (Z.ltb_spec y 2024); try lia; cbn [andb];
        reflexivity.
    + intros _ Hnb.
      assert (Hy24 : y < 2024).
      { destruct (Z.lt_ge_cases y 2024) as [|Hge]; [assumption|].
        rewrite is_new_best_time_with_late_year in Hnb by (cbn [Py.falsy]; auto; lia).
        discriminate. }
      split; [exists y; auto|].
      apply (calculate_time_difference_with_faster _ current_year_time (Some t) y);
        auto.
Qed.

Lemma stat_compare_with_history_fields_witness :
  Py.is_empty "07:54" = false
  /\ exists n : Z, StoltzenStatScraper.time_to_seconds "07:54" = Some n /\ 0 <= n.
Proof.
  apply (proj1 (proj2 (stat_compare_with_history_fields
                         (Some "08:11") (Some "07.54 (2016)") []))).
  reflexivity.
Defined.

(** *** The table loop of the stat scraper, cell by cell *)

Lemma concat_flat_map {A B : Type} (f : A -> list (list B)) (l : list A) :
  List.concat (flat_map f l) = flat_map (fun x => List.concat (f x)) l.
Proof.
  induction l as [|x l IH]; [reflexivity|].
  cbn [flat_map]. rewrite concat_app, IH. reflexivity.
Qed.

Lemma concat_cell_groups (tables : list (list (list string))) :
  List.concat (cell_groups tables) = candidates tables.
Proof.
  unfold cell_groups, candidates. rewrite concat_flat_map.
  apply flat_map_ext. intros rows. rewrite concat_flat_map.
  apply flat_map_ext. intros cells. unfold row_groups, row_candidates.
  destruct (2 <=? List.length cells)%nat; [|reflexivity].
  symmetry. apply flat_map_concat_map.
Qed.

Lemma stat_history_groups (td : option string) (tables : list (list (list string))) :
  StoltzenStatScraper.history td tables
  = fold_left guarded_step (cell_groups tables) (StoltzenStatScraper.personal_best td).
Proof.
  unfold StoltzenStatScraper.history, cell_groups.
  rewrite fold_left_flat_map. apply fold_left_pointwise. intros a rows.
  rewrite fold_left_flat_map. apply fold_left_pointwise. intros a' cells.
  unfold StoltzenStatScraper.scan_row, row_groups.
  destruct (2 <=? List.length cells)%nat; [|reflexivity].
  rewrite fold_left_mapped. apply fold_left_pointwise. intros b ic.
  unfold StoltzenStatScraper.scan_cell, guarded_step.
  destruct (Py.falsy (best_time b)); [|reflexivity].
  apply scan_year_cell_candidates.
Qed.

Lemma guarded_frozen (b : best) (groups : list (list (Z * string))) :
  Py.falsy (best_time b) = false -> fold_left guarded_step groups b = b.
Proof.
  intros Hb. apply (fold_left_invariant (fun x => x = b)); [|reflexivity].
  intros a g ->. unfold guarded_step. rewrite Hb. reflexivity.
Qed.

(** The guarded pass ends empty-handed when no group offers a time, and
    else with what the first group that offers one leaves of its own. *)
Lemma guarded_pass_characterised (groups : list (list (Z * string))) :
  let offered := offered_time_with StoltzenStatScraper.parse_time
                   StoltzenStatScraper.time_to_seconds in
  let step := consider_candidate_with StoltzenStatScraper.parse_time
                StoltzenStatScraper.time_to_seconds in
  let b := fold_left guarded_step groups no_best in
  (b = no_best
   /\ forall g yc, In g groups -> In yc g -> offered (snd yc) = None)
  \/ exists (G1 : list (list (Z * string))) (g : list (Z * string))
            (G2 : list (list (Z * string))),
       groups = (G1 ++ g :: G2)%list
       /\ (forall g' yc, In g' G1 -> In yc g' -> offered (snd yc) = None)
       /\ b = fold_left step g no_best
       /\ Py.falsy (best_time b) = false.
Proof.
  cbv zeta. induction groups as [|g rest IH].
  - left. split; [reflexivity|]. intros g yc [].
  - cbn [fold_left].
    change (guarded_step no_best g)
      with (fold_left (consider_candidate_with StoltzenStatScraper.parse_time
                         StoltzenStatScraper.time_to_seconds) g no_best).
    destruct (pass_characterised StoltzenStatScraper.parse_time
                StoltzenStatScraper.time_to_seconds g)
      as [[Hb Hnone] | (l1 & y & c & l2 & t & n & Hg & Ho & Hb & H1 & H2)].
    + rewrite Hb.
      destruct IH as [[Hr Hall] | (G1 & g0 & G2 & -> & HG1 & Hr & Hf)].
      * left. split; [exact Hr|]. intros g' yc [<- | Hin] Hyc; eauto.
      * right. exists (g :: G1), g0, G2. repeat split; auto.
        intros g' yc [<- | Hin] Hyc; eauto.
    + assert (Hf : Py.falsy (best_time (fold_left
                      (consider_candidate_with StoltzenStatScraper.parse_time
                         StoltzenStatScraper.time_to_seconds) g no_best)) = false).
      { rewrite Hb. cbn [best_time Py.falsy].
        apply stat_offered_time_spec in Ho as (He & _). exact He. }
      rewrite (guarded_frozen _ rest Hf).
      right. exists [], g, rest. repeat split; auto. intros g' yc [].
Qed.

(** X17: Without a personal-best cell the stat scraper stops at the first
    year cell that has a time beside it: the loop ends empty-handed when
    no year neighbour offers a time, and else with the fastest offer of
    the first group of candidates, in loop order, that holds an offer,
    whatever later groups offer. *)
Theorem stat_history_first_offer (td : option string)
    (tables : list (list (list string))) :
  StoltzenStatScraper.personal_best td = no_best ->
  let offered := offered_time_with StoltzenStatScraper.parse_time
                   StoltzenStatScraper.time_to_seconds in
  let b := StoltzenStatScraper.history td tables in
  (b = no_best
   /\ forall (y : Z) (c : string), year_neighbour tables y c -> offered c = None)
  \/ exists (G1 : list (list (Z * string))) (g : list (Z * string))
            (G2 : list (list (Z * string))) (y : Z) (c t : string) (n : Z),
       cell_groups tables = (G1 ++ g :: G2)%list
       /\ (forall g' y' c', In g' G1 -> In (y', c') g' -> offered c' = None)
       /\ In (y, c) g /\ offered c = Some (t, n)
       /\ b = {| best_time := Some t; best_year := Some y;
                 best_time_seconds := Some n |}
       /\ (forall y' c' t' n',
             In (y', c') g -> offered c' = Some (t', n') -> n <= n').
Proof.
  intros Hpb. cbv zeta. rewrite stat_history_groups, Hpb.
  destruct (guarded_pass_characterised (cell_groups tables))
    as [[Hb Hnone] | (G1 & g & G2 & HG & HG1 & Hb & Hf)].
  - left. split; [exact Hb|]. intros y c Hyn.
    apply in_candidates in Hyn. rewrite <- concat_cell_groups in Hyn.
    apply in_concat in Hyn as (g & Hg & Hin). apply (Hnone g (y, c) Hg Hin).
  - right. rewrite Hb in *.
    destruct (pass_characterised StoltzenStatScraper.parse_time
                StoltzenStatScraper.time_to_seconds g)
      as [[Hb' _] | (l1 & y & c & l2 & t & n & Hg & Ho & Hb' & H1 & H2)];
      rewrite Hb' in *; [discriminate Hf|].
    exists G1, g, G2, y, c, t, n. repeat split; auto.
    + intros g' y' c' Hg' Hin. apply (HG1 g' (y', c') Hg' Hin).
    + rewrite Hg. apply in_or_app. right. left. reflexivity.
    + intros y' c' t' n' Hin Hoff. rewrite Hg in Hin.
      apply in_app_or in Hin as [Hin | [Heq | Hin]].
      * specialize (H1 (y', c') t' n' Hin Hoff). lia.
      * injection Heq as <- <-. rewrite Ho in Hoff. injection Hoff as _ <-. lia.
      * apply (H2 (y', c') t' n' Hin Hoff).
Qed.

Lemma stat_history_first_offer_witness :
  StoltzenStatScraper.history None [[["2016"; "8:11"]; ["2020"; "7:40"]]]
  <> no_best.
Proof.
  destruct (stat_history_first_offer None [[["2016"; "8:11"]; ["2020"; "7:40"]]]
              eq_refl)
    as [[Hb _] | (G1 & g & G2 & y & c & t & n & _ & _ & _ & _ & Hb & _)];
    [vm_compute in Hb; discriminate Hb | rewrite Hb; discriminate].
Defined.

(** The same page read by both classes: the stat scraper keeps the time
    beside the first year, the other class the fastest one. *)
Example history_first_against_fastest :
  StoltzenStatScraper.history None [[["2016"; "8:11"]; ["2020"; "7:40"]]]
  = {| best_time := Some "8:11"; best_year := Some 2016;
       best_time_seconds := Some 491 |}
  /\ StoltzenScraper.history [[["2016"; "8:11"]; ["2020"; "7:40"]]]
     = {| best_time := Some "7:40"; best_year := Some 2020;
          best_time_seconds := Some 460 |}.
Proof. split; reflexivity. Qed.

(** ** [is_new_best_time] on what the profile loops hand it *)

Lemma kept_paired (P : string -> Z -> Prop) (Y : Z -> Prop) (b : best) :
  (forall t n, P t n -> Py.is_empty t = false) ->
  kept P Y b -> paired (best_time b) (best_year b).
Proof.
  intros HP [-> | (t & y & n & -> & Ht & _)].
  - left. split; reflexivity.
  - right. exists t, y. cbn [best_time best_year]. eauto.
Qed.

(** C4: on a best time and a best year as the profile loops hand them
    over (both absent, or a non-empty best time with its year),
    [is_new_best_time] is [true] exactly when the current time is present
    and either there is no previous best or the best year is before 2024
    and the current time has fewer seconds than the best time; it is
    [false] whenever the current time is absent, and [false] whenever the
    best year is 2024 or later.  Both classes; and the loop of
    [fetch_participant_profile] and that of [parse_participant_profile]
    both end with such a pair. *)
Theorem is_new_best_time_as_worded :
  (forall (current_time best_previous : option string) (best_year : option Z),
      paired best_previous best_year ->
      let holds (tts : string -> option Z) :=
        Py.falsy current_time = false
        /\ ((best_previous = None /\ best_year = None)
            \/ exists (cur best : string) (y c b : Z),
                 current_time = Some cur /\ best_previous = Some best
                 /\ best_year = Some y /\ y < 2024
                 /\ tts cur = Some c /\ tts best = Some b /\ c < b) in
      (StoltzenScraper.is_new_best_time current_time best_previous best_year = true
       <-> holds StoltzenScraper.time_to_seconds)
      /\ (StoltzenStatScraper.is_new_best_time current_time best_previous best_year
          = true
          <-> holds StoltzenStatScraper.time_to_seconds)
      /\ (Py.falsy current_time = true ->
          StoltzenScraper.is_new_best_time current_time best_previous best_year
          = false
          /\ StoltzenStatScraper.is_new_best_time current_time best_previous best_year
             = false)
      /\ (forall y : Z,
            best_year = Some y -> y >= 2024 ->
            StoltzenScraper.is_new_best_time current_time best_previous best_year
            = false
            /\ StoltzenStatScraper.is_new_best_time current_time best_previous
                 best_year = false))
  /\ (forall tables : list (list (list string)),
        paired (best_time (StoltzenScraper.history tables))
               (best_year (StoltzenScraper.history tables)))
  /\ (forall (personal_best_td : option string)
             (tables : list (list (list string))),
        paired (best_time (StoltzenStatScraper.history personal_best_td tables))
               (best_year (StoltzenStatScraper.history personal_best_td tables))).
Proof.
  split; [|split].
  - intros current_time best_previous best_year Hp. cbv zeta.
    unfold StoltzenScraper.is_new_best_time, StoltzenStatScraper.is_new_best_time.
    assert (Hiff : forall tts : string -> option Z,
               is_new_best_time_with tts current_time best_previous best_year = true
               <-> Py.falsy current_time = false
                   /\ ((best_previous = None /\ best_year = None)
                       \/ exists (cur best : string) (y c b : Z),
                            current_time = Some cur /\ best_previous = Some best
                            /\ best_year = Some y /\ y < 2024
                            /\ tts cur = Some c /\ tts best = Some b /\ c < b)).
    { intros tts. rewrite is_new_best_time_with_true.
      destruct Hp as [[-> ->] | (t & y & -> & He & ->)].
      - split; intros [Hc _]; (split; [exact Hc|]); left; [split|]; reflexivity.
      - cbn [Py.falsy]. rewrite He.
        split; intros [Hc H]; (split; [exact Hc|]).
        + destruct H as [H | [H | H]]; [discriminate H | discriminate H |].
          right. exact H.
        + destruct H as [[H _] | H]; [discriminate H|]. right. right. exact H. }
    split; [apply Hiff|]. split; [apply Hiff|]. split.
    + intros H. split; apply is_new_best_time_with_absent_current, H.
    + intros y -> Hy.
      destruct Hp as [[_ H] | (t & y' & -> & He & _)]; [discriminate H|].
      split; apply is_new_best_time_with_late_year; cbn [Py.falsy]; assumption.
  - intros tables.
    apply (kept_paired _ _ _ (fun t n H => proj1 H) (history_keeps_coherent tables)).
  - intros td tables.
    apply (kept_paired _ _ _ (fun t n H => proj1 H) (stat_history_kept td tables)).
Qed.

Lemma is_new_best_time_as_worded_witness :
  paired (Some "8:11") (Some 2016)
  /\ StoltzenScraper.is_new_best_time (Some "7:30") (Some "8:11") (Some 2016) = true
  /\ StoltzenStatScraper.is_new_best_time (Some "7:30") None None = true
  /\ StoltzenStatScraper.is_new_best_time None (Some "8:11") (Some 2016) = false
  /\ StoltzenScraper.is_new_best_time (Some "7:30") (Some "8:11") (Some 2024) = false.
Proof.
  assert (Hp : forall y : Z, paired (Some "8:11") (Some y)).
  { intros y. right. exists "8:11", y. repeat split. }
  assert (Hn : paired None None) by (left; split; reflexivity).
  split; [apply Hp|]. split; [|split; [|split]].
  - apply (proj1 (proj1 is_new_best_time_as_worded
                    (Some "7:30") (Some "8:11") (Some 2016) (Hp 2016))).
    split; [reflexivity|]. right.
    exists "7:30", "8:11", 2016, 450, 491. repeat split; reflexivity.
  - apply (proj1 (proj2 (proj1 is_new_best_time_as_worded
                           (Some "7:30") None None Hn))).
    split; [reflexivity|]. left. split; reflexivity.
  - apply (proj1 (proj2 (proj2 (proj1 is_new_best_time_as_worded
                                  None (Some "8:11") (Some 2016) (Hp 2016))))).
    reflexivity.
  - apply (proj2 (proj2 (proj2 (proj1 is_new_best_time_as_worded
                                  (Some "7:30") (Some "8:11") (Some 2024) (Hp 2024))))
             2024); [reflexivity | lia].
Defined.

(** ** [load_urls_from_file] *)

Lemma lstrip_head (s : string) :
  Py.lstrip s = EmptyString
  \/ exists (c : ascii) (r : string), Py.lstrip s = String c r /\ Py.is_space c = false.
Proof.
  induction s as [|c r IH]; [left; reflexivity|].
  cbn [Py.lstrip]. destruct (Py.is_space c) eqn:E; [exact IH|].
  right. exists c, r. auto.
Qed.

Lemma rstrip_idempotent (s : string) : Py.rstrip (Py.rstrip s) = Py.rstrip s.
Proof.
  induction s as [|c r IH]; [reflexivity|].
  rewrite rstrip_cons.
  destruct (Py.is_space c && Py.is_empty (Py.rstrip r)) eqn:E; [reflexivity|].
  rewrite rstrip_cons, IH, E. reflexivity.
Qed.

(** [strip()] of a trimmed string changes nothing. *)
Lemma strip_idempotent (s : string) : Py.strip (Py.strip s) = Py.strip s.
Proof.
  unfold Py.strip.
  destruct (lstrip_head s) as [-> | (c & r & -> & Hc)]; [reflexivity|].
  assert (H : Py.rstrip (String c r) = String c (Py.rstrip r))
    by (rewrite rstrip_cons, Hc; reflexivity).
  rewrite H. cbn [Py.lstrip]. rewrite Hc.
  rewrite rstrip_cons, Hc, rstrip_idempotent. reflexivity.
Qed.

Lemma load_urls_filter_from (lines : list string) (acc : list string) :
  fold_left
    (fun urls line =>
       let line := Py.strip line in
       if negb (Py.is_empty line) && negb (String.prefix "#" line) then
         if Py.contains "stat.php?id=" line then (urls ++ [line])%list
         else urls
       else urls)
    lines acc
  = (acc ++ filter valid_url (map Py.strip lines))%list.
Proof.
  revert acc. induction lines as [|l lines IH]; intros acc.
  - cbn. rewrite List.app_nil_r. reflexivity.
  - cbn [fold_left map filter]. rewrite IH. unfold valid_url. cbv zeta.
    destruct (negb (Py.is_empty (Py.strip l)) && negb (String.prefix "#" (Py.strip l)));
      cbn [andb]; [|reflexivity].
    destruct (Py.contains "stat.php?id=" (Py.strip l)); [|reflexivity].
    rewrite <- List.app_assoc. reflexivity.
Qed.

Lemma filter_valid_fixed (l : list string) :
  (forall u, In u l -> Py.strip u = u /\ valid_url u = true) ->
  filter valid_url (map Py.strip l) = l.
Proof.
  induction l as [|u l IH]; intros H; [reflexivity|].
  destruct (H u (in_eq _ _)) as [Hs Hv].
  cbn [map filter]. rewrite Hs, Hv. f_equal.
  apply IH. intros x Hx. apply H. right. exact Hx.
Qed.

(** X18: [load_urls_from_file] returns, in file order, the trimmed lines that
    are not empty, do not start with [#] and hold [stat.php?id=]; and
    loading its own result again returns it unchanged. *)
Theorem load_urls_from_file_spec (lines : list string) :
  StoltzenStatScraper.load_urls_from_file lines
  = filter valid_url (map Py.strip lines)
  /\ (forall url : string,
        In url (StoltzenStatScraper.load_urls_from_file lines) ->
        Py.strip url = url /\ url <> EmptyString
        /\ String.prefix "#" url = false
        /\ Py.contains "stat.php?id=" url = true)
  /\ StoltzenStatScraper.load_urls_from_file
       (StoltzenStatScraper.load_urls_from_file lines)
     = StoltzenStatScraper.load_urls_from_file lines.
Proof.
  assert (Hf : forall l, StoltzenStatScraper.load_urls_from_file l
                         = filter valid_url (map Py.strip l)).
  { intros l. unfold StoltzenStatScraper.load_urls_from_file.
    rewrite load_urls_filter_from. reflexivity. }
  assert (Hin : forall url, In url (filter valid_url (map Py.strip lines)) ->
                            Py.strip url = url /\ valid_url url = true).
  { intros url H. apply filter_In in H as [H Hv]. split; [|exact Hv].
    apply in_map_iff in H as (l & <- & _). apply strip_idempotent. }
  split; [apply Hf|]. split.
  - intros url H. rewrite Hf in H. apply Hin in H as [Hs Hv].
    unfold valid_url in Hv. rewrite !andb_true_iff, !negb_true_iff in Hv.
    destruct Hv as [[He Hp] Hc]. repeat split; auto.
    intros ->. discriminate He.
  - rewrite (Hf (StoltzenStatScraper.load_urls_from_file lines)), (Hf lines).
    apply filter_valid_fixed, Hin.
Qed.

Lemma load_urls_from_file_spec_witness :
  Py.strip "http://stoltzen.no/stat.php?id=12" = "http://stoltzen.no/stat.php?id=12"
  /\ "http://stoltzen.no/stat.php?id=12" <> EmptyString
  /\ String.prefix "#" "http://stoltzen.no/stat.php?id=12" = false
  /\ Py.contains "stat.php?id=" "http://stoltzen.no/stat.php?id=12" = true.
Proof.
  apply (proj1 (proj2 (load_urls_from_file_spec
                         ["# deltakere"; " http://stoltzen.no/stat.php?id=12 ";
                          ""; "http://example.org/"]))).
  vm_compute. auto.
Defined.
